(** * focus_group: the persona decision pipeline of [backend/simulation.py],
    the oracles of [backend/llm_service.py], the prompts of
    [backend/prompts.py] and the stream of [backend/main.py]

    A shallow embedding of the Python code.  Python objects that come back
    from the language-model oracle are dynamically typed, so they are
    embedded as a value type [pyval]; exceptions are embedded as the [Raise]
    constructor of [Result]; the oracle and the clock change an explicit
    world state that is threaded through the calls; Python floats are IEEE
    754 binary64 numbers, embedded as the exact rationals they denote with
    round-to-nearest-even written out. *)

From Stdlib Require Import ZArith QArith Qround Qpower Qabs Lia Lqa.
From Stdlib Require Import Ascii Floats Uint63 DecimalString.
From stdpp Require Import gmap strings list.

Set Default Proof Using "Type".
Set Warnings "-register-all".

(** ** Exceptions and fallible computations *)

Inductive exn : Type :=
| AttributeError
| TypeError
| ValueError
| KeyError
| ZeroDivisionError
| OverflowError
| JSONDecodeError
| SyntaxError
| ValidationError
| OracleError.

Inductive Result (A : Type) : Type :=
| Ok (a : A)
| Raise (e : exn).
Arguments Ok {A} a.
Arguments Raise {A} e.

(** Sequencing stops at the first exception: [x ← r; k] is stdpp's
    notation for [mbind]. *)
#[export] Instance Result_bind : MBind Result := fun A B k r =>
  match r with
  | Ok a => k a
  | Raise e => Raise e
  end.

#[export] Instance Result_ret : MRet Result := fun A a => Ok a.

(** ** Python floats: IEEE 754 binary64 *)

Module Float64.
Local Open Scope Q_scope.

(** 53 bits of precision; the least subnormal is [2^-1074]; every finite
    double is below [2^1024]. *)
Definition prec : Z := 53.
Definition emin : Z := -1074.
Definition emax : Z := 1024.

Definition pow2 (k : Z) : Q := Qpower 2 k.

(** [ilog2 q] is the binade of a positive rational: [2^e <= q < 2^(e+1)]. *)
Definition ilog2 (q : Q) : Z :=
  let k := (Z.log2 (Qnum q) - Z.log2 (Zpos (Qden q)))%Z in
  if Qle_bool (pow2 k) q then k else (k - 1)%Z.

(** Nearest integer, ties to the even one. *)
Definition round_half_even (x : Q) : Z :=
  let f := Qfloor x in
  match Qcompare (x - inject_Z f) (1 # 2) with
  | Lt => f
  | Gt => (f + 1)%Z
  | Eq => if Z.even f then f else (f + 1)%Z
  end.

(** The exponent of the unit in the last place at [q]: 52 below the binade,
    but never below the subnormal grid. *)
Definition ulp_exp (q : Q) : Z := Z.max (ilog2 (Qabs q) - (prec - 1)) emin.

(** [round64 q]: the binary64 number nearest to [q] (ties to even), as an
    exact rational in lowest terms.  Overflow is decided by the callers. *)
Definition round64 (q : Q) : Q :=
  if Qeq_bool q 0 then 0
  else let g := ulp_exp q in
       Qred (inject_Z (round_half_even (q / pow2 g)) * pow2 g).

Definition overflows (q : Q) : bool := Qle_bool (pow2 emax) (Qabs q).

(** A Python [float].  The sign of a zero is not kept: nothing in the code
    modelled here observes it. *)
Inductive pyfloat : Type :=
| Finite (q : Q)
| Infinity (negative : bool)
| NaN.

Definition Qnegative (q : Q) : bool := negb (Qle_bool 0 q).

(** [a / b] on Python ints: the correctly rounded quotient. *)
Definition int_truediv (a b : Z) : Result pyfloat :=
  if (b =? 0)%Z then Raise ZeroDivisionError
  else let q := round64 (inject_Z a / inject_Z b) in
       if overflows q then Raise OverflowError else Ok (Finite q).

(** [x * y] on Python floats. *)
Definition float_mul (x y : pyfloat) : pyfloat :=
  match x, y with
  | NaN, _ | _, NaN => NaN
  | Finite a, Finite b =>
      let r := round64 (a * b) in
      if overflows r then Infinity (Qnegative r) else Finite r
  | Finite a, Infinity s | Infinity s, Finite a =>
      if Qeq_bool a 0 then NaN else Infinity (xorb s (Qnegative a))
  | Infinity s, Infinity t => Infinity (xorb s t)
  end.

(** [int(x)] on a Python float: truncation towards zero. *)
Definition float_to_int (x : pyfloat) : Result Z :=
  match x with
  | Finite q => Ok (Z.quot (Qnum q) (Zpos (Qden q)))
  | Infinity _ => Raise OverflowError
  | NaN => Raise ValueError
  end.

Definition float_is_zero (x : pyfloat) : bool :=
  match x with
  | Finite q => Qeq_bool q 0
  | _ => false
  end.

End Float64.
Export Float64.

(** ** Python values *)

(** The objects [json.loads] and [ast.literal_eval] can return.  A dict is
    the list of its bindings; [POther] stands for the remaining
    literals (complex numbers, [Ellipsis]), which support none of the
    operations used below and only carry their truth value. *)
Inductive pyval : Type :=
| PNone
| PBool (b : bool)
| PInt (z : Z)
| PFloat (f : pyfloat)
| PStr (s : string)
| PBytes (b : string)
| PList (items : list pyval)
| PTuple (items : list pyval)
| PSet (items : list pyval)
| PDict (bindings : list (pyval * pyval))
| POther (truth : bool).

Definition is_nil {A : Type} (l : list A) : bool :=
  match l with [] => true | _ => false end.

(** Truth value of an object, as [or], [if] and [not] use it. *)
Definition truthy (v : pyval) : bool :=
  match v with
  | PNone => false
  | PBool b => b
  | PInt z => negb (z =? 0)%Z
  | PFloat f => negb (float_is_zero f)
  | PStr s => negb (String.eqb s "")
  | PBytes b => negb (String.eqb b "")
  | PList l | PTuple l | PSet l => negb (is_nil l)
  | PDict kvs => negb (is_nil kvs)
  | POther b => b
  end.

(** [v == s] for a str literal [s]: only a str equals a str. *)
Definition is_str (v : pyval) (s : string) : bool :=
  match v with
  | PStr s' => String.eqb s' s
  | _ => false
  end.

Fixpoint lookup_key (k : string) (kvs : list (pyval * pyval)) : option pyval :=
  match kvs with
  | [] => None
  | (k', v) :: rest => if is_str k' k then Some v else lookup_key k rest
  end.

(** [d.get(k, dflt)]; only a dict has [get]. *)
Definition py_get (d : pyval) (k : string) (dflt : pyval) : Result pyval :=
  match d with
  | PDict kvs => Ok (default dflt (lookup_key k kvs))
  | _ => Raise AttributeError
  end.

(** [bytes.lower()]: the ASCII letters only. *)
Definition ascii_lower (c : Ascii.ascii) : Ascii.ascii :=
  let n := Ascii.nat_of_ascii c in
  if (65 <=? n)%nat && (n <=? 90)%nat then Ascii.ascii_of_nat (n + 32) else c.

Fixpoint bytes_lower (b : string) : string :=
  match b with
  | EmptyString => EmptyString
  | String c rest => String (ascii_lower c) (bytes_lower rest)
  end.

(** [x in allowed] for a list of str literals, and the clamp built on it:
    [x if x in allowed else dflt]. *)
Definition member_str (v : pyval) (allowed : list string) : bool :=
  existsb (is_str v) allowed.

Definition clamp_str (v : pyval) (allowed : list string) (dflt : string) : string :=
  match v with
  | PStr s => if member_str v allowed then s else dflt
  | _ => dflt
  end.

(** [re.search(r'\{.*\}', s, re.DOTALL)]: the text from the first opening
    brace to the last closing brace after it, when there is one. *)
Fixpoint from_first_open (s : string) : option string :=
  match s with
  | EmptyString => None
  | String c rest => if Ascii.eqb c "{"%char then Some s else from_first_open rest
  end.

Fixpoint through_last_close (s : string) : option string :=
  match s with
  | EmptyString => None
  | String c rest =>
      match through_last_close rest with
      | Some t => Some (String c t)
      | None => if Ascii.eqb c "}"%char then Some (String c EmptyString) else None
      end
  end.

Definition re_search_object (s : string) : option string :=
  match from_first_open s with
  | Some t => through_last_close t
  | None => None
  end.

Definition is_substring (needle hay : string) : bool :=
  match String.index 0 needle hay with Some _ => true | None => false end.

(** ** The Python runtime the code calls into

    Library functions whose result depends on the Unicode tables, on the
    JSON and literal grammars, on the per-process hash seed, or on the
    declarations of [models.py] are operations of the runtime. *)
Class Builtins : Type := {
  (** [str.lower()] *)
  str_lower : string -> string;
  (** [s.replace(old, new)] *)
  str_replace : string -> string -> string -> string;
  (** [str.strip()] *)
  str_strip : string -> string;
  (** [str.split()] *)
  str_split : string -> list string;
  (** [json.loads] *)
  json_loads : string -> Result pyval;
  (** [ast.literal_eval] *)
  literal_eval : string -> Result pyval;
  (** [hash] on a persona identifier *)
  py_hash : string -> Z;
  (** what the validation of a text field of a model of [models.py] makes
      of the value supplied for it *)
  coerce_str : pyval -> Result string
}.

(** A str passes the validation of a text field unchanged. *)
Definition accepts_text `{Builtins} : Prop :=
  forall s, coerce_str (PStr s) = Ok s.

(** Validation never turns a true value into the empty text. *)
Definition keeps_nonblank `{Builtins} : Prop :=
  forall v s, truthy v = true -> coerce_str v = Ok s -> s <> "".

Section PythonObjects.
Context `{Builtins}.

(** [v.lower()]: a str and a bytes object have the method. *)
Definition py_lower (v : pyval) : Result pyval :=
  match v with
  | PStr s => Ok (PStr (str_lower s))
  | PBytes b => Ok (PBytes (bytes_lower b))
  | _ => Raise AttributeError
  end.

(** [key in v] for a str literal [key]. *)
Definition py_contains (v : pyval) (key : string) : Result bool :=
  match v with
  | PDict kvs => Ok (bool_decide (is_Some (lookup_key key kvs)))
  | PList l | PTuple l | PSet l => Ok (existsb (fun x => is_str x key) l)
  | PStr s => Ok (is_substring key s)
  | _ => Raise TypeError
  end.

(** [v[key]] for a str literal [key]. *)
Definition py_getitem (v : pyval) (key : string) : Result pyval :=
  match v with
  | PDict kvs =>
      match lookup_key key kvs with
      | Some x => Ok x
      | None => Raise KeyError
      end
  | _ => Raise TypeError
  end.

(** The items a [for] loop over [v] visits.  A str yields its characters
    and a bytes object its byte values; a str is read here byte by byte, so
    a character outside ASCII shows as several items, each of them a str. *)
Definition py_iter (v : pyval) : Result (list pyval) :=
  match v with
  | PList l | PTuple l | PSet l => Ok l
  | PDict kvs => Ok (map fst kvs)
  | PStr s => Ok (map (fun c => PStr (String c EmptyString)) (String.list_ascii_of_string s))
  | PBytes b => Ok (map (fun c => PInt (Z.of_nat (nat_of_ascii c))) (String.list_ascii_of_string b))
  | _ => Raise TypeError
  end.

(** [a or b] *)
Definition py_or (a b : pyval) : pyval := if truthy a then a else b.

End PythonObjects.

(** ** [models.py] *)

(** Modelled from the spec: [models.Persona] ([models.py] is not among the
    sources): identifier, display name, role, company, psychographic
    profile and past-behaviour summary, all text. *)
Record Persona : Type := {
  persona_id : string;
  name : string;
  role : string;
  company : string;
  psychographics : string;
  pastBehavior : string
}.

(** Modelled from the spec: [models.EmailDraft]: subject, body,
    call-to-action, audience identifier and requested sample size. *)
Record EmailDraft : Type := {
  subject : string;
  body : string;
  cta : string;
  audience : string;
  sample_size : Z
}.

(** Modelled from the spec: [models.Response]: the persona, the final
    action, the sentiment label, the comment text and the detailed-reasoning
    text. *)
Record Response : Type := {
  persona : Persona;
  action : string;
  sentiment : string;
  comment : string;
  detailedReasoning : string
}.

(** Modelled from the spec: [models.Metrics]: seven integers. *)
Record Metrics : Type := {
  openRate : Z;
  clickRate : Z;
  replyRate : Z;
  spamRate : Z;
  ignoreRate : Z;
  forwardRate : Z;
  readRate : Z
}.

(** Modelled from the spec: [models.Insight]: type, title, description. *)
Record Insight : Type := {
  insight_type : string;
  title : string;
  description : string
}.

(** Modelled from the spec: [models.SimulationResult]. *)
Record SimulationResult : Type := {
  result_id : string;
  timestamp : Z;
  metrics : Metrics;
  insights : list Insight;
  responses : list Response
}.

Section Models.
Context `{Builtins}.

(** Modelled from the spec: the constructor [Response(...)] of [models.py]
    validates the values supplied for its two free-text fields; the action
    and the sentiment are str objects wherever the code builds a Response. *)
Definition new_Response (persona : Persona) (action sentiment : string)
    (comment detailedReasoning : pyval) : Result Response :=
  c ← coerce_str comment;
  d ← coerce_str detailedReasoning;
  Ok {| persona := persona; action := action; sentiment := sentiment;
        comment := c; detailedReasoning := d |}.

(** Modelled from the spec: the constructor [Insight(...)] of [models.py]
    validates the title and the description; the type is a str wherever the
    code builds an Insight. *)
Definition new_Insight (insight_type : string) (title description : pyval)
    : Result Insight :=
  t ← coerce_str title;
  d ← coerce_str description;
  Ok {| insight_type := insight_type; title := t; description := d |}.

End Models.

(** ** [prompts.py] *)

(** The four prompts of [SimulationPrompts].  A prompt is a fixed template
    filled with fields of its arguments, so it is kept as the arguments
    themselves; [analyze_results] reads the first five responses only. *)
Inductive Prompt : Type :=
| inbox_scan (persona : Persona) (draft : EmailDraft) (relevance_score : pyfloat)
| read_email (persona : Persona) (draft : EmailDraft)
| take_action (persona : Persona) (draft : EmailDraft)
| analyze_results (draft : EmailDraft) (metrics : Metrics) (sample : list Response).

(** ** [llm_service.py] *)

(** [BaseLLM]: the abstract oracle.  A call may raise, may return any
    object (text is a [PStr]), and changes the state of the world. *)
Class BaseLLM (W : Type) : Type :=
  predict : Prompt -> W -> Result pyval * W.

(** [EmbeddingService]: [use_fallback] is set by the constructor;
    [model_similarity] is the encoding of both texts followed by
    [_cosine_similarity], which may raise. *)
Record EmbeddingService : Type := {
  use_fallback : bool;
  model_similarity : string -> string -> Result pyfloat
}.

Definition stop_words : gset string :=
  list_to_set ["the"; "a"; "an"; "and"; "or"; "but"; "in"; "on"; "at"; "to";
               "for"; "of"; "with"].

Section Similarity.
Context `{Builtins}.

(** [set(text.lower().split()) - stop_words] *)
Definition keywords (text : string) : gset string :=
  list_to_set (str_split (str_lower text)) ∖ stop_words.

Definition _keyword_similarity (text1 text2 : string) : Result pyfloat :=
  let words1 := keywords text1 in
  let words2 := keywords text2 in
  if bool_decide (words1 = ∅) || bool_decide (words2 = ∅) then Ok (Finite 0)
  else
    let intersection := words1 ∩ words2 in
    let union := words1 ∪ words2 in
    int_truediv (Z.of_nat (size intersection)) (Z.of_nat (size union)).

Definition get_similarity (es : EmbeddingService) (text1 text2 : string)
    : Result pyfloat :=
  if use_fallback es then _keyword_similarity text1 text2
  else
    match model_similarity es text1 text2 with
    | Ok score => Ok score
    | Raise _ => _keyword_similarity text1 text2
    end.

End Similarity.

(** ** [simulation.py] *)

(** The wall clock, as [run_simulation_stream] reads it:
    [str(int(time.time()))] and then [int(time.time() * 1000)]. *)
Class Clock (W : Type) : Type := {
  run_id : W -> string * W;
  timestamp_ms : W -> Z * W
}.

(** The events the generator yields. *)
Inductive Event : Type :=
| progress (current total : nat)
| result (data : SimulationResult).

(** The seven counters of [run_simulation_stream]. *)
Record Counts : Type := {
  open_count : nat;
  click_count : nat;
  reply_count : nat;
  spam_count : nat;
  ignore_count : nat;
  read_count : nat;
  forward_count : nat
}.

Definition no_counts : Counts :=
  {| open_count := 0; click_count := 0; reply_count := 0; spam_count := 0;
     ignore_count := 0; read_count := 0; forward_count := 0 |}.

(** The five counters of the actions, added up. *)
Definition counted_actions (c : Counts) : nat :=
  open_count c + click_count c + reply_count c + spam_count c + ignore_count c.

(** What holds of the counters after [n] responses. *)
Definition counts_invariant (n : nat) (c : Counts) : Prop :=
  counted_actions c = n /\ forward_count c <= click_count c /\ read_count c <= n.

(** All seven rates at zero. *)
Definition no_metrics : Metrics :=
  {| openRate := 0; clickRate := 0; replyRate := 0; spamRate := 0;
     ignoreRate := 0; forwardRate := 0; readRate := 0 |}.

(** A Response with one of the five actions. *)
Definition enumerated (r : Response) : Prop :=
  action r ∈ ["opened"; "clicked"; "replied"; "spam"; "ignored"].

(** [n += 1] under a condition. *)
Definition incr_if (b : bool) (n : nat) : nat := if b then S n else n.

(** [int((count / total) * 100) if total > 0 else 0] *)
Definition percentage (count total : nat) : Result Z :=
  if (0 <? total)%nat then
    ratio ← int_truediv (Z.of_nat count) (Z.of_nat total);
    float_to_int (float_mul ratio (Finite 100))
  else Ok 0%Z.

(** The float that [percentage] truncates when the count is within a
    positive total: the quotient rounded, times 100, rounded again. *)
Definition percentage_value (count total : nat) : Q :=
  round64 (round64 (inject_Z (Z.of_nat count) / inject_Z (Z.of_nat total)) * 100)%Q.

Definition compute_metrics (c : Counts) (total : nat) : Result Metrics :=
  o ← percentage (open_count c) total;
  k ← percentage (click_count c) total;
  r ← percentage (reply_count c) total;
  s ← percentage (spam_count c) total;
  i ← percentage (ignore_count c) total;
  f ← percentage (forward_count c) total;
  d ← percentage (read_count c) total;
  Ok {| openRate := o; clickRate := k; replyRate := r; spamRate := s;
        ignoreRate := i; forwardRate := f; readRate := d |}.

(** The fallback heuristics at the end of [_generate_insights]. *)
Definition low_open_rate : Insight :=
  {| insight_type := "negative";
     title := "Низкий Open Rate";
     description := "Тема письма недостаточно привлекательна для этой аудитории." |}.

Definition high_open_rate : Insight :=
  {| insight_type := "positive";
     title := "Высокий Open Rate";
     description := "Тема письма работает отлично." |}.

Definition spam_risk : Insight :=
  {| insight_type := "warning";
     title := "Высокий риск спама";
     description := "Многие получатели отметили письмо как спам. Проверьте стоп-слова." |}.

Definition fallback_heuristics (m : Metrics) : list Insight :=
  (if (openRate m <? 20)%Z then [low_open_rate]
   else if (40 <? openRate m)%Z then [high_open_rate]
   else [])
  ++ (if (10 <? spamRate m)%Z then [spam_risk] else []).

Section Simulator.
Context `{Builtins} {W : Type} `{BaseLLM W} `{Clock W}.
Variable embedding_service : EmbeddingService.

(** [s.replace("```json", "").replace("```", "").strip()] *)
Definition strip_fences (s : string) : string :=
  str_strip (str_replace (str_replace s "```json" "") "```" "").

(** The body of a [try] around an oracle call: any exception of the call,
    of the clean-up of a reply that is not a str, or of [json.loads], gives
    the fallback of the [except] branch. *)
Definition parse_reply (reply : Result pyval) (fallback : pyval) : pyval :=
  match reply with
  | Ok (PStr text) =>
      match json_loads (strip_fences text) with
      | Ok parsed => parsed
      | Raise _ => fallback
      end
  | _ => fallback
  end.

Definition scan_fallback : pyval :=
  PDict [(PStr "action", PStr "ignored");
         (PStr "reason", PStr "Failed to parse decision");
         (PStr "thought_process", PStr "Error parsing LLM response")].

Definition act_fallback : pyval :=
  PDict [(PStr "final_action", PStr "opened");
         (PStr "internal_monologue", PStr "Undecided")].

(** Lines 103 to 109: the action, the reason and the detailed reasoning
    read off the scan reply. *)
Definition scan_decision (res_a : pyval)
    : Result (string * pyval * pyval) :=
  a ← py_get res_a "action" (PStr "ignored");
  a ← py_lower a;
  let action := clamp_str a ["opened"; "ignored"; "spam"] "ignored" in
  reason ← py_get res_a "reason" (PStr "Not relevant");
  detailed_reasoning ← py_get res_a "thought_process" reason;
  Ok (action, reason, detailed_reasoning).

(** Lines 126 to 131: the action, the comment and the detailed reasoning
    after the act reply, for a persona whose action so far is 'opened'. *)
Definition act_decision (res_c reason : pyval)
    : Result (string * pyval * pyval) :=
  f ← py_get res_c "final_action" (PStr "opened");
  final_action ← py_lower f;
  let action := clamp_str final_action ["clicked"; "replied"] "opened" in
  comment ← (if String.eqb action "replied"
             then py_get res_c "reply_text" PNone
             else py_get res_c "internal_monologue" reason);
  detailed_reasoning ← py_get res_c "internal_monologue" reason;
  Ok (action, comment, detailed_reasoning).

Definition persona_context (p : Persona) : string :=
  role p +:+ " " +:+ company p +:+ " " +:+ psychographics p +:+ " "
  +:+ pastBehavior p.

Definition _simulate_single_persona (draft : EmailDraft) (p : Persona) (w : W)
    : Result Response * W :=
  match get_similarity embedding_service (subject draft) (persona_context p) with
  | Raise e => (Raise e, w)
  | Ok relevance_score =>
      let '(reply_a, w1) := predict (inbox_scan p draft relevance_score) w in
      let res_a := parse_reply reply_a scan_fallback in
      match scan_decision res_a with
      | Raise e => (Raise e, w1)
      | Ok (action, reason, detailed_reasoning) =>
          if String.eqb action "opened" then
            let '(reply_c, w2) := predict (take_action p draft) w1 in
            let res_c := parse_reply reply_c act_fallback in
            match act_decision res_c reason with
            | Raise e => (Raise e, w2)
            | Ok (action, comment, detailed_reasoning) =>
                (new_Response p action "neutral"
                   (py_or comment (PStr "No comment")) detailed_reasoning, w2)
            end
          else
            (new_Response p action "neutral"
               (py_or reason (PStr "No comment")) detailed_reasoning, w1)
      end
  end.

(** The counter updates of one turn of the loop. *)
Definition update_counts (c : Counts) (p : Persona) (response : Response)
    : Counts :=
  let a := action response in
  {| open_count := incr_if (String.eqb a "opened") (open_count c);
     click_count := incr_if (String.eqb a "clicked") (click_count c);
     reply_count := incr_if (String.eqb a "replied") (reply_count c);
     spam_count := incr_if (String.eqb a "spam") (spam_count c);
     ignore_count := incr_if (String.eqb a "ignored") (ignore_count c);
     read_count :=
       incr_if (existsb (String.eqb a) ["opened"; "clicked"; "replied"])
         (read_count c);
     forward_count :=
       incr_if (String.eqb a "clicked" && (py_hash (persona_id p) mod 5 =? 0)%Z)
         (forward_count c) |}.

(** The [for] loop: the events yielded, then the responses and counters at
    its end or the exception that left it, and the world. *)
Fixpoint simulate_all (draft : EmailDraft) (total i : nat)
    (personas : list Persona) (responses : list Response) (c : Counts) (w : W)
    : list Event * Result (list Response * Counts) * W :=
  match personas with
  | [] => ([], Ok (responses, c), w)
  | p :: rest =>
      match _simulate_single_persona draft p w with
      | (Raise e, w1) => ([], Raise e, w1)
      | (Ok response, w1) =>
          let '(events, r, w2) :=
            simulate_all draft total (S i) rest (responses ++ [response])
              (update_counts c p response) w1 in
          (progress (i + 1) total :: events, r, w2)
      end
  end.

(** One item of the oracle's insight list. *)
Definition normalize_type (t : pyval) : string :=
  if is_str t "issue" then "negative"
  else clamp_str t ["positive"; "negative"; "warning"] "warning".

Definition insight_of_item (item : pyval) : Result Insight :=
  t ← py_get item "type" (PStr "warning");
  t ← py_lower t;
  ti ← py_get item "title" (PStr "Insight");
  d ← py_get item "description" (PStr "");
  new_Insight (normalize_type t) ti d.

(** The loop over the items appends to the list [insights] of the
    function; an exception leaves the list as it stands. *)
Fixpoint append_insights (items : list pyval) (insights : list Insight)
    : list Insight * option exn :=
  match items with
  | [] => (insights, None)
  | item :: rest =>
      match insight_of_item item with
      | Ok i => append_insights rest (insights ++ [i])
      | Raise e => (insights, Some e)
      end
  end.

(** [json.loads], and [ast.literal_eval] on a [JSONDecodeError]. *)
Definition parse_insight_data (cleaned_response : string) : Result pyval :=
  match json_loads cleaned_response with
  | Ok data => Ok data
  | Raise JSONDecodeError => literal_eval cleaned_response
  | Raise e => Raise e
  end.

(** The [try] block of [_generate_insights] after the oracle call: the list
    [insights] when the block is left, and whether it was left by its
    [return]. *)
Definition smart_insights (llm_response : Result pyval)
    : list Insight * bool :=
  match llm_response with
  | Ok (PStr text) =>
      match re_search_object text with
      | Some cleaned_response =>
          match parse_insight_data cleaned_response with
          | Ok data =>
              match py_contains data "insights" with
              | Ok true =>
                  match (v ← py_getitem data "insights"; py_iter v) with
                  | Ok items =>
                      match append_insights items [] with
                      | (insights, None) => (insights, true)
                      | (insights, Some _) => (insights, false)
                      end
                  | Raise _ => ([], false)
                  end
              | _ => ([], false)
              end
          | Raise _ => ([], false)
          end
      | None => ([], false)
      end
  | _ => ([], false)
  end.

Definition _generate_insights (draft : EmailDraft) (metrics : Metrics)
    (responses : list Response) (w : W) : list Insight * W :=
  let '(llm_response, w1) :=
    predict (analyze_results draft metrics (take 5 responses)) w in
  let '(insights, returned) := smart_insights llm_response in
  (if returned then insights else insights ++ fallback_heuristics metrics, w1).

(** [run_simulation_stream], from the personas that [generate_personas]
    returned: the events yielded, the exception that ended the generator if
    one did, and the world. *)
Definition run_simulation_stream (draft : EmailDraft) (personas : list Persona)
    (w : W) : list Event * option exn * W :=
  let total := length personas in
  let '(events, r, w1) := simulate_all draft total 0 personas [] no_counts w in
  match r with
  | Raise e => (events, Some e, w1)
  | Ok (responses, c) =>
      match compute_metrics c total with
      | Raise e => (events, Some e, w1)
      | Ok metrics =>
          let '(insights, w2) := _generate_insights draft metrics responses w1 in
          let '(rid, w3) := run_id w2 in
          let '(ts, w4) := timestamp_ms w3 in
          (events ++ [result {| result_id := rid; timestamp := ts;
                                metrics := metrics; insights := insights;
                                responses := responses |}],
           None, w4)
      end
  end.

End Simulator.

(** ** Vocabulary of the statements about the replies *)

Section Replies.
Context `{Builtins}.

(** The [try] around an oracle call takes its [except] branch: the call
    raised, or returned something that is not a str, or [json.loads]
    raised on the cleaned text. *)
Definition parse_fails (reply : Result pyval) : Prop :=
  match reply with
  | Ok (PStr text) => exists e, json_loads (strip_fences text) = Raise e
  | _ => True
  end.

(** The field [k] of a parsed object is absent, and then read as [dflt],
    or holds a str. *)
Definition text_field (fields : list (pyval * pyval)) (k dflt : string)
    : option string :=
  match lookup_key k fields with
  | None => Some dflt
  | Some (PStr s) => Some s
  | Some _ => None
  end.

(** The field 'action' of a parsed object is absent, or is a str that is
    none of the three scan actions once lower-cased. *)
Definition unrecognised_action (fields : list (pyval * pyval)) : Prop :=
  lookup_key "action" fields = None
  \/ exists s, lookup_key "action" fields = Some (PStr s)
             /\ str_lower s ∉ ["opened"; "ignored"; "spam"].

(** On ASCII text [str.lower] lower-cases the ASCII letters. *)
Definition is_ascii_text (s : string) : bool :=
  forallb (fun c => (nat_of_ascii c <? 128)%nat) (String.list_ascii_of_string s).

Definition lower_on_ascii : Prop :=
  forall s, is_ascii_text s = true -> str_lower s = bytes_lower s.

(** Line 126: the lower-cased 'final_action' of the act reply. *)
Definition final_action_of (res_c : pyval) : Result pyval :=
  v ← py_get res_c "final_action" (PStr "opened"); py_lower v.

End Replies.

Section Traces.
Context `{Builtins} {W : Type} `{BaseLLM W}.
Variable es : EmbeddingService.

(** What a call of the engine that returned a Response went through: the
    scan alone, or the scan and the act stage. *)
Inductive trace (draft : EmailDraft) (p : Persona) (w : W) (r : Response) (w' : W)
    : Prop :=
| closed_unread score reply_a a reason d
    (Hscore : get_similarity es (subject draft) (persona_context p) = Ok score)
    (Hscan : predict (inbox_scan p draft score) w = (reply_a, w'))
    (Hdec : scan_decision (parse_reply reply_a scan_fallback) = Ok (a, reason, d))
    (Hclosed : a <> "opened")
    (Hresp : new_Response p a "neutral" (py_or reason (PStr "No comment")) d = Ok r)
| opened_and_acted score reply_a w1 reason d0 reply_c a c d
    (Hscore : get_similarity es (subject draft) (persona_context p) = Ok score)
    (Hscan : predict (inbox_scan p draft score) w = (reply_a, w1))
    (Hdec : scan_decision (parse_reply reply_a scan_fallback) = Ok ("opened", reason, d0))
    (Hact : predict (take_action p draft) w1 = (reply_c, w'))
    (Hfin : act_decision (parse_reply reply_c act_fallback) reason = Ok (a, c, d))
    (Hresp : new_Response p a "neutral" (py_or c (PStr "No comment")) d = Ok r).

End Traces.

(** ** The percentage on the machine's binary64 numbers

    The same expression on Rocq's primitive floats, which are the IEEE 754
    binary64 numbers of the processor.  It is used in one check only: that
    [percentage] agrees with the hardware on a range of counts. *)
Definition binary64_to_int (x : float) : Z :=
  match Prim2SF x with
  | S754_finite s m e =>
      let v := if (0 <=? e)%Z then Z.shiftl (Zpos m) e
               else Z.shiftr (Zpos m) (- e) in
      if s then (- v)%Z else v
  | _ => 0%Z
  end.

Definition percentage_binary64 (count total : nat) : Z :=
  let ratio :=
    PrimFloat.div (PrimFloat.of_uint63 (Uint63.of_Z (Z.of_nat count)))
                  (PrimFloat.of_uint63 (Uint63.of_Z (Z.of_nat total))) in
  binary64_to_int (PrimFloat.mul ratio (PrimFloat.of_uint63 100%uint63)).

(** The rational a finite binary64 number denotes. *)
Definition binary64_to_Q (x : float) : option Q :=
  match Prim2SF x with
  | S754_zero _ => Some 0%Q
  | S754_finite s m e =>
      let v := (inject_Z (Zpos m) * pow2 e)%Q in
      Some (if s then (- v)%Q else v)
  | _ => None
  end.

Definition quotient_binary64 (a b : nat) : float :=
  PrimFloat.div (PrimFloat.of_uint63 (Uint63.of_Z (Z.of_nat a)))
                (PrimFloat.of_uint63 (Uint63.of_Z (Z.of_nat b))).

Definition quotients_agree_up_to (bound : nat) : bool :=
  forallb (fun b =>
    forallb (fun a =>
      match int_truediv (Z.of_nat a) (Z.of_nat b),
            binary64_to_Q (quotient_binary64 a b) with
      | Ok (Finite q), Some q' => Qeq_bool q q'
      | _, _ => false
      end) (seq 0 bound))
    (seq 1 bound).

Definition agree_up_to (bound : nat) : bool :=
  forallb (fun total =>
    forallb (fun count =>
      match percentage count total with
      | Ok z => (z =? percentage_binary64 count total)%Z
      | Raise _ => false
      end) (seq 0 (S total)))
    (seq 1 bound).

(** ** A runtime and an oracle to run the code on

    An instance of the runtime for ASCII text: lower-casing, replacement,
    stripping and splitting are the Python functions on ASCII;
    [json.loads] is given by its value on the oracle texts used below, which
    are printed the way [json.dumps] prints them. *)
Module Demo.

Definition is_space (c : ascii) : bool :=
  let n := nat_of_ascii c in
  ((9 <=? n)%nat && (n <=? 13)%nat) || ((28 <=? n)%nat && (n <=? 32)%nat).

Fixpoint lstrip (s : string) : string :=
  match s with
  | String c rest => if is_space c then lstrip rest else s
  | EmptyString => EmptyString
  end.

Fixpoint rstrip (s : string) : string :=
  match s with
  | EmptyString => EmptyString
  | String c rest =>
      match rstrip rest with
      | EmptyString => if is_space c then EmptyString else String c EmptyString
      | kept => String c kept
      end
  end.

Definition strip (s : string) : string := rstrip (lstrip s).

Fixpoint split_from (token s : string) : list string :=
  match s with
  | EmptyString => if String.eqb token "" then [] else [token]
  | String c rest =>
      if is_space c then
        (if String.eqb token "" then split_from "" rest
         else token :: split_from "" rest)
      else split_from (token +:+ String c EmptyString) rest
  end.

Definition split (s : string) : list string := split_from "" s.

Fixpoint replace_from (old new : string) (skip : nat) (s : string) : string :=
  match s with
  | EmptyString => EmptyString
  | String c rest =>
      match skip with
      | S k => replace_from old new k rest
      | O =>
          if String.prefix old s
          then new +:+ replace_from old new (String.length old - 1) rest
          else String c (replace_from old new 0 rest)
      end
  end.

Fixpoint interleave (new s : string) : string :=
  match s with
  | EmptyString => new
  | String c rest => new +:+ String c (interleave new rest)
  end.

Definition replace (s old new : string) : string :=
  if String.eqb old "" then interleave new s else replace_from old new 0 s.

(** JSON text of a str without escapes, and of an object of such strs. *)
Definition quoted (s : string) : string :=
  String "034"%char s +:+ String "034"%char EmptyString.

Fixpoint members (fields : list (string * string)) : string :=
  match fields with
  | [] => EmptyString
  | [(k, v)] => quoted k +:+ ": " +:+ quoted v
  | (k, v) :: rest => quoted k +:+ ": " +:+ quoted v +:+ ", " +:+ members rest
  end.

Definition object_text (fields : list (string * string)) : string :=
  "{" +:+ members fields +:+ "}".

Definition object_value (fields : list (string * string)) : pyval :=
  PDict (map (fun kv => (PStr kv.1, PStr kv.2)) fields).

(** The replies of the demo oracle. *)
Definition scan_opened := [("action", "opened"); ("reason", "Relevant to my role")].
Definition scan_spam := [("action", "spam"); ("reason", "Looks like spam")].
Definition scan_ignored := [("action", "ignored"); ("reason", "Not for me")].
Definition scan_shouting := [("action", "DELETE"); ("reason", "Too loud")].
Definition act_opened :=
  [("final_action", "opened"); ("internal_monologue", "Read it and moved on")].
Definition act_clicked :=
  [("final_action", "clicked"); ("internal_monologue", "Worth a look")].
Definition act_replied :=
  [("final_action", "replied"); ("reply_text", "Tell me more");
   ("internal_monologue", "I will answer")].
Definition act_replied_no_text :=
  [("final_action", "replied"); ("internal_monologue", "I will answer")].
Definition act_forwarded :=
  [("final_action", "forwarded"); ("internal_monologue", "My colleague needs this")].
Definition good_insight :=
  [("type", "positive"); ("title", "Clear subject"); ("description", "It names the benefit.")].

(** An insight list whose second item is the number 5. *)
Definition partial_insights_text : string :=
  "{" +:+ quoted "insights" +:+ ": [" +:+ object_text good_insight +:+ ", 5]}".

Definition partial_insights_value : pyval :=
  PDict [(PStr "insights", PList [object_value good_insight; PInt 5])].

Definition json_table : list (string * pyval) :=
  map (fun fields => (object_text fields, object_value fields))
      [[]; scan_opened; scan_spam; scan_ignored; scan_shouting; act_opened;
       act_clicked; act_replied; act_replied_no_text; act_forwarded]
  ++ [("[]", PList []); ("null", PNone);
      (partial_insights_text, partial_insights_value)].

Definition loads (text : string) : Result pyval :=
  match find (fun entry => String.eqb entry.1 text) json_table with
  | Some entry => Ok entry.2
  | None => Raise JSONDecodeError
  end.

(** Text fields take a str and nothing else. *)
Definition strict_str (v : pyval) : Result string :=
  match v with
  | PStr s => Ok s
  | _ => Raise ValidationError
  end.

#[export] Instance runtime : Builtins := {|
  str_lower := bytes_lower;
  str_replace := replace;
  str_strip := strip;
  str_split := split;
  json_loads := loads;
  literal_eval := fun _ => Raise SyntaxError;
  py_hash := fun s => Z.of_nat (String.length s);
  coerce_str := strict_str
|}.

(** The demo oracle answers by the name of the persona, and analyses by
    the audience of the draft; the world counts its calls. *)
Definition scan_reply (who : string) : Result pyval :=
  if String.eqb who "spammer" then Ok (PStr (object_text scan_spam))
  else if String.eqb who "ignorer" then Ok (PStr (object_text scan_ignored))
  else if String.eqb who "shouter" then Ok (PStr (object_text scan_shouting))
  else if String.eqb who "blank" then Ok (PStr "{}")
  else if String.eqb who "garbled" then Ok (PStr "not json")
  else if String.eqb who "lister" then Ok (PStr "[]")
  else if String.eqb who "offline" then Raise OracleError
  else Ok (PStr ("```json" +:+ object_text scan_opened +:+ "```")).

Definition act_reply (who : string) : Result pyval :=
  if String.eqb who "clicker" then Ok (PStr (object_text act_clicked))
  else if String.eqb who "replier" then Ok (PStr (object_text act_replied))
  else if String.eqb who "terse" then Ok (PStr (object_text act_replied_no_text))
  else if String.eqb who "forwarder" then Ok (PStr (object_text act_forwarded))
  else if String.eqb who "mumbler" then Ok (PStr "not json")
  else Ok (PStr (object_text act_opened)).

#[export] Instance llm : BaseLLM nat := fun prompt calls =>
  (match prompt with
   | inbox_scan p _ _ => scan_reply (name p)
   | take_action p _ => act_reply (name p)
   | analyze_results d _ _ =>
       if String.eqb (audience d) "partial"
       then Ok (PStr ("Here you go: " +:+ partial_insights_text))
       else Raise OracleError
   | read_email _ _ => Ok (PStr "{}")
   end, S calls).

#[export] Instance clock : Clock nat := {|
  run_id := fun w => ("1700000000", w);
  timestamp_ms := fun w => (1700000000000%Z, w)
|}.

Definition embedding : EmbeddingService :=
  {| use_fallback := true; model_similarity := fun _ _ => Raise OracleError |}.

Definition someone (ident who : string) : Persona :=
  {| persona_id := ident; name := who; role := "Head of Sales";
     company := "Acme"; psychographics := "pragmatic and busy";
     pastBehavior := "opens the pricing mails" |}.

Definition draft_for (who : string) (n : Z) : EmailDraft :=
  {| subject := "Pricing for the sales team"; body := "Hello";
     cta := "Book a call"; audience := who; sample_size := n |}.

(** A population of 100: 29 personas who open and read, 71 who ignore. *)
Definition hundred : list Persona :=
  replicate 29 (someone "p1" "opener") ++ replicate 71 (someone "p2" "ignorer").

(** One persona who clicks, with an identifier whose hash is 5. *)
Definition one_clicker : list Persona := [someone "p0005" "clicker"].

(** Metrics with an open rate of 10 and a spam rate of 15. *)
Definition low_open_spammy : Metrics :=
  {| openRate := 10; clickRate := 0; replyRate := 0; spamRate := 15;
     ignoreRate := 75; forwardRate := 0; readRate := 10 |}.

End Demo.

(** ** Replies of an awkward shape

    An oracle whose replies parse but hold a null or an empty text where
    the engine reads a text; everyone else answers as in [Demo]. *)
Module Awkward.

Definition null_final_action_text : string :=
  "{" +:+ Demo.quoted "final_action" +:+ ": null}".

Definition null_final_action_value : pyval :=
  PDict [(PStr "final_action", PNone)].

Definition scan_no_reason := [("action", "ignored"); ("reason", "")].
Definition act_clicked_silently :=
  [("final_action", "clicked"); ("internal_monologue", "")].
Definition act_replied_nothing :=
  [("final_action", "replied"); ("reply_text", "");
   ("internal_monologue", "I will answer")].

Definition json_table : list (string * pyval) :=
  (null_final_action_text, null_final_action_value)
  :: map (fun fields => (Demo.object_text fields, Demo.object_value fields))
       [scan_no_reason; act_clicked_silently; act_replied_nothing]
  ++ Demo.json_table.

Definition loads (text : string) : Result pyval :=
  match find (fun entry => String.eqb entry.1 text) json_table with
  | Some entry => Ok entry.2
  | None => Raise JSONDecodeError
  end.

Definition runtime : Builtins := {|
  str_lower := bytes_lower;
  str_replace := Demo.replace;
  str_strip := Demo.strip;
  str_split := Demo.split;
  json_loads := loads;
  literal_eval := fun _ => Raise SyntaxError;
  py_hash := fun s => Z.of_nat (String.length s);
  coerce_str := Demo.strict_str
|}.

Definition scan_reply (who : string) : Result pyval :=
  if String.eqb who "silent" then Ok (PStr (Demo.object_text scan_no_reason))
  else Demo.scan_reply who.

Definition act_reply (who : string) : Result pyval :=
  if String.eqb who "nuller" then Ok (PStr null_final_action_text)
  else if String.eqb who "mute"
       then Ok (PStr (Demo.object_text act_clicked_silently))
  else if String.eqb who "hollow"
       then Ok (PStr (Demo.object_text act_replied_nothing))
  else Demo.act_reply who.

Definition llm : BaseLLM nat := fun prompt calls =>
  match prompt with
  | inbox_scan p _ _ => (scan_reply (name p), S calls)
  | take_action p _ => (act_reply (name p), S calls)
  | _ => Demo.llm prompt calls
  end.

End Awkward.

(** ** More of [llm_service.py]: the network oracle *)

(** The chat-completion endpoint behind [OpenAILLM]: the request
    [client.chat.completions.create] and the reading of
    [response.choices[0].message.content], which is a str or [None]; either
    step may raise. *)
Class ChatBackend (W : Type) : Type :=
  chat_completion : Prompt -> W -> Result pyval * W.

(** [OpenAILLM.predict]: the content of the completion, and the text of an
    empty JSON object on any exception. *)
Definition OpenAILLM {W : Type} `{ChatBackend W} : BaseLLM W :=
  fun prompt w =>
    match chat_completion prompt w with
    | (Ok content, w1) => (Ok content, w1)
    | (Raise _, w1) => (Ok (PStr "{}"), w1)
    end.

(** ** Vocabulary of the statements about the insights and the responses *)

Section Readings.
Context `{Builtins}.

(** An item of the oracle's list is an object whose 'type', 'title' and
    'description' are absent or strs, and [i] is the Insight the loop of
    [_generate_insights] appends for it. *)
Definition reads_as (item : pyval) (i : Insight) : Prop :=
  exists fields t ti d,
    item = PDict fields
    /\ text_field fields "type" "warning" = Some t
    /\ text_field fields "title" "Insight" = Some ti
    /\ text_field fields "description" "" = Some d
    /\ i = {| insight_type := normalize_type (PStr (str_lower t));
              title := ti; description := d |}.

(** The Response of a persona who did not open: the scan's reason as the
    comment (the placeholder when it is empty) and its thought process as
    the detailed reasoning. *)
Definition unread_response (p : Persona) (a reason thought : string) : Response :=
  {| persona := p; action := a; sentiment := "neutral";
     comment := if String.eqb reason "" then "No comment" else reason;
     detailedReasoning := thought |}.

(** The field 'reply_text' of a parsed object as [or] sees it: absent or
    null it counts as the empty text, and it is a str otherwise. *)
Definition reply_text_of (fields : list (pyval * pyval)) : option string :=
  match lookup_key "reply_text" fields with
  | None | Some PNone => Some ""
  | Some (PStr s) => Some s
  | Some _ => None
  end.

End Readings.

(** The Response of every persona when the oracle answers the text of an
    empty object to every prompt. *)
Definition not_relevant (p : Persona) : Response :=
  {| persona := p; action := "ignored"; sentiment := "neutral";
     comment := "Not relevant"; detailedReasoning := "Not relevant" |}.

(** Every persona ignored: the ignore rate is 100, or 0 for no persona. *)
Definition all_ignored (total : nat) : Metrics :=
  {| openRate := 0; clickRate := 0; replyRate := 0; spamRate := 0;
     ignoreRate := if (0 <? total)%nat then 100 else 0;
     forwardRate := 0; readRate := 0 |}.

(** An Insight of one of the three types. *)
Definition known_type (i : Insight) : Prop :=
  insight_type i ∈ ["positive"; "negative"; "warning"].

(** The read counter counts the personas who opened, clicked or replied. *)
Definition read_is_opened_clicked_replied (c : Counts) : Prop :=
  read_count c = open_count c + click_count c + reply_count c.

(** The responses and the counters after a loop in which every persona
    was ignored as not relevant. *)
Definition only_ignored (ps : list Persona) (rs : list Response) (c : Counts)
    : Prop :=
  rs = map not_relevant ps
  /\ c = {| open_count := 0; click_count := 0; reply_count := 0;
            spam_count := 0; ignore_count := length ps; read_count := 0;
            forward_count := 0 |}.

Section EmptyObject.
Context `{Builtins} {W : Type} `{BaseLLM W}.

(** The oracle answers the text of an empty JSON object to every prompt. *)
Definition answers_empty_object : Prop :=
  forall prompt w, exists w1, predict prompt w = (Ok (PStr "{}"), w1).

(** The runtime parses that text, fenced or not, to the empty dict. *)
Definition parses_empty_object : Prop :=
  json_loads (strip_fences "{}") = Ok (PDict []) /\ json_loads "{}" = Ok (PDict []).

End EmptyObject.

(** ** [main.py]: the stream of the simulate endpoint *)





Section Endpoint.
Context `{Builtins} {W : Type} `{BaseLLM W} `{Clock W} `{Session W}.
Variable es : EmbeddingService.


End Endpoint.

(** ** More to run the code on

    An oracle whose analysis is a well-formed list of two insights inside
    a sentence, a chat-completion backend that is down, and a store that
    refuses the runs of one audience. *)
Module Analyst.

Definition vague_offer := [("type", "Issue"); ("title", "Vague offer")].

Definition insights_object : string :=
  "{" +:+ Demo.quoted "insights" +:+ ": [" +:+ Demo.object_text Demo.good_insight
  +:+ ", " +:+ Demo.object_text vague_offer +:+ "]}".

Definition insights_text : string :=
  "Here is my analysis: " +:+ insights_object +:+ " I hope it helps.".

Definition insights_value : pyval :=
  PDict [(PStr "insights",
          PList [Demo.object_value Demo.good_insight;
                 Demo.object_value vague_offer])].

Definition loads (text : string) : Result pyval :=
  if String.eqb text insights_object then Ok insights_value
  else Demo.loads text.

Definition runtime : Builtins := {|
  str_lower := bytes_lower;
  str_replace := Demo.replace;
  str_strip := Demo.strip;
  str_split := Demo.split;
  json_loads := loads;
  literal_eval := fun _ => Raise SyntaxError;
  py_hash := fun s => Z.of_nat (String.length s);
  coerce_str := Demo.strict_str
|}.

Definition llm : BaseLLM nat := fun prompt calls =>
  match prompt with
  | analyze_results _ _ _ => (Ok (PStr insights_text), S calls)
  | _ => Demo.llm prompt calls
  end.

Definition down : ChatBackend nat := fun _ calls => (Raise OracleError, S calls).




End Analyst.

(** ** [prompts.py] as text *)

(** What the code asks of the formatting of a float: [format(x, ".2f")]. *)
Class Formatting : Type :=
  format_2f : pyfloat -> string.

(** [str(z)] for an int: the decimal digits, after a minus sign for a
    negative number. *)
Definition str_of_int (z : Z) : string := NilZero.string_of_int (Z.to_int z).

(** An f-string: literal segments, each followed by the text of a
    replacement field, and the literal segment that ends it. *)
Definition fstring (parts : list (string * string)) (tail : string) : string :=
  foldr (fun part rest => part.1 +:+ part.2 +:+ rest) tail parts.

(** The double quote. *)
Definition dq : string := String "034"%char EmptyString.

(** The line feed. *)
Definition lf : string := String "010"%char EmptyString.

(** The loop that builds [responses_summary], one line per response of the
    first five. *)
Definition responses_summary (responses : list Response) : string :=
  foldl (fun summary r =>
           summary +:+ fstring [("- ", role (persona r)); (": ", action r);
                                (" (", comment r)] (")" +:+ lf))
        "" (take 5 responses).

Section Prompts.
Context `{Formatting}.

(** [SimulationPrompts.inbox_scan] *)
Definition inbox_scan_text (persona : Persona) (draft : EmailDraft)
    (relevance_score : pyfloat)
    : string :=
  fstring
    [("
        System: Вы - ",
      name persona);
     (", ",
      role persona);
     (" в компании ",
      company persona);
     (". 
        Ваш психографический профиль: ",
      psychographics persona);
     ("
        Ваше прошлое поведение: ",
      pastBehavior persona);
     ("
        
        Задача: Вы просматриваете свой почтовый ящик. Вы видите новое письмо.
        
        Тема письма: " +:+ dq,
      subject draft);
     (dq +:+ "
        Рассчитанная релевантность: ",
      format_2f relevance_score)]
    (" (0.00 = нерелевантно, 1.00 = идеально подходит)
        
        Инструкции:
        1. Проанализируйте тему письма. Релевантна ли она вашей роли и индустрии?
        2. Учтите вашу психографию. Привлекает ли вас такой тон?
        3. Примите решение: " +:+ dq +:+ "opened" +:+ dq +:+ " (открыть), " +:+ dq +:+ "ignored" +:+ dq +:+ " (игнорировать) или " +:+ dq +:+ "spam" +:+ dq +:+ " (спам).
        
        Вывод ТОЛЬКО в формате JSON:
        {
            " +:+ dq +:+ "thought_process" +:+ dq +:+ ": " +:+ dq +:+ "Кратко объясните ваш ход мыслей (на русском)..." +:+ dq +:+ ",
            " +:+ dq +:+ "action" +:+ dq +:+ ": " +:+ dq +:+ "opened" +:+ dq +:+ ", 
            " +:+ dq +:+ "reason" +:+ dq +:+ ": " +:+ dq +:+ "Одно предложение с объяснением для отчета (на русском)" +:+ dq +:+ "
        }
        Значения для action должны быть строго: " +:+ dq +:+ "opened" +:+ dq +:+ ", " +:+ dq +:+ "ignored" +:+ dq +:+ ", " +:+ dq +:+ "spam" +:+ dq +:+ ".
        ").

(** [SimulationPrompts.read_email] *)
Definition read_email_text (persona : Persona) (draft : EmailDraft)
    : string :=
  fstring
    [("
        System: Вы - ",
      name persona);
     (", ",
      role persona);
     (".
        Задача: Вы открыли письмо. Теперь вы читаете его содержание.
        
        Текст письма:
        " +:+ dq,
      body draft)]
    (dq +:+ "
        
        Инструкции:
        1. Прочитайте контент. Ценен ли он? Не слишком ли длинный?
        2. Определите ваш уровень внимания (high, medium, low).
        3. Прочитали ли вы все письмо?
        
        Вывод ТОЛЬКО в формате JSON:
        {
            " +:+ dq +:+ "attention_level" +:+ dq +:+ ": " +:+ dq +:+ "high" +:+ dq +:+ ",
            " +:+ dq +:+ "stopped_at_line" +:+ dq +:+ ": 10,
            " +:+ dq +:+ "impression" +:+ dq +:+ ": " +:+ dq +:+ "Краткое впечатление (на русском)..." +:+ dq +:+ "
        }
        ").

(** [SimulationPrompts.take_action] *)
Definition take_action_text (persona : Persona) (draft : EmailDraft)
    : string :=
  fstring
    [("
        System: Вы - ",
      name persona);
     (", ",
      role persona);
     (".
        Задача: Вы прочитали письмо. Теперь решите по поводу Call to Action (CTA).
        
        CTA: " +:+ dq,
      cta draft)]
    (dq +:+ "
        
        Инструкции:
        1. Понятен ли CTA? Достаточно ли сильно ценностное предложение?
        2. Примите финальное решение: " +:+ dq +:+ "clicked" +:+ dq +:+ " (кликнул), " +:+ dq +:+ "replied" +:+ dq +:+ " (ответил) или " +:+ dq +:+ "opened" +:+ dq +:+ " (просто прочитал и закрыл).
        3. Если вы отвечаете, напишите реалистичный текст ответа, исходя из вашей персоны (на русском).
        4. Если вы кликаете или ничего не делаете, напишите ваш внутренний монолог.
        
        Вывод ТОЛЬКО в формате JSON:
        {
            " +:+ dq +:+ "internal_monologue" +:+ dq +:+ ": " +:+ dq +:+ "Ваши мысли (на русском)..." +:+ dq +:+ ",
            " +:+ dq +:+ "final_action" +:+ dq +:+ ": " +:+ dq +:+ "clicked" +:+ dq +:+ ",
            " +:+ dq +:+ "reply_text" +:+ dq +:+ ": " +:+ dq +:+ "Ваш ответ (если есть, иначе null, на русском)" +:+ dq +:+ "
        }
        Значения для final_action должны быть строго: " +:+ dq +:+ "clicked" +:+ dq +:+ ", " +:+ dq +:+ "replied" +:+ dq +:+ ", " +:+ dq +:+ "opened" +:+ dq +:+ ".
        ").

(** [SimulationPrompts.analyze_results] *)
Definition analyze_results_text (draft : EmailDraft) (metrics : Metrics)
    (responses : list Response)
    : string :=
  fstring
    [("
        System: Вы - эксперт по анализу Email-маркетинга.
        
        Задача: Проанализируйте результаты симуляции email-кампании и предоставьте практические инсайты.
        
        Контекст письма:
        Тема: " +:+ dq,
      subject draft);
     (dq +:+ "
        Аудитория: ",
      audience draft);
     ("
        
        Метрики эффективности:
        - Open Rate: ",
      str_of_int (openRate metrics));
     ("%
        - Click Rate: ",
      str_of_int (clickRate metrics));
     ("%
        - Reply Rate: ",
      str_of_int (replyRate metrics));
     ("%
        
        Примеры реакций получателей (выборка):
        ",
      responses_summary responses)]
    ("
        
        Инструкции:
        1. Определите главную причину таких результатов.
        2. Найдите паттерны (кто открыл, кто игнорировал).
        3. Предоставьте 3 конкретных инсайта.
        
        ВАЖНО: Используйте ТОЛЬКО двойные кавычки для ключей и значений JSON.
        
        Вывод ТОЛЬКО в формате JSON:
        {
            " +:+ dq +:+ "insights" +:+ dq +:+ ": [
                {
                    " +:+ dq +:+ "type" +:+ dq +:+ ": " +:+ dq +:+ "positive" +:+ dq +:+ ", 
                    " +:+ dq +:+ "title" +:+ dq +:+ ": " +:+ dq +:+ "Заголовок" +:+ dq +:+ ",
                    " +:+ dq +:+ "description" +:+ dq +:+ ": " +:+ dq +:+ "Описание." +:+ dq +:+ "
                }
            ]
        }
        Значения для type должны быть строго: " +:+ dq +:+ "positive" +:+ dq +:+ ", " +:+ dq +:+ "negative" +:+ dq +:+ ", " +:+ dq +:+ "warning" +:+ dq +:+ ".
        ").

(** The text of a prompt. *)
Definition render (prompt : Prompt) : string :=
  match prompt with
  | inbox_scan p d score => inbox_scan_text p d score
  | read_email p d => read_email_text p d
  | take_action p d => take_action_text p d
  | analyze_results d m sample => analyze_results_text d m sample
  end.

(** The texts that fill the replacement fields of a prompt, the ints of
    the metrics apart. *)
Definition fields_of (prompt : Prompt) : list string :=
  match prompt with
  | inbox_scan p d score =>
      [name p; role p; company p; psychographics p; pastBehavior p;
       subject d; format_2f score]
  | read_email p d => [name p; role p; body d]
  | take_action p d => [name p; role p; cta d]
  | analyze_results d m sample =>
      [subject d; audience d]
      ++ flat_map (fun r => [role (persona r); action r; comment r])
           (take 5 sample)
  end.

End Prompts.

(** ** More of [llm_service.py]: the mock oracle *)

(** The module [random] and [json.dumps], as [MockLLM.predict] calls them. *)
Class Random (W : Type) : Type := {
  random_choice : list string -> W -> string * W;
  random_random : W -> pyfloat * W;
  random_randint : Z -> Z -> W -> Z * W;
  json_dumps : pyval -> string
}.

(** [x > q] for a float [x] and a literal [q]. *)
Definition float_gt (x : pyfloat) (q : Q) : bool :=
  match x with
  | Finite a => negb (Qle_bool a q)
  | Infinity negative => negb negative
  | NaN => false
  end.

Section Mock.
Context `{Formatting} {W : Type} `{Random W}.

(** [MockLLM.predict] on the text of the prompt. *)
Definition MockLLM_predict (prompt : string) (w : W) : string * W :=
  if is_substring "Phase A" prompt then
    let '(a, w1) := random_choice ["opened"; "opened"; "ignored"; "spam"] w in
    let '(x, w2) := random_random w1 in
    (json_dumps
       (PDict [(PStr "action", PStr a);
               (PStr "reason",
                PStr (if float_gt x (1 # 2) then "Subject line was catchy"
                      else "Subject looked generic"))]), w2)
  else if is_substring "Phase B" prompt then
    let '(level, w1) := random_choice ["high"; "low"] w in
    let '(line, w2) := random_randint 3 10 w1 in
    (json_dumps
       (PDict [(PStr "attention_level", PStr level);
               (PStr "stopped_at_line", PInt line)]), w2)
  else if is_substring "Phase C" prompt then
    let '(a, w1) := random_choice ["clicked"; "replied"; "ignored"] w in
    let '(x, w2) := random_random w1 in
    (json_dumps
       (PDict [(PStr "final_action", PStr a);
               (PStr "reply_text",
                PStr (if float_gt x (1 # 2) then "Спасибо, интересно." else ""));
               (PStr "internal_monologue",
                PStr "I need this solution right now.")]), w2)
  else ("{}", w).

(** [MockLLM] as an oracle of the simulator. *)
Definition MockLLM : BaseLLM W := fun prompt w =>
  let '(text, w1) := MockLLM_predict (render prompt) w in (Ok (PStr text), w1).

End Mock.

(** ** Vocabulary of the statements about the mock oracle *)

(** The text holds one of the three marks that [MockLLM.predict] looks
    for. *)
Definition mentions_phase (s : string) : bool :=
  is_substring "Phase A" s || is_substring "Phase B" s
  || is_substring "Phase C" s.

(** A reading of a text that looks for the three marks: the state is the
    number of characters of the common beginning "Phase " read last, and
    [None] says that a mark has been read. *)
Definition phase_step (q : nat) (c : ascii) : option nat :=
  if Ascii.eqb c "P" then Some 1
  else match q with
       | 1 => Some (if Ascii.eqb c "h" then 2 else 0)
       | 2 => Some (if Ascii.eqb c "a" then 3 else 0)
       | 3 => Some (if Ascii.eqb c "s" then 4 else 0)
       | 4 => Some (if Ascii.eqb c "e" then 5 else 0)
       | 5 => Some (if Ascii.eqb c " " then 6 else 0)
       | 6 => if Ascii.eqb c "A" || Ascii.eqb c "B" || Ascii.eqb c "C"
              then None else Some 0
       | _ => Some 0
       end.

Fixpoint phase_scan (q : nat) (s : string) : option nat :=
  match s with
  | EmptyString => Some q
  | String c rest =>
      match phase_step q c with
      | Some q' => phase_scan q' rest
      | None => None
      end
  end.

(** A literal segment after which the reading starts afresh, whatever was
    read before it. *)
Definition resets (literal : string) : Prop :=
  forall q, phase_scan q literal = Some 0.

(** The prompts of a run in which every persona ignores the mail. *)
Definition asked_when_ignored (draft : EmailDraft) (personas : list Persona)
    (prompt : Prompt) : Prop :=
  (exists p score, p ∈ personas /\ prompt = inbox_scan p draft score)
  \/ prompt = analyze_results draft (all_ignored (length personas))
                (take 5 (map not_relevant personas)).

(** What is left of "Phase " in state [q] of the reading. *)
Definition rest_of_mark (q : nat) : string :=
  match q with
  | 1 => "hase " | 2 => "ase " | 3 => "se " | 4 => "e " | 5 => " " | 6 => ""
  | _ => "Phase "
  end.

(** A mark stands in the text. *)
Definition mark_in (s : string) : Prop :=
  exists X pre post,
    X ∈ ["A"; "B"; "C"]%char /\ s = pre +:+ "Phase " +:+ String X post.

(** The counters after [n] more personas who ignore. *)
Definition ignored_more (n : nat) (c : Counts) : Counts :=
  {| open_count := open_count c; click_count := click_count c;
     reply_count := reply_count c; spam_count := spam_count c;
     ignore_count := n + ignore_count c; read_count := read_count c;
     forward_count := forward_count c |}.

(** ** A formatter and a source of randomness to run the mock oracle on *)
Module Offline.

Definition two_digits (n : Z) : string :=
  if (n <? 10)%Z then "0" +:+ str_of_int n else str_of_int n.

(** Two decimal places of a float, rounded half to even on its exact
    value. *)
Definition two_places : Formatting := fun x =>
  match x with
  | Finite q =>
      let n := round_half_even (Qabs q * 100) in
      (if Qnegative q then "-" else "")
      +:+ str_of_int (n / 100) +:+ "." +:+ two_digits (n mod 100)
  | Infinity negative => if negative then "-inf" else "inf"
  | NaN => "nan"
  end.

Definition text_member (kv : pyval * pyval) : option (string * string) :=
  match kv with
  | (PStr k, PStr v) => Some (k, v)
  | (PStr k, PInt z) => Some (k, str_of_int z)
  | _ => None
  end.

(** The first option, three quarters and the lower bound, and the world
    counts the draws. *)
Definition dice : Random nat := {|
  random_choice := fun options w => (hd "" options, S w);
  random_random := fun w => (Finite (3 # 4), S w);
  random_randint := fun a b w => (a, S w);
  json_dumps := fun v =>
    match v with
    | PDict kvs => Demo.object_text (omap text_member kvs)
    | _ => "null"
    end
|}.

(** A persona whose name ends and whose role begins like a mark. *)
Definition phase_lead : Persona :=
  {| persona_id := "p7"; name := "Phase"; role := "A-team lead";
     company := "Acme"; psychographics := "curious";
     pastBehavior := "reads the Phase reports" |}.

End Offline.

(** * Properties *)

(** Membership in a list that is written out. *)
Ltac list_mem :=
  repeat match goal with
         | H : _ ∈ _ |- _ => apply list_elem_of_In in H; cbn in H
         end;
  apply list_elem_of_In; cbn; intuition (subst; auto).

(** ** Rounding to binary64 *)

Section Float64Facts.
Local Open Scope Q_scope.

Lemma pow2_pos k : 0 < pow2 k.
Proof. unfold pow2. apply Qpower_0_lt. reflexivity. Qed.

Lemma pow2_add a b : pow2 (a + b) == pow2 a * pow2 b.
Proof. unfold pow2. apply Qpower_plus. discriminate. Qed.

Lemma pow2_succ a : pow2 (a + 1) == 2 * pow2 a.
Proof. rewrite pow2_add. unfold pow2 at 2. simpl. ring. Qed.

Lemma pow2_mono a b : (a <= b)%Z -> pow2 a <= pow2 b.
Proof. intros H. unfold pow2. apply Qpower_le_compat_l; [exact H | discriminate]. Qed.

Lemma pow2_inject a : (0 <= a)%Z -> inject_Z (2 ^ a) == pow2 a.
Proof. intros H. unfold pow2. rewrite Zpower_Qpower by exact H. reflexivity. Qed.

Lemma round_half_even_bounds x :
  (Qfloor x <= round_half_even x <= Qfloor x + 1)%Z.
Proof.
  unfold round_half_even.
  destruct (Qcompare _ _); [destruct (Z.even _) | |]; lia.
Qed.

Lemma round_half_even_mono x y : x <= y -> (round_half_even x <= round_half_even y)%Z.
Proof.
  intros Hxy.
  pose proof (Qfloor_resp_le _ _ Hxy) as Hf.
  pose proof (round_half_even_bounds x) as Bx.
  pose proof (round_half_even_bounds y) as By.
  destruct (Z.eq_dec (Qfloor x) (Qfloor y)) as [E | NE]; [| lia].
  clear Bx By Hf. unfold round_half_even. rewrite <- E.
  destruct (Qcompare_spec (x - inject_Z (Qfloor x)) (1 # 2)) as [Hx | Hx | Hx];
    destruct (Qcompare_spec (y - inject_Z (Qfloor x)) (1 # 2)) as [Hy | Hy | Hy];
    try destruct (Z.even (Qfloor x)); try lia; exfalso; lra.
Qed.

Lemma round_half_even_inject n : round_half_even (inject_Z n) = n.
Proof.
  unfold round_half_even. rewrite Qfloor_Z.
  destruct (Qcompare_spec (inject_Z n - inject_Z n) (1 # 2)) as [H | H | H];
    [exfalso; lra | reflexivity | exfalso; lra].
Qed.

Lemma ilog2_spec q : 0 < q -> pow2 (ilog2 q) <= q /\ q < pow2 (ilog2 q + 1).
Proof.
  intros Hq. destruct q as [n d]. unfold ilog2. cbn [Qnum Qden].
  assert (Hn : (0 < n)%Z) by (unfold Qlt in Hq; simpl in Hq; lia).
  set (a := Z.log2 n). set (b := Z.log2 (Z.pos d)).
  assert (Ha0 : (0 <= a)%Z) by apply Z.log2_nonneg.
  assert (Hb0 : (0 <= b)%Z) by apply Z.log2_nonneg.
  destruct (Z.log2_spec n Hn) as [Ha1 Ha2]. fold a in Ha1, Ha2.
  destruct (Z.log2_spec (Z.pos d) (Pos2Z.is_pos d)) as [Hb1 Hb2]. fold b in Hb1, Hb2.
  assert (HA1 : pow2 a <= inject_Z n) by (rewrite <- pow2_inject by lia; rewrite <- Zle_Qle; lia).
  assert (HA2 : inject_Z n < 2 * pow2 a).
  { rewrite <- pow2_succ, <- pow2_inject by lia. rewrite <- Zlt_Qlt. replace (a + 1)%Z with (Z.succ a) by lia. lia. }
  assert (HB1 : pow2 b <= inject_Z (Z.pos d)) by (rewrite <- pow2_inject by lia; rewrite <- Zle_Qle; lia).
  assert (HB2 : inject_Z (Z.pos d) < 2 * pow2 b).
  { rewrite <- pow2_succ, <- pow2_inject by lia. rewrite <- Zlt_Qlt. replace (b + 1)%Z with (Z.succ b) by lia. lia. }
  assert (Hk : pow2 (a - b) * pow2 b == pow2 a).
  { rewrite <- pow2_add. replace (a - b + b)%Z with a by lia. reflexivity. }
  assert (Hqd : (n # d) * inject_Z (Z.pos d) == inject_Z n).
  { unfold Qeq, Qmult, inject_Z. simpl. lia. }
  pose proof (pow2_pos (a - b)) as Pk. pose proof (pow2_pos b) as Pb. pose proof (pow2_pos a) as Pa.
  assert (Pd : 0 < inject_Z (Z.pos d)) by (unfold Qlt, inject_Z; simpl; lia).
  set (K := pow2 (a - b)) in *. set (A := pow2 a) in *. set (B := pow2 b) in *.
  set (D := inject_Z (Z.pos d)) in *. set (N := inject_Z n) in *. set (q := n # d) in *.
  destruct (Qle_bool K q) eqn:E.
  - apply Qle_bool_iff in E. split; [exact E |].
    rewrite pow2_succ. fold K.
    apply Qmult_lt_r with D; [exact Pd |].
    rewrite Hqd. nra.
  - assert (E' : q < K).
    { apply Qnot_le_lt. intros C. apply Qle_bool_iff in C. congruence. }
    replace (a - b - 1 + 1)%Z with (a - b)%Z by lia. split; [| exact E'].
    assert (Hh : 2 * pow2 (a - b - 1) == K).
    { rewrite <- pow2_succ. replace (a - b - 1 + 1)%Z with (a - b)%Z by lia. reflexivity. }
    set (K2 := pow2 (a - b - 1)) in *.
    apply Qmult_le_r with D; [exact Pd |].
    rewrite Hqd. nra.
Qed.

Lemma pow2_lt_mono a b : (a < b)%Z -> pow2 a < pow2 b.
Proof.
  intros H. assert (E : pow2 b == pow2 (b - a - 1) * (2 * pow2 a)).
  { rewrite <- pow2_succ, <- pow2_add. replace (b - a - 1 + (a + 1))%Z with b by lia. reflexivity. }
  assert (H1 : 1 <= pow2 (b - a - 1)).
  { change 1 with (pow2 0). apply pow2_mono. lia. }
  pose proof (pow2_pos a). rewrite E. nra.
Qed.

Lemma ilog2_unique q e :
  pow2 e <= q -> q < pow2 (e + 1) -> ilog2 q = e.
Proof.
  intros H1 H2.
  assert (Hq : 0 < q) by (pose proof (pow2_pos e); lra).
  destruct (ilog2_spec q Hq) as [L1 L2].
  destruct (Z.lt_trichotomy (ilog2 q) e) as [C | [C | C]]; [exfalso | exact C | exfalso].
  - assert (pow2 (ilog2 q + 1) <= pow2 e) by (apply pow2_mono; lia). lra.
  - assert (pow2 (e + 1) <= pow2 (ilog2 q)) by (apply pow2_mono; lia). lra.
Qed.

Lemma ilog2_mono x y : 0 < x -> x <= y -> (ilog2 x <= ilog2 y)%Z.
Proof.
  intros Hx Hxy.
  destruct (ilog2_spec x Hx) as [X1 X2].
  destruct (ilog2_spec y) as [Y1 Y2]; [lra |].
  destruct (Z_le_gt_dec (ilog2 x) (ilog2 y)) as [C | C]; [exact C | exfalso].
  assert (pow2 (ilog2 y + 1) <= pow2 (ilog2 x)) by (apply pow2_mono; lia). lra.
Qed.

Lemma Qabs_of_pos q : 0 < q -> Qabs q = q.
Proof.
  destruct q as [n d]. unfold Qlt. simpl. intros H.
  unfold Qabs. f_equal. lia.
Qed.

Lemma ulp_exp_mono x y : 0 < x -> x <= y -> (ulp_exp x <= ulp_exp y)%Z.
Proof.
  intros Hx Hxy. unfold ulp_exp.
  rewrite (Qabs_of_pos x Hx), (Qabs_of_pos y) by lra.
  pose proof (ilog2_mono x y Hx Hxy). lia.
Qed.

Lemma round64_pos q :
  0 < q -> round64 q == inject_Z (round_half_even (q / pow2 (ulp_exp q))) * pow2 (ulp_exp q).
Proof.
  intros Hq. unfold round64.
  destruct (Qeq_bool q 0) eqn:E.
  - apply Qeq_bool_iff in E. lra.
  - cbv zeta. apply Qred_correct.
Qed.

Lemma round64_zero q : q == 0 -> round64 q = 0.
Proof.
  intros Hq. unfold round64.
  destruct (Qeq_bool q 0) eqn:E; [reflexivity |].
  apply Qeq_bool_iff in Hq. congruence.
Qed.

(** Rounding a scaled value against a power of two that lies on the grid. *)
Lemma grid_round_le s g j :
  (0 <= j)%Z -> s <= pow2 (g + j) ->
  inject_Z (round_half_even (s / pow2 g)) * pow2 g <= pow2 (g + j).
Proof.
  intros Hj Hs. pose proof (pow2_pos g) as Pg.
  assert (E : pow2 (g + j) == inject_Z (2 ^ j) * pow2 g).
  { rewrite pow2_inject by lia. rewrite pow2_add. ring. }
  rewrite E. apply Qmult_le_compat_r; [| lra].
  rewrite <- Zle_Qle.
  rewrite <- (round_half_even_inject (2 ^ j)).
  apply round_half_even_mono.
  apply Qle_shift_div_r; [exact Pg |]. rewrite <- E. exact Hs.
Qed.

Lemma grid_round_ge s g j :
  (0 <= j)%Z -> pow2 (g + j) <= s ->
  pow2 (g + j) <= inject_Z (round_half_even (s / pow2 g)) * pow2 g.
Proof.
  intros Hj Hs. pose proof (pow2_pos g) as Pg.
  assert (E : pow2 (g + j) == inject_Z (2 ^ j) * pow2 g).
  { rewrite pow2_inject by lia. rewrite pow2_add. ring. }
  rewrite E. apply Qmult_le_compat_r; [| lra].
  rewrite <- Zle_Qle.
  rewrite <- (round_half_even_inject (2 ^ j)) at 1.
  apply round_half_even_mono.
  apply Qle_shift_div_l; [exact Pg |]. rewrite <- E. exact Hs.
Qed.

Lemma round64_mono_pos x y : 0 < x -> x <= y -> round64 x <= round64 y.
Proof.
  intros Hx Hxy. assert (Hy : 0 < y) by lra.
  rewrite (round64_pos x Hx), (round64_pos y Hy).
  pose proof (ulp_exp_mono x y Hx Hxy) as Hg.
  destruct (Z.eq_dec (ulp_exp x) (ulp_exp y)) as [E | NE].
  - rewrite E. pose proof (pow2_pos (ulp_exp y)) as Pg.
    apply Qmult_le_compat_r; [| lra].
    rewrite <- Zle_Qle. apply round_half_even_mono.
    apply Qmult_le_compat_r; [exact Hxy |]. apply Qlt_le_weak, Qinv_lt_0_compat, Pg.
  - assert (Hlt : (ulp_exp x < ulp_exp y)%Z) by lia.
    unfold ulp_exp in Hlt.
    rewrite (Qabs_of_pos x Hx), (Qabs_of_pos y Hy) in Hlt.
    destruct (ilog2_spec x Hx) as [_ X2]. destruct (ilog2_spec y Hy) as [Y1 _].
    set (k := ilog2 y) in *.
    assert (Hgy : ulp_exp y = (k - (prec - 1))%Z).
    { unfold ulp_exp. rewrite (Qabs_of_pos y Hy). fold k. lia. }
    assert (Hgx : (ulp_exp x < k - (prec - 1))%Z).
    { unfold ulp_exp. rewrite (Qabs_of_pos x Hx). lia. }
    assert (Hkx : (ilog2 x + 1 <= k)%Z) by lia.
    assert (Xk : x <= pow2 k).
    { pose proof (pow2_mono _ _ Hkx). lra. }
    apply Qle_trans with (pow2 k).
    + pose proof (grid_round_le x (ulp_exp x) (k - ulp_exp x)) as G.
      replace (ulp_exp x + (k - ulp_exp x))%Z with k in G by lia.
      apply G; [unfold prec in Hgx; lia | exact Xk].
    + pose proof (grid_round_ge y (ulp_exp y) (prec - 1)) as G.
      replace (ulp_exp y + (prec - 1))%Z with k in G by lia.
      apply G; [unfold prec; lia | exact Y1].
Qed.

Lemma round64_nonneg x : 0 <= x -> 0 <= round64 x.
Proof.
  intros Hx. destruct (Qeq_dec x 0) as [E | NE].
  - rewrite (round64_zero x E). lra.
  - assert (Hp : 0 < x) by (destruct (Qle_lt_or_eq _ _ Hx) as [H|H]; [exact H | exfalso; apply NE; symmetry; exact H]).
    rewrite (round64_pos x Hp). pose proof (pow2_pos (ulp_exp x)) as Pg.
    apply Qmult_le_0_compat; [| lra].
    change 0 with (inject_Z 0). rewrite <- Zle_Qle.
    rewrite <- (round_half_even_inject 0). apply round_half_even_mono.
    apply Qle_shift_div_l; [exact Pg | change (inject_Z 0) with 0; lra].
Qed.

Lemma round64_mono x y : 0 <= x -> x <= y -> round64 x <= round64 y.
Proof.
  intros Hx Hxy. destruct (Qeq_dec x 0) as [E | NE].
  - rewrite (round64_zero x E). apply round64_nonneg. lra.
  - apply round64_mono_pos; [| exact Hxy].
    destruct (Qle_lt_or_eq _ _ Hx) as [H|H]; [exact H | exfalso; apply NE; symmetry; exact H].
Qed.

Lemma round64_is_red q : Qred (round64 q) = round64 q.
Proof.
  unfold round64. destruct (Qeq_bool q 0); [reflexivity |].
  cbv zeta. apply Qred_complete, Qred_correct.
Qed.

Lemma round64_proper x y : 0 <= x -> x == y -> round64 x = round64 y.
Proof.
  intros Hx E.
  rewrite <- (round64_is_red x), <- (round64_is_red y).
  apply Qred_complete. apply Qle_antisym; apply round64_mono; lra.
Qed.

Lemma round64_one : round64 1 = 1.
Proof. vm_compute. reflexivity. Qed.

Lemma round64_hundred : round64 100 = 100.
Proof. vm_compute. reflexivity. Qed.

Lemma overflows_small q : 0 <= q -> q <= 100 -> overflows q = false.
Proof.
  intros H0 H1. unfold overflows.
  destruct (Qle_bool (pow2 emax) (Qabs q)) eqn:E; [exfalso | reflexivity].
  apply Qle_bool_iff in E. rewrite Qabs_pos in E by exact H0.
  assert (B : 100 < pow2 emax) by (vm_compute; reflexivity).
  lra.
Qed.

End Float64Facts.

(** ** The percentage of the metrics *)

Section PercentageFacts.
Local Open Scope Q_scope.

Lemma fraction_bounds (count total : nat) :
  (0 < total)%nat -> (count <= total)%nat ->
  0 <= inject_Z (Z.of_nat count) / inject_Z (Z.of_nat total) <= 1.
Proof.
  intros Ht Hc.
  assert (Pt : 0 < inject_Z (Z.of_nat total)).
  { change 0 with (inject_Z 0). rewrite <- Zlt_Qlt. lia. }
  assert (Pc : 0 <= inject_Z (Z.of_nat count)).
  { change 0 with (inject_Z 0). rewrite <- Zle_Qle. lia. }
  assert (Le : inject_Z (Z.of_nat count) <= inject_Z (Z.of_nat total)).
  { rewrite <- Zle_Qle. lia. }
  split.
  - apply Qle_shift_div_l; [exact Pt | lra].
  - apply Qle_shift_div_r; [exact Pt | lra].
Qed.

Lemma round64_unit q : 0 <= q -> q <= 1 -> 0 <= round64 q <= 1.
Proof.
  intros H0 H1. split; [apply round64_nonneg, H0 |].
  rewrite <- round64_one. apply round64_mono; assumption.
Qed.

Lemma round64_times_hundred q :
  0 <= q -> q <= 1 -> 0 <= round64 (q * 100) <= 100.
Proof.
  intros H0 H1. split; [apply round64_nonneg; lra |].
  rewrite <- round64_hundred at 2. apply round64_mono; lra.
Qed.

Lemma truncation_nonneg q :
  0 <= q -> Z.quot (Qnum q) (Zpos (Qden q)) = Qfloor q.
Proof.
  destruct q as [n d]. unfold Qle. simpl. intros Hn.
  apply Z.quot_div_nonneg; lia.
Qed.

Lemma int_truediv_fraction (count total : nat) :
  (0 < total)%nat -> (count <= total)%nat ->
  int_truediv (Z.of_nat count) (Z.of_nat total)
  = Ok (Finite (round64 (inject_Z (Z.of_nat count) / inject_Z (Z.of_nat total)))).
Proof.
  intros Ht Hc. unfold int_truediv.
  destruct (Z.eqb_spec (Z.of_nat total) 0) as [E | _]; [lia |].
  cbv zeta.
  destruct (fraction_bounds count total Ht Hc) as [F0 F1].
  destruct (round64_unit _ F0 F1) as [R0 R1].
  rewrite overflows_small by lra. reflexivity.
Qed.

Lemma percentage_eq (count total : nat) :
  (0 < total)%nat -> (count <= total)%nat ->
  percentage count total = Ok (Qfloor (percentage_value count total)).
Proof.
  intros Ht Hc. unfold percentage.
  destruct (Nat.ltb_spec 0 total) as [_ | C]; [| lia].
  rewrite (int_truediv_fraction count total Ht Hc).
  destruct (fraction_bounds count total Ht Hc) as [F0 F1].
  destruct (round64_unit _ F0 F1) as [R0 R1].
  destruct (round64_times_hundred _ R0 R1) as [M0 M1].
  cbn. rewrite overflows_small by assumption.
  cbn. rewrite truncation_nonneg by exact M0. reflexivity.
Qed.

Lemma percentage_no_total (count : nat) : percentage count 0 = Ok 0%Z.
Proof. reflexivity. Qed.

Lemma percentage_value_bounds (count total : nat) :
  (0 < total)%nat -> (count <= total)%nat ->
  (0 <= Qfloor (percentage_value count total) <= 100)%Z.
Proof.
  intros Ht Hc.
  destruct (fraction_bounds count total Ht Hc) as [F0 F1].
  destruct (round64_unit _ F0 F1) as [R0 R1].
  destruct (round64_times_hundred _ R0 R1) as [M0 M1].
  unfold percentage_value. split.
  - rewrite <- (Qfloor_Z 0). apply Qfloor_resp_le. exact M0.
  - rewrite <- (Qfloor_Z 100). apply Qfloor_resp_le. exact M1.
Qed.

Lemma percentage_value_mono (c1 c2 total : nat) :
  (0 < total)%nat -> (c1 <= c2)%nat -> (c2 <= total)%nat ->
  (Qfloor (percentage_value c1 total) <= Qfloor (percentage_value c2 total))%Z.
Proof.
  intros Ht H12 H2.
  destruct (fraction_bounds c1 total Ht ltac:(lia)) as [F0 F1].
  assert (Pt : 0 < inject_Z (Z.of_nat total)).
  { change 0 with (inject_Z 0). rewrite <- Zlt_Qlt. lia. }
  assert (Le : inject_Z (Z.of_nat c1) / inject_Z (Z.of_nat total)
               <= inject_Z (Z.of_nat c2) / inject_Z (Z.of_nat total)).
  { apply Qmult_le_compat_r; [rewrite <- Zle_Qle; lia |].
    apply Qlt_le_weak, Qinv_lt_0_compat, Pt. }
  pose proof (round64_mono _ _ F0 Le) as R.
  pose proof (round64_nonneg _ F0) as R0.
  apply Qfloor_resp_le. unfold percentage_value.
  apply round64_mono; lra.
Qed.

(** A count within the total always has a percentage, between 0 and 100,
    and the percentage grows with the count. *)
Lemma percentage_total (count total : nat) :
  (count <= total)%nat ->
  exists z, percentage count total = Ok z /\ (0 <= z <= 100)%Z.
Proof.
  intros Hc. destruct total as [| t].
  - exists 0%Z. split; [reflexivity | lia].
  - exists (Qfloor (percentage_value count (S t))). split.
    + apply percentage_eq; lia.
    + apply percentage_value_bounds; lia.
Qed.

Lemma percentage_mono (c1 c2 total : nat) z1 z2 :
  (c1 <= c2)%nat -> (c2 <= total)%nat ->
  percentage c1 total = Ok z1 -> percentage c2 total = Ok z2 ->
  (z1 <= z2)%Z.
Proof.
  intros H12 H2 E1 E2. destruct total as [| t].
  - cbn in E1, E2. injection E1 as <-. injection E2 as <-. lia.
  - rewrite percentage_eq in E1, E2 by lia.
    injection E1 as <-. injection E2 as <-.
    apply percentage_value_mono; lia.
Qed.

End PercentageFacts.

(** ** The lexical similarity *)

Section SimilarityFacts.
Context `{Builtins}.

Lemma keyword_similarity_nonempty (a b : string) :
  keywords a ≠ ∅ -> keywords b ≠ ∅ ->
  _keyword_similarity a b
  = Ok (Finite (round64 (inject_Z (Z.of_nat (size (keywords a ∩ keywords b)))
                         / inject_Z (Z.of_nat (size (keywords a ∪ keywords b)))))).
Proof.
  intros Ha Hb. unfold _keyword_similarity. cbv zeta.
  rewrite !bool_decide_eq_false_2 by assumption. cbn [orb].
  apply int_truediv_fraction.
  - assert (size (keywords a ∪ keywords b) ≠ 0); [| lia].
    intros E. apply size_empty_inv, leibniz_equiv in E.
    apply empty_union_L in E. apply Ha, E.
  - apply subseteq_size.
    etrans; [apply intersection_subseteq_l | apply union_subseteq_l].
Qed.

Lemma keyword_similarity_empty (a b : string) :
  keywords a = ∅ \/ keywords b = ∅ -> _keyword_similarity a b = Ok (Finite 0).
Proof.
  intros E. unfold _keyword_similarity. cbv zeta.
  destruct E as [E | E]; rewrite E.
  - rewrite bool_decide_eq_true_2 by reflexivity. reflexivity.
  - rewrite (bool_decide_eq_true_2 (∅ = ∅)) by reflexivity.
    rewrite orb_true_r. reflexivity.
Qed.

Lemma keyword_similarity_range (a b : string) :
  exists q, _keyword_similarity a b = Ok (Finite q) /\ (0 <= q <= 1)%Q.
Proof.
  destruct (decide (keywords a = ∅)) as [Ea | Na].
  { exists 0%Q. split; [apply keyword_similarity_empty; left; exact Ea | lra]. }
  destruct (decide (keywords b = ∅)) as [Eb | Nb].
  { exists 0%Q. split; [apply keyword_similarity_empty; right; exact Eb | lra]. }
  eexists. split; [apply keyword_similarity_nonempty; assumption |].
  assert (Hu : size (keywords a ∪ keywords b) ≠ 0).
  { intros E. apply size_empty_inv, leibniz_equiv in E.
    apply empty_union_L in E. apply Na, E. }
  assert (Hi : size (keywords a ∩ keywords b) <= size (keywords a ∪ keywords b)).
  { apply subseteq_size.
    etrans; [apply intersection_subseteq_l | apply union_subseteq_l]. }
  assert (Hp : 0 < size (keywords a ∪ keywords b)) by lia.
  destruct (fraction_bounds _ _ Hp Hi) as [F0 F1].
  apply round64_unit; assumption.
Qed.

(** The similarity oracle never raises: the embedding model may, and then
    the lexical fallback answers. *)
Lemma get_similarity_total (es : EmbeddingService) (a b : string) :
  exists score, get_similarity es a b = Ok score.
Proof.
  destruct (keyword_similarity_range a b) as [q [E _]].
  unfold get_similarity. destruct (use_fallback es).
  - eauto.
  - destruct (model_similarity es a b); eauto.
Qed.

(** C7. The lexical similarity fallback is symmetric; on identical input
    whose lower-cased tokens are not all stop words (and not none) it is
    exactly 1.0; it is 0.0 as soon as either token set is empty after the
    stop words are removed; and its value always lies in [0,1]. *)
Theorem keyword_similarity_properties (a b : string) :
  _keyword_similarity a b = _keyword_similarity b a
  /\ (keywords a ≠ ∅ -> _keyword_similarity a a = Ok (Finite 1))
  /\ (keywords a = ∅ \/ keywords b = ∅ ->
      _keyword_similarity a b = Ok (Finite 0))
  /\ exists q, _keyword_similarity a b = Ok (Finite q) /\ (0 <= q <= 1)%Q.
Proof.
  split; [| split; [| split]].
  - unfold _keyword_similarity. cbv zeta.
    rewrite (orb_comm (bool_decide (keywords a = ∅))).
    rewrite (intersection_comm_L (keywords a)), (union_comm_L (keywords a)).
    reflexivity.
  - intros Ha. rewrite keyword_similarity_nonempty by assumption.
    rewrite intersection_idemp_L, union_idemp_L.
    assert (Hs : size (keywords a) ≠ 0).
    { intros E. apply size_empty_inv in E. apply Ha, leibniz_equiv, E. }
    f_equal. f_equal. rewrite <- round64_one.
    assert (Hp : 0 < size (keywords a)) by lia.
    destruct (fraction_bounds _ _ Hp (Nat.le_refl _)) as [F0 _].
    apply round64_proper; [exact F0 |].
    apply Qmult_inv_r.
    change 0%Q with (inject_Z 0). rewrite inject_Z_injective. lia.
  - apply keyword_similarity_empty.
  - apply keyword_similarity_range.
Qed.

End SimilarityFacts.

(** ** The persona decision engine *)

Section EngineFacts.
Context `{Builtins} {W : Type} `{BaseLLM W}.
Variable es : EmbeddingService.

Lemma bind_Ok {A B : Type} (a : A) (k : A -> Result B) : (Ok a ≫= k) = k a.
Proof. reflexivity. Qed.

Lemma member_str_spec (x : string) (allowed : list string) :
  member_str (PStr x) allowed = true <-> x ∈ allowed.
Proof.
  unfold member_str. rewrite existsb_exists. split.
  - intros [y [Hy E]]. cbn in E. apply String.eqb_eq in E. subst y.
    apply list_elem_of_In. exact Hy.
  - intros Hx. exists x. split; [apply list_elem_of_In, Hx |].
    cbn. apply String.eqb_refl.
Qed.

Lemma clamp_str_cases (v : pyval) (allowed : list string) (dflt : string) :
  (v = PStr (clamp_str v allowed dflt) /\ clamp_str v allowed dflt ∈ allowed)
  \/ (clamp_str v allowed dflt = dflt /\ forall s, v = PStr s -> s ∉ allowed).
Proof.
  destruct v; try (right; split; [reflexivity | intros ? [=]]).
  unfold clamp_str. destruct (member_str (PStr s) allowed) eqn:E.
  - left. split; [reflexivity | apply member_str_spec, E].
  - right. split; [reflexivity |]. intros s' [= <-] Hs.
    apply member_str_spec in Hs. congruence.
Qed.

Lemma clamp_str_range (v : pyval) (allowed : list string) (dflt : string) :
  clamp_str v allowed dflt ∈ dflt :: allowed.
Proof.
  destruct (clamp_str_cases v allowed dflt) as [[_ Hin] | [-> _]].
  - right. exact Hin.
  - left.
Qed.

Lemma scan_decision_action (res_a : pyval) a reason d :
  scan_decision res_a = Ok (a, reason, d) ->
  a ∈ ["ignored"; "opened"; "ignored"; "spam"].
Proof.
  unfold scan_decision. intros E.
  destruct (py_get res_a "action" (PStr "ignored")) as [v |]; [| discriminate].
  cbn in E. destruct (py_lower v) as [v' |]; [| discriminate].
  cbn in E. destruct (py_get res_a "reason" (PStr "Not relevant")) as [r |];
    [| discriminate].
  cbn in E. destruct (py_get res_a "thought_process" r); [| discriminate].
  cbn in E. injection E as <- _ _. apply clamp_str_range.
Qed.

Lemma act_decision_action (res_c reason : pyval) a c d :
  act_decision res_c reason = Ok (a, c, d) ->
  exists f,
    final_action_of res_c = Ok f
    /\ a = clamp_str f ["clicked"; "replied"] "opened".
Proof.
  unfold act_decision, final_action_of. intros E.
  destruct (py_get res_c "final_action" (PStr "opened")) as [v |]; [| discriminate].
  cbn in E |- *. destruct (py_lower v) as [f |]; [| discriminate].
  cbn in E. exists f. split; [reflexivity |].
  destruct (if String.eqb _ "replied" then _ else _) as [c' |]; [| discriminate].
  cbn in E. destruct (py_get res_c "internal_monologue" reason); [| discriminate].
  cbn in E. congruence.
Qed.

Lemma new_Response_inv p a s c d r :
  new_Response p a s c d = Ok r ->
  persona r = p /\ action r = a /\ sentiment r = s
  /\ coerce_str c = Ok (comment r) /\ coerce_str d = Ok (detailedReasoning r).
Proof.
  unfold new_Response. intros E.
  destruct (coerce_str c) as [c' |]; [| discriminate].
  cbn in E. destruct (coerce_str d) as [d' |]; [| discriminate].
  cbn in E. injection E as <-. cbn. auto.
Qed.

Lemma simulate_inv draft p w r w' :
  _simulate_single_persona es draft p w = (Ok r, w') -> trace es draft p w r w'.
Proof.
  unfold _simulate_single_persona. intros E.
  destruct (get_similarity es (subject draft) (persona_context p))
    as [score |] eqn:Hs; [| discriminate].
  destruct (predict (inbox_scan p draft score) w) as [reply_a w1] eqn:Ha.
  destruct (scan_decision (parse_reply reply_a scan_fallback))
    as [[[a reason] d0] |] eqn:Hd; [| discriminate].
  destruct (String.eqb_spec a "opened") as [-> | Hne].
  - destruct (predict (take_action p draft) w1) as [reply_c w2] eqn:Hc.
    destruct (act_decision (parse_reply reply_c act_fallback) reason)
      as [[[a c] d] |] eqn:Hf; [| discriminate].
    injection E as E <-. eapply opened_and_acted; eassumption.
  - injection E as E <-. eapply closed_unread; eassumption.
Qed.

(** The engine up to the scan decision, when the oracle's scan reply is
    known. *)
Lemma simulate_after_scan draft p w score reply_a w1 :
  get_similarity es (subject draft) (persona_context p) = Ok score ->
  predict (inbox_scan p draft score) w = (reply_a, w1) ->
  _simulate_single_persona es draft p w =
  match scan_decision (parse_reply reply_a scan_fallback) with
  | Raise e => (Raise e, w1)
  | Ok (a, reason, d0) =>
      if String.eqb a "opened" then
        let '(reply_c, w2) := predict (take_action p draft) w1 in
        match act_decision (parse_reply reply_c act_fallback) reason with
        | Raise e => (Raise e, w2)
        | Ok (a', c, d) =>
            (new_Response p a' "neutral" (py_or c (PStr "No comment")) d, w2)
        end
      else
        (new_Response p a "neutral" (py_or reason (PStr "No comment")) d0, w1)
  end.
Proof.
  intros Hs Ha. unfold _simulate_single_persona. rewrite Hs, Ha. reflexivity.
Qed.

(** The scan stage clamps to 'ignored' and the act stage lets only
    'clicked' and 'replied' replace 'opened'. *)
Lemma simulate_enumerated draft p w r w' :
  _simulate_single_persona es draft p w = (Ok r, w') -> enumerated r.
Proof.
  intros E. unfold enumerated. destruct (simulate_inv _ _ _ _ _ E).
  - apply new_Response_inv in Hresp as (_ & -> & _).
    apply scan_decision_action in Hdec. list_mem.
  - apply new_Response_inv in Hresp as (_ & -> & _).
    apply act_decision_action in Hfin as (f & _ & ->).
    pose proof (clamp_str_range f ["clicked"; "replied"] "opened").
    list_mem.
Qed.

(** The except branch of a [try] leaves the fallback. *)
Lemma parse_reply_fails (reply : Result pyval) (fallback : pyval) :
  parse_fails reply -> parse_reply reply fallback = fallback.
Proof.
  unfold parse_fails, parse_reply.
  destruct reply as [[] |]; try reflexivity.
  intros [e ->]. reflexivity.
Qed.

Lemma text_field_value fields k dflt s :
  text_field fields k dflt = Some s ->
  default (PStr dflt) (lookup_key k fields) = PStr s.
Proof.
  unfold text_field. destruct (lookup_key k fields) as [[] |]; cbn; congruence.
Qed.

Lemma py_or_text (s : string) :
  py_or (PStr s) (PStr "No comment")
  = PStr (if String.eqb s "" then "No comment" else s).
Proof. unfold py_or. cbn. destruct (String.eqb s ""); reflexivity. Qed.

Lemma new_Response_text p a c d :
  accepts_text ->
  new_Response p a "neutral" (PStr c) (PStr d)
  = Ok {| persona := p; action := a; sentiment := "neutral"; comment := c;
          detailedReasoning := d |}.
Proof. intros Ht. unfold new_Response. rewrite !Ht. reflexivity. Qed.

Lemma scan_decision_unrecognised fields reason thought :
  lower_on_ascii ->
  unrecognised_action fields ->
  text_field fields "reason" "Not relevant" = Some reason ->
  text_field fields "thought_process" reason = Some thought ->
  scan_decision (PDict fields) = Ok ("ignored", PStr reason, PStr thought).
Proof.
  intros Hl Ha Hr Ht. unfold scan_decision. cbn [py_get].
  rewrite (text_field_value _ _ _ _ Hr).
  assert (E : exists v, py_lower (default (PStr "ignored") (lookup_key "action" fields)) = Ok v
                        /\ clamp_str v ["opened"; "ignored"; "spam"] "ignored" = "ignored").
  { destruct Ha as [-> | (s & -> & Hs)].
    - exists (PStr (str_lower "ignored")). split; [reflexivity |].
      rewrite Hl by reflexivity. reflexivity.
    - exists (PStr (str_lower s)). split; [reflexivity |].
      destruct (clamp_str_cases (PStr (str_lower s)) ["opened"; "ignored"; "spam"]
                  "ignored") as [[Hv Hin] | [Hd _]]; [| exact Hd].
      injection Hv as Hv. exfalso. apply Hs. rewrite Hv. exact Hin. }
  destruct E as (v & Hv & Hc).
  rewrite bind_Ok, Hv, !bind_Ok, Hc, (text_field_value _ _ _ _ Ht).
  reflexivity.
Qed.

Lemma scan_decision_fallback :
  lower_on_ascii ->
  scan_decision scan_fallback
  = Ok ("ignored", PStr "Failed to parse decision",
        PStr "Error parsing LLM response").
Proof.
  intros Hl. unfold scan_decision, scan_fallback. cbn.
  rewrite Hl by reflexivity. reflexivity.
Qed.

(** C4, as the code has it. In the scan stage the Decision Engine does not
    raise and produces the action 'ignored': with the comment "Failed to
    parse decision" when the oracle call raises, returns no text, or its
    cleaned text fails to parse as JSON; and with the reply's own reason as
    the comment ("Not relevant" when the reason is absent, "No comment"
    when it is empty) when the text parses to an object whose 'action' is
    absent or is a str that, lower-cased, is none of opened, ignored, spam,
    and whose 'reason' and 'thought_process' are absent or strs. *)
Theorem scan_clamps_to_ignored draft p w score reply w1 :
  accepts_text ->
  lower_on_ascii ->
  get_similarity es (subject draft) (persona_context p) = Ok score ->
  predict (inbox_scan p draft score) w = (reply, w1) ->
  (parse_fails reply ->
   _simulate_single_persona es draft p w
   = (Ok {| persona := p; action := "ignored"; sentiment := "neutral";
            comment := "Failed to parse decision";
            detailedReasoning := "Error parsing LLM response" |}, w1))
  /\ (forall fields reason thought,
        parse_reply reply scan_fallback = PDict fields ->
        unrecognised_action fields ->
        text_field fields "reason" "Not relevant" = Some reason ->
        text_field fields "thought_process" reason = Some thought ->
        _simulate_single_persona es draft p w
        = (Ok {| persona := p; action := "ignored"; sentiment := "neutral";
                 comment := if String.eqb reason "" then "No comment" else reason;
                 detailedReasoning := thought |}, w1)).
Proof.
  intros Ht Hl Hs Hp. rewrite (simulate_after_scan _ _ _ _ _ _ Hs Hp). split.
  - intros Hf. rewrite (parse_reply_fails _ _ Hf), (scan_decision_fallback Hl).
    cbn -[new_Response]. rewrite new_Response_text by exact Ht. reflexivity.
  - intros fields reason thought -> Ha Hr Hth.
    rewrite (scan_decision_unrecognised _ _ _ Hl Ha Hr Hth).
    cbn -[new_Response py_or].
    rewrite py_or_text, new_Response_text by exact Ht. reflexivity.
Qed.

Lemma simulate_after_act draft p w score reply_a w1 reason d0 reply_c w2 :
  get_similarity es (subject draft) (persona_context p) = Ok score ->
  predict (inbox_scan p draft score) w = (reply_a, w1) ->
  scan_decision (parse_reply reply_a scan_fallback) = Ok ("opened", reason, d0) ->
  predict (take_action p draft) w1 = (reply_c, w2) ->
  _simulate_single_persona es draft p w =
  match act_decision (parse_reply reply_c act_fallback) reason with
  | Raise e => (Raise e, w2)
  | Ok (a, c, d) =>
      (new_Response p a "neutral" (py_or c (PStr "No comment")) d, w2)
  end.
Proof.
  intros Hs Ha Hd Hc. rewrite (simulate_after_scan _ _ _ _ _ _ Hs Ha), Hd.
  cbn -[new_Response py_or act_decision]. rewrite Hc. reflexivity.
Qed.

Lemma act_decision_fallback reason :
  lower_on_ascii ->
  act_decision act_fallback reason
  = Ok ("opened", PStr "Undecided", PStr "Undecided").
Proof.
  intros Hl. unfold act_decision, act_fallback. cbn.
  rewrite Hl by reflexivity. reflexivity.
Qed.

Lemma py_or_truthy (v : pyval) : truthy (py_or v (PStr "No comment")) = true.
Proof. unfold py_or. destruct (truthy v) eqn:E; [exact E | reflexivity]. Qed.

Lemma act_decision_replied (res_c reason : pyval) c d :
  act_decision res_c reason = Ok ("replied", c, d) ->
  exists fields,
    res_c = PDict fields /\ c = default PNone (lookup_key "reply_text" fields).
Proof.
  unfold act_decision. intros E.
  destruct res_c; try discriminate. exists bindings. split; [reflexivity |].
  cbn [py_get] in E. rewrite bind_Ok in E.
  destruct (py_lower _) as [f |]; [| discriminate].
  rewrite bind_Ok in E. cbv zeta in E.
  destruct (String.eqb_spec (clamp_str f ["clicked"; "replied"] "opened") "replied")
    as [Ea | Na].
  - rewrite !bind_Ok in E. congruence.
  - rewrite !bind_Ok in E. congruence.
Qed.

Lemma clamp_str_member (s : string) (allowed : list string) (dflt : string) :
  s ∈ allowed -> clamp_str (PStr s) allowed dflt = s.
Proof.
  intros Hin. unfold clamp_str.
  rewrite (proj2 (member_str_spec s allowed) Hin). reflexivity.
Qed.

Lemma clamp_str_other (s : string) (allowed : list string) (dflt : string) :
  s ∉ allowed -> clamp_str (PStr s) allowed dflt = dflt.
Proof.
  intros Hout. unfold clamp_str.
  destruct (member_str (PStr s) allowed) eqn:E; [| reflexivity].
  apply member_str_spec in E. contradiction.
Qed.

(** The Response of a persona who does not open: the scan reply is an
    object whose 'action', 'reason' and 'thought_process' are absent or
    strs, and the lower-cased action is not 'opened'. *)
Lemma scan_stage_response draft p w score reply_a w1 fields s reason thought :
  accepts_text ->
  get_similarity es (subject draft) (persona_context p) = Ok score ->
  predict (inbox_scan p draft score) w = (reply_a, w1) ->
  parse_reply reply_a scan_fallback = PDict fields ->
  text_field fields "action" "ignored" = Some s ->
  str_lower s <> "opened" ->
  text_field fields "reason" "Not relevant" = Some reason ->
  text_field fields "thought_process" reason = Some thought ->
  _simulate_single_persona es draft p w
  = (Ok (unread_response p
           (if String.eqb (str_lower s) "spam" then "spam" else "ignored")
           reason thought), w1).
Proof.
  intros Ht Hs Hp Hfields Hact Hno Hr Hth.
  rewrite (simulate_after_scan _ _ _ _ _ _ Hs Hp), Hfields.
  unfold scan_decision. cbn [py_get].
  rewrite (text_field_value _ _ _ _ Hact), (text_field_value _ _ _ _ Hr).
  rewrite bind_Ok. cbn [py_lower]. rewrite !bind_Ok.
  rewrite (text_field_value _ _ _ _ Hth).
  assert (Hclamp : clamp_str (PStr (str_lower s)) ["opened"; "ignored"; "spam"]
                     "ignored"
                   = if String.eqb (str_lower s) "spam" then "spam" else "ignored").
  { destruct (String.eqb_spec (str_lower s) "spam") as [E | N].
    - rewrite E. reflexivity.
    - destruct (String.eqb_spec (str_lower s) "ignored") as [E | N'].
      + rewrite E. reflexivity.
      + apply clamp_str_other. intros Hin. apply list_elem_of_In in Hin.
        cbn in Hin. intuition congruence. }
  rewrite Hclamp.
  assert (Hne : String.eqb (if String.eqb (str_lower s) "spam"
                            then "spam" else "ignored") "opened" = false).
  { destruct (String.eqb (str_lower s) "spam"); reflexivity. }
  rewrite Hne, py_or_text, new_Response_text by exact Ht. reflexivity.
Qed.

(** The Response after the act stage when the final action is not
    'replied': the reply is an object whose 'final_action' and
    'internal_monologue' are absent or strs. *)
Lemma act_stage_response
    draft p w score reply_a w1 reason d0 reply_c w2 fields fa m :
  accepts_text ->
  get_similarity es (subject draft) (persona_context p) = Ok score ->
  predict (inbox_scan p draft score) w = (reply_a, w1) ->
  scan_decision (parse_reply reply_a scan_fallback)
  = Ok ("opened", PStr reason, d0) ->
  predict (take_action p draft) w1 = (reply_c, w2) ->
  parse_reply reply_c act_fallback = PDict fields ->
  text_field fields "final_action" "opened" = Some fa ->
  str_lower fa <> "replied" ->
  text_field fields "internal_monologue" reason = Some m ->
  _simulate_single_persona es draft p w
  = (Ok {| persona := p;
           action := if String.eqb (str_lower fa) "clicked"
                     then "clicked" else "opened";
           sentiment := "neutral";
           comment := if String.eqb m "" then "No comment" else m;
           detailedReasoning := m |}, w2).
Proof.
  intros Ht Hs Ha Hd Hc Hfields Hfa Hnr Hm.
  rewrite (simulate_after_act _ _ _ _ _ _ _ _ _ _ Hs Ha Hd Hc), Hfields.
  unfold act_decision. cbn [py_get].
  rewrite (text_field_value _ _ _ _ Hfa), (text_field_value _ _ _ _ Hm).
  rewrite bind_Ok. cbn [py_lower]. rewrite bind_Ok. cbv zeta.
  assert (Hclamp : clamp_str (PStr (str_lower fa)) ["clicked"; "replied"] "opened"
                   = if String.eqb (str_lower fa) "clicked"
                     then "clicked" else "opened").
  { destruct (String.eqb_spec (str_lower fa) "clicked") as [E | N].
    - rewrite E. reflexivity.
    - apply clamp_str_other. intros Hin. apply list_elem_of_In in Hin.
      cbn in Hin. intuition congruence. }
  rewrite Hclamp.
  assert (Hnot : String.eqb (if String.eqb (str_lower fa) "clicked"
                             then "clicked" else "opened") "replied" = false).
  { destruct (String.eqb (str_lower fa) "clicked"); reflexivity. }
  rewrite Hnot, !bind_Ok, py_or_text, new_Response_text by exact Ht.
  reflexivity.
Qed.

(** The Response after the act stage when the final action is 'replied':
    the comment is read off 'reply_text' alone. *)
Lemma act_stage_reply
    draft p w score reply_a w1 reason d0 reply_c w2 fields fa t m :
  accepts_text ->
  get_similarity es (subject draft) (persona_context p) = Ok score ->
  predict (inbox_scan p draft score) w = (reply_a, w1) ->
  scan_decision (parse_reply reply_a scan_fallback)
  = Ok ("opened", PStr reason, d0) ->
  predict (take_action p draft) w1 = (reply_c, w2) ->
  parse_reply reply_c act_fallback = PDict fields ->
  text_field fields "final_action" "opened" = Some fa ->
  str_lower fa = "replied" ->
  reply_text_of fields = Some t ->
  text_field fields "internal_monologue" reason = Some m ->
  _simulate_single_persona es draft p w
  = (Ok {| persona := p; action := "replied"; sentiment := "neutral";
           comment := if String.eqb t "" then "No comment" else t;
           detailedReasoning := m |}, w2).
Proof.
  intros Ht Hs Ha Hd Hc Hfields Hfa Hrep Hrt Hm.
  rewrite (simulate_after_act _ _ _ _ _ _ _ _ _ _ Hs Ha Hd Hc), Hfields.
  unfold act_decision. cbn [py_get].
  rewrite (text_field_value _ _ _ _ Hfa), (text_field_value _ _ _ _ Hm).
  rewrite bind_Ok. cbn [py_lower]. rewrite bind_Ok. cbv zeta.
  rewrite Hrep.
  change (clamp_str (PStr "replied") ["clicked"; "replied"] "opened")
    with "replied".
  change (String.eqb "replied" "replied") with true. cbv iota.
  rewrite !bind_Ok.
  assert (Hor : py_or (default PNone (lookup_key "reply_text" fields))
                  (PStr "No comment")
                = PStr (if String.eqb t "" then "No comment" else t)).
  { unfold reply_text_of in Hrt.
    destruct (lookup_key "reply_text" fields) as [[] |];
      try discriminate; injection Hrt as <-;
      [reflexivity | apply py_or_text | reflexivity]. }
  rewrite Hor, new_Response_text by exact Ht. reflexivity.
Qed.

(** A 'final_action' that has no [lower] ends the call with the
    AttributeError: line 126 is outside the [try]. *)
Lemma act_stage_raises
    draft p w score reply_a w1 reason d0 reply_c w2 fields v :
  get_similarity es (subject draft) (persona_context p) = Ok score ->
  predict (inbox_scan p draft score) w = (reply_a, w1) ->
  scan_decision (parse_reply reply_a scan_fallback) = Ok ("opened", reason, d0) ->
  predict (take_action p draft) w1 = (reply_c, w2) ->
  parse_reply reply_c act_fallback = PDict fields ->
  lookup_key "final_action" fields = Some v ->
  (forall s, v <> PStr s) -> (forall b, v <> PBytes b) ->
  _simulate_single_persona es draft p w = (Raise AttributeError, w2).
Proof.
  intros Hs Ha Hd Hc Hfields Hv Hstr Hbytes.
  rewrite (simulate_after_act _ _ _ _ _ _ _ _ _ _ Hs Ha Hd Hc), Hfields.
  unfold act_decision. cbn [py_get]. rewrite Hv.
  change (default (PStr "opened") (Some v)) with v. rewrite bind_Ok.
  destruct v; try reflexivity.
  - destruct (Hstr s eq_refl).
  - destruct (Hbytes b eq_refl).
Qed.

(** The act stage, for a persona whose scan action is 'opened' and whose
    scan reason is a str: what the Response is for each shape of the act
    reply, and the one shape for which there is none. *)
Lemma act_stage draft p w score reply_a w1 reason d0 reply_c w2 :
  accepts_text ->
  get_similarity es (subject draft) (persona_context p) = Ok score ->
  predict (inbox_scan p draft score) w = (reply_a, w1) ->
  scan_decision (parse_reply reply_a scan_fallback)
  = Ok ("opened", PStr reason, d0) ->
  predict (take_action p draft) w1 = (reply_c, w2) ->
  (forall fields fa m,
     parse_reply reply_c act_fallback = PDict fields ->
     text_field fields "final_action" "opened" = Some fa ->
     text_field fields "internal_monologue" reason = Some m ->
     (str_lower fa = "clicked" ->
      exists r, _simulate_single_persona es draft p w = (Ok r, w2)
                /\ action r = "clicked")
     /\ (str_lower fa = "replied" ->
         forall t, reply_text_of fields = Some t ->
         exists r, _simulate_single_persona es draft p w = (Ok r, w2)
                   /\ action r = "replied")
     /\ (str_lower fa ∉ ["clicked"; "replied"] ->
         exists r, _simulate_single_persona es draft p w = (Ok r, w2)
                   /\ action r = "opened"))
  /\ (lower_on_ascii ->
      forall fields m,
        parse_reply reply_c act_fallback = PDict fields ->
        lookup_key "final_action" fields = None ->
        text_field fields "internal_monologue" reason = Some m ->
        exists r, _simulate_single_persona es draft p w = (Ok r, w2)
                  /\ action r = "opened")
  /\ (lower_on_ascii -> parse_fails reply_c ->
      _simulate_single_persona es draft p w
      = (Ok {| persona := p; action := "opened"; sentiment := "neutral";
               comment := "Undecided"; detailedReasoning := "Undecided" |}, w2))
  /\ (forall fields v,
        parse_reply reply_c act_fallback = PDict fields ->
        lookup_key "final_action" fields = Some v ->
        (forall s, v <> PStr s) -> (forall b, v <> PBytes b) ->
        _simulate_single_persona es draft p w = (Raise AttributeError, w2)).
Proof.
  intros Ht Hs Ha Hd Hc.
  assert (Hother : forall fields fa m,
    parse_reply reply_c act_fallback = PDict fields ->
    text_field fields "final_action" "opened" = Some fa ->
    text_field fields "internal_monologue" reason = Some m ->
    str_lower fa ∉ ["clicked"; "replied"] ->
    exists r, _simulate_single_persona es draft p w = (Ok r, w2)
              /\ action r = "opened").
  { intros fields fa m Hfields Hfa Hm Hout.
    assert (Hnr : str_lower fa <> "replied").
    { intros E. apply Hout. rewrite E. list_mem. }
    assert (Hnc : String.eqb (str_lower fa) "clicked" = false).
    { apply String.eqb_neq. intros E. apply Hout. rewrite E. list_mem. }
    eexists. split;
      [exact (act_stage_response _ _ _ _ _ _ _ _ _ _ _ _ _
                Ht Hs Ha Hd Hc Hfields Hfa Hnr Hm) |].
    cbn [action]. rewrite Hnc. reflexivity. }
  split; [| split; [| split]].
  - intros fields fa m Hfields Hfa Hm. split; [| split].
    + intros Hclick.
      assert (Hnr : str_lower fa <> "replied") by (rewrite Hclick; discriminate).
      eexists. split;
        [exact (act_stage_response _ _ _ _ _ _ _ _ _ _ _ _ _
                  Ht Hs Ha Hd Hc Hfields Hfa Hnr Hm) |].
      cbn [action]. rewrite Hclick. reflexivity.
    + intros Hrep t Hrt. eexists. split;
        [exact (act_stage_reply _ _ _ _ _ _ _ _ _ _ _ _ _ _
                  Ht Hs Ha Hd Hc Hfields Hfa Hrep Hrt Hm) |].
      reflexivity.
    + exact (Hother fields fa m Hfields Hfa Hm).
  - intros Hl fields m Hfields Hnone Hm.
    apply (Hother fields "opened" m Hfields); [| exact Hm |].
    + unfold text_field. rewrite Hnone. reflexivity.
    + rewrite Hl by reflexivity. intros Hin. apply list_elem_of_In in Hin.
      cbn in Hin. intuition discriminate.
  - intros Hl Hfail.
    rewrite (simulate_after_act _ _ _ _ _ _ _ _ _ _ Hs Ha Hd Hc).
    rewrite (parse_reply_fails _ _ Hfail), (act_decision_fallback _ Hl).
    cbn -[new_Response]. rewrite new_Response_text by exact Ht. reflexivity.
  - intros fields v Hfields Hv Hstr Hbytes.
    exact (act_stage_raises _ _ _ _ _ _ _ _ _ _ _ _
             Hs Ha Hd Hc Hfields Hv Hstr Hbytes).
Qed.

(** C5. In the act stage, for a persona whose scan action is 'opened',
    only a final_action of 'clicked' or 'replied' (after lower-casing)
    replaces the action: the Response is produced with that action, and
    with 'opened' for every other str, for an absent field and for an
    unparseable reply.  But a final_action that is no str (null, a number,
    a list) has no [lower]: line 126 raises AttributeError outside the
    [try], and there is no Response at all.  The act reply with a null
    final_action does this to the persona, and ends the run of three
    personas after the first. *)
Theorem null_final_action_raises :
  (forall draft p w score reply_a w1 reason d0 reply_c w2,
     accepts_text ->
     get_similarity es (subject draft) (persona_context p) = Ok score ->
     predict (inbox_scan p draft score) w = (reply_a, w1) ->
     scan_decision (parse_reply reply_a scan_fallback)
     = Ok ("opened", PStr reason, d0) ->
     predict (take_action p draft) w1 = (reply_c, w2) ->
     (forall fields fa m,
        parse_reply reply_c act_fallback = PDict fields ->
        text_field fields "final_action" "opened" = Some fa ->
        text_field fields "internal_monologue" reason = Some m ->
        (str_lower fa = "clicked" ->
         exists r, _simulate_single_persona es draft p w = (Ok r, w2)
                   /\ action r = "clicked")
        /\ (str_lower fa = "replied" ->
            forall t, reply_text_of fields = Some t ->
            exists r, _simulate_single_persona es draft p w = (Ok r, w2)
                      /\ action r = "replied")
        /\ (str_lower fa ∉ ["clicked"; "replied"] ->
            exists r, _simulate_single_persona es draft p w = (Ok r, w2)
                      /\ action r = "opened"))
     /\ (lower_on_ascii ->
         forall fields m,
           parse_reply reply_c act_fallback = PDict fields ->
           lookup_key "final_action" fields = None ->
           text_field fields "internal_monologue" reason = Some m ->
           exists r, _simulate_single_persona es draft p w = (Ok r, w2)
                     /\ action r = "opened")
     /\ (lower_on_ascii -> parse_fails reply_c ->
         _simulate_single_persona es draft p w
         = (Ok {| persona := p; action := "opened"; sentiment := "neutral";
                  comment := "Undecided"; detailedReasoning := "Undecided" |},
            w2))
     /\ (forall fields v,
           parse_reply reply_c act_fallback = PDict fields ->
           lookup_key "final_action" fields = Some v ->
           (forall s, v <> PStr s) -> (forall b, v <> PBytes b) ->
           _simulate_single_persona es draft p w = (Raise AttributeError, w2)))
  /\ Awkward.act_reply "nuller" = Ok (PStr Awkward.null_final_action_text)
  /\ json_loads (Builtins := Awkward.runtime)
       (strip_fences (H := Awkward.runtime) Awkward.null_final_action_text)
     = Ok (PDict [(PStr "final_action", PNone)])
  /\ _simulate_single_persona (H := Awkward.runtime) (H0 := Awkward.llm)
       Demo.embedding (Demo.draft_for "b2b" 1) (Demo.someone "p1" "nuller") 0
     = (Raise AttributeError, 2)
  /\ run_simulation_stream (H := Awkward.runtime) (H0 := Awkward.llm)
       (H1 := Demo.clock) Demo.embedding (Demo.draft_for "b2b" 3)
       (map (Demo.someone "p1") ["opener"; "nuller"; "spammer"]) 0
     = ([progress 1 3], Some AttributeError, 4).
Proof.
  split; [exact act_stage |].
  repeat split; vm_compute; reflexivity.
Qed.

(** C9, as the code has it. The comment of a Response is never empty,
    and it is the text the code selects, or the placeholder "No comment"
    when that text is empty: the scan reason ("Not relevant" when absent)
    for a persona who does not open; the internal monologue (the scan
    reason when absent) after an act stage that does not end with
    'replied'; and, when it ends with 'replied', the oracle's reply text
    alone, which counts as empty when it is absent or null: the internal
    monologue and the scan reason are not consulted then.  In each case
    the Response is produced. *)
Theorem response_comment draft p w :
  keeps_nonblank -> accepts_text ->
  (forall r w',
     _simulate_single_persona es draft p w = (Ok r, w') -> comment r <> "")
  /\ (forall score reply_a w1 fields s reason thought,
        get_similarity es (subject draft) (persona_context p) = Ok score ->
        predict (inbox_scan p draft score) w = (reply_a, w1) ->
        parse_reply reply_a scan_fallback = PDict fields ->
        text_field fields "action" "ignored" = Some s ->
        str_lower s <> "opened" ->
        text_field fields "reason" "Not relevant" = Some reason ->
        text_field fields "thought_process" reason = Some thought ->
        exists r,
          _simulate_single_persona es draft p w = (Ok r, w1)
          /\ action r ∈ ["spam"; "ignored"]
          /\ comment r = if String.eqb reason "" then "No comment" else reason)
  /\ (forall score reply_a w1 reason d0 reply_c w2 fields fa m,
        get_similarity es (subject draft) (persona_context p) = Ok score ->
        predict (inbox_scan p draft score) w = (reply_a, w1) ->
        scan_decision (parse_reply reply_a scan_fallback)
        = Ok ("opened", PStr reason, d0) ->
        predict (take_action p draft) w1 = (reply_c, w2) ->
        parse_reply reply_c act_fallback = PDict fields ->
        text_field fields "final_action" "opened" = Some fa ->
        text_field fields "internal_monologue" reason = Some m ->
        (str_lower fa <> "replied" ->
         exists r,
           _simulate_single_persona es draft p w = (Ok r, w2)
           /\ action r ∈ ["opened"; "clicked"]
           /\ comment r = if String.eqb m "" then "No comment" else m)
        /\ (str_lower fa = "replied" ->
            forall t, reply_text_of fields = Some t ->
            exists r,
              _simulate_single_persona es draft p w = (Ok r, w2)
              /\ action r = "replied"
              /\ comment r = if String.eqb t "" then "No comment" else t)).
Proof.
  intros Hk Ht. split; [| split].
  - intros r w' E. destruct (simulate_inv _ _ _ _ _ E);
      apply new_Response_inv in Hresp as (_ & _ & _ & Hc & _);
      exact (Hk _ _ (py_or_truthy _) Hc).
  - intros score reply_a w1 fields s reason thought Hs Ha Hfields Hact Hno Hr Hth.
    eexists. split;
      [exact (scan_stage_response _ _ _ _ _ _ _ _ _ _
                Ht Hs Ha Hfields Hact Hno Hr Hth) |].
    split; [| reflexivity]. cbn [action unread_response].
    destruct (String.eqb (str_lower s) "spam"); list_mem.
  - intros score reply_a w1 reason d0 reply_c w2 fields fa m
      Hs Ha Hd Hc Hfields Hfa Hm. split.
    + intros Hnr. eexists. split;
        [exact (act_stage_response _ _ _ _ _ _ _ _ _ _ _ _ _
                  Ht Hs Ha Hd Hc Hfields Hfa Hnr Hm) |].
      split; [| reflexivity]. cbn [action].
      destruct (String.eqb (str_lower fa) "clicked"); list_mem.
    + intros Hrep t Hrt. eexists. split;
        [exact (act_stage_reply _ _ _ _ _ _ _ _ _ _ _ _ _ _
                  Ht Hs Ha Hd Hc Hfields Hfa Hrep Hrt Hm) |].
      split; reflexivity.
Qed.

End EngineFacts.

(** ** The orchestrator *)

Section OrchestratorFacts.
Context `{Builtins} {W : Type} `{BaseLLM W} `{Clock W}.
Variable es : EmbeddingService.

Lemma incr_if_le b n : n <= incr_if b n <= S n.
Proof. destruct b; cbn; lia. Qed.

Lemma update_counts_five (c : Counts) (p : Persona) (r : Response) :
  action r ∈ ["opened"; "clicked"; "replied"; "spam"; "ignored"] ->
  counted_actions (update_counts c p r) = S (counted_actions c).
Proof.
  intros Ha. unfold counted_actions, update_counts. cbn.
  apply list_elem_of_In in Ha. cbn in Ha.
  destruct Ha as [<- | [<- | [<- | [<- | [<- | []]]]]]; cbn; lia.
Qed.

Lemma update_counts_forward (c : Counts) (p : Persona) (r : Response) :
  forward_count (update_counts c p r)
  = incr_if (String.eqb (action r) "clicked"
             && (py_hash (persona_id p) mod 5 =? 0)%Z) (forward_count c)
  /\ click_count (update_counts c p r)
     = incr_if (String.eqb (action r) "clicked") (click_count c).
Proof. split; reflexivity. Qed.

Lemma update_counts_invariant (n : nat) (c : Counts) (p : Persona) (r : Response) :
  action r ∈ ["opened"; "clicked"; "replied"; "spam"; "ignored"] ->
  counts_invariant n c -> counts_invariant (S n) (update_counts c p r).
Proof.
  intros Ha (Hsum & Hfwd & Hread). split; [| split].
  - rewrite update_counts_five by exact Ha. lia.
  - cbn. destruct (String.eqb (action r) "clicked"); cbn; [| exact Hfwd].
    destruct (_ =? _)%Z; cbn; lia.
  - unfold update_counts. cbn [read_count].
    pose proof (incr_if_le
      (existsb (String.eqb (action r)) ["opened"; "clicked"; "replied"])
      (read_count c)). lia.
Qed.

Lemma no_counts_invariant : counts_invariant 0 no_counts.
Proof. repeat split; cbn; lia. Qed.

(** The loop: the events it yields, and what holds of the responses and
    the counters when it ends. *)
Lemma simulate_all_spec draft total personas :
  forall i rs c w events r w',
    simulate_all es draft total i personas rs c w = (events, r, w') ->
    counts_invariant (length rs) c -> Forall enumerated rs ->
    match r with
    | Ok (rs', c') =>
        events = map (fun k => progress k total) (seq (S i) (length personas))
        /\ length rs' = length rs + length personas
        /\ counts_invariant (length rs') c' /\ Forall enumerated rs'
    | Raise _ =>
        exists k, k < length personas
          /\ events = map (fun k => progress k total) (seq (S i) k)
    end.
Proof.
  induction personas as [| p rest IH]; intros i rs c w events r w' E Hinv Hall.
  - cbn in E. injection E as <- <- <-. cbn. rewrite Nat.add_0_r. auto.
  - cbn [simulate_all] in E.
    destruct (_simulate_single_persona es draft p w) as [[response | e] w1] eqn:Hp.
    + destruct (simulate_all es draft total (S i) rest (rs ++ [response])
                  (update_counts c p response) w1) as [[evs r2] w2] eqn:Hrest.
      injection E as <- <- <-.
      pose proof (simulate_enumerated es _ _ _ _ _ Hp) as Hact.
      specialize (IH _ _ _ _ _ _ _ Hrest).
      rewrite length_app in IH. cbn [length] in IH. rewrite Nat.add_1_r in IH.
      specialize (IH (update_counts_invariant _ _ _ _ Hact Hinv)).
      assert (Hall1 : Forall enumerated (rs ++ [response])).
      { apply Forall_app. split; [exact Hall |].
        constructor; [exact Hact | constructor]. }
      specialize (IH Hall1).
      destruct r2 as [[rs' c'] | e].
      * destruct IH as (-> & Hlen & Hinv' & Hall').
        rewrite Nat.add_1_r. cbn [length seq map].
        split; [reflexivity | split; [lia | split; assumption]].
      * destruct IH as (k & Hk & ->). exists (S k).
        rewrite Nat.add_1_r. cbn [length seq map]. split; [lia | reflexivity].
    + injection E as <- <- <-. exists 0. cbn. split; [lia | reflexivity].
Qed.

Lemma compute_metrics_total (n : nat) (c : Counts) :
  counts_invariant n c ->
  exists m, compute_metrics c n = Ok m
    /\ (forwardRate m <= clickRate m)%Z
    /\ Forall (fun z => 0 <= z <= 100)%Z
         [openRate m; clickRate m; replyRate m; spamRate m; ignoreRate m;
          forwardRate m; readRate m].
Proof.
  intros (Hsum & Hfwd & Hread). unfold counted_actions in Hsum.
  unfold compute_metrics.
  destruct (percentage_total (open_count c) n ltac:(lia)) as (o & -> & Ho).
  destruct (percentage_total (click_count c) n ltac:(lia)) as (k & Ek & Hk).
  destruct (percentage_total (reply_count c) n ltac:(lia)) as (r & -> & Hr).
  destruct (percentage_total (spam_count c) n ltac:(lia)) as (s & -> & Hs).
  destruct (percentage_total (ignore_count c) n ltac:(lia)) as (i & -> & Hi).
  destruct (percentage_total (forward_count c) n ltac:(lia)) as (f & Ef & Hf).
  destruct (percentage_total (read_count c) n ltac:(lia)) as (d & -> & Hd).
  assert (Hck : click_count c <= n) by lia.
  pose proof (percentage_mono _ _ _ _ _ Hfwd Hck Ef Ek) as Hfk.
  rewrite Ek, Ef. eexists. split; [reflexivity |]. cbn.
  split; [exact Hfk |]. repeat constructor; lia.
Qed.

Lemma no_responses_enumerated : Forall enumerated [].
Proof. constructor. Qed.

(** A run either goes through every persona and ends with its result, or
    is cut short by an exception of the Decision Engine. *)
Lemma run_inv draft personas w events outcome w' :
  run_simulation_stream es draft personas w = (events, outcome, w') ->
  (exists rs c m ins rid ts,
      counts_invariant (length personas) c
      /\ length rs = length personas /\ Forall enumerated rs
      /\ compute_metrics c (length personas) = Ok m
      /\ outcome = None
      /\ events
         = map (fun k => progress k (length personas)) (seq 1 (length personas))
           ++ [result {| result_id := rid; timestamp := ts; metrics := m;
                         insights := ins; responses := rs |}])
  \/ (exists e k,
        outcome = Some e /\ k < length personas
        /\ events = map (fun k => progress k (length personas)) (seq 1 k)).
Proof.
  unfold run_simulation_stream. intros E.
  destruct (simulate_all es draft (length personas) 0 personas [] no_counts w)
    as [[evs r] w1] eqn:Hloop.
  pose proof (simulate_all_spec _ _ _ _ _ _ _ _ _ _ Hloop
                no_counts_invariant no_responses_enumerated) as Hspec.
  destruct r as [[rs c] | e].
  - destruct Hspec as (-> & Hlen & Hinv & Hall). cbn [length] in Hlen.
    rewrite Hlen in Hinv. cbn [Nat.add] in Hinv, Hlen.
    destruct (compute_metrics_total _ _ Hinv) as (m & Hm & _).
    rewrite Hm in E.
    destruct (_generate_insights draft m rs w1) as [ins w2].
    destruct (run_id w2) as [rid w3]. destruct (timestamp_ms w3) as [ts w4].
    injection E as <- <- <-. left. exists rs, c, m, ins, rid, ts. auto 10.
  - destruct Hspec as (k & Hk & ->). injection E as <- <- <-.
    right. exists e, k. auto.
Qed.

Lemma result_not_progress (data : SimulationResult) total (l : list nat) :
  ~ In (result data) (map (fun k => progress k total) l).
Proof. intros Hin. apply in_map_iff in Hin as (k & Hk & _). discriminate. Qed.

(** The Responses of a result all carry one of the five actions. *)
Corollary run_responses_enumerated draft personas w events outcome w' data :
  run_simulation_stream es draft personas w = (events, outcome, w') ->
  result data ∈ events -> Forall enumerated (responses data).
Proof.
  intros E Hin. apply list_elem_of_In in Hin.
  destruct (run_inv _ _ _ _ _ _ E)
    as [(rs & c & m & ins & rid & ts & _ & _ & Hall & _ & _ & ->)
       | (e & k & _ & _ & ->)].
  - apply in_app_iff in Hin as [Hin | [Hin | []]].
    + destruct (result_not_progress _ _ _ Hin).
    + injection Hin as <-. exact Hall.
  - destruct (result_not_progress _ _ _ Hin).
Qed.

(** C1. Every Response the Decision Engine produces, and so every
    Response of every result, carries one of the five actions opened,
    clicked, replied, spam, ignored, and nothing else: the scan stage
    clamps an absent or unrecognised action to 'ignored' and the act stage
    lets only 'clicked' and 'replied' replace 'opened'. *)
Theorem response_action_enumerated draft :
  (forall p w r w',
     _simulate_single_persona es draft p w = (Ok r, w') ->
     action r ∈ ["opened"; "clicked"; "replied"; "spam"; "ignored"])
  /\ (forall personas w events outcome w' data,
        run_simulation_stream es draft personas w = (events, outcome, w') ->
        result data ∈ events ->
        Forall (fun r => action r ∈ ["opened"; "clicked"; "replied"; "spam";
                                     "ignored"]) (responses data)).
Proof.
  split.
  - intros p w r w'. apply simulate_enumerated.
  - intros personas w events outcome w' data. apply run_responses_enumerated.
Qed.

(** A run is cut short by the Decision Engine only: under an oracle on
    which every call of the engine returns, the generator is exhausted. *)
Lemma simulate_all_returns draft total personas :
  (forall p w0, exists r w1, _simulate_single_persona es draft p w0 = (Ok r, w1)) ->
  forall i rs c w,
    exists events rs' c' w',
      simulate_all es draft total i personas rs c w = (events, Ok (rs', c'), w').
Proof.
  intros Hret. induction personas as [| p rest IH]; intros i rs c w.
  - cbn. eauto.
  - cbn [simulate_all]. destruct (Hret p w) as (r & w1 & ->).
    destruct (IH (S i) (rs ++ [r]) (update_counts c p r) w1)
      as (evs & rs' & c' & w' & ->).
    eauto.
Qed.

Lemma run_completes draft personas w :
  (forall p w0, exists r w1, _simulate_single_persona es draft p w0 = (Ok r, w1)) ->
  exists events w', run_simulation_stream es draft personas w = (events, None, w').
Proof.
  intros Hret.
  destruct (run_simulation_stream es draft personas w) as [[events outcome] w'] eqn:E.
  destruct (run_inv _ _ _ _ _ _ E)
    as [(rs & c & m & ins & rid & ts & _ & _ & _ & _ & -> & _) | (e & k & -> & _ & _)].
  - eauto.
  - exfalso. unfold run_simulation_stream in E.
    destruct (simulate_all_returns draft (length personas) personas Hret 0 []
                no_counts w) as (evs & rs' & c' & w1 & Hloop).
    rewrite Hloop in E.
    destruct (compute_metrics c' (length personas)) as [m |] eqn:Hm.
    + destruct (_generate_insights draft m rs' w1) as [ins w2].
      destruct (run_id w2) as [rid w3]. destruct (timestamp_ms w3) as [ts w4].
      discriminate.
    + pose proof (simulate_all_spec _ _ _ _ _ _ _ _ _ _ Hloop
                    no_counts_invariant no_responses_enumerated)
        as (_ & Hlen & Hinv & _).
      cbn [length Nat.add] in Hlen. rewrite Hlen in Hinv.
      destruct (compute_metrics_total _ _ Hinv) as (m & Hm' & _). congruence.
Qed.

(** The two shapes of the event sequence. A run over n personas that no
    exception cuts short yields exactly n progress events, with current =
    1, 2, ..., n in this order and total = n, followed by one result event,
    which is the last; a run that an exception of the Decision Engine cuts
    short has yielded the progress events of the personas before it and no
    result; and for n = 0 the run always yields the result event alone,
    with all-zero Metrics and no Responses. *)
Theorem event_sequence draft personas w events outcome w' :
  run_simulation_stream es draft personas w = (events, outcome, w') ->
  let n := length personas in
  (outcome = None ->
   exists data,
     events = map (fun k => progress k n) (seq 1 n) ++ [result data]
     /\ length (responses data) = n)
  /\ (forall e, outcome = Some e ->
      exists k, k < n /\ events = map (fun k => progress k n) (seq 1 k))
  /\ (n = 0 ->
      outcome = None
      /\ exists data,
           events = [result data]
           /\ metrics data = no_metrics /\ responses data = []).
Proof.
  intros E n. subst n.
  destruct (run_inv _ _ _ _ _ _ E)
    as [(rs & c & m & ins & rid & ts & Hinv & Hlen & Hall & Hm & -> & ->)
       | (e & k & -> & Hk & ->)].
  - split; [| split].
    + intros _. eexists. split; [reflexivity | exact Hlen].
    + intros e [=].
    + intros Hn. split; [reflexivity |]. rewrite Hn in *.
      eexists. split; [reflexivity |]. cbn.
      destruct rs; [| discriminate]. split; [| reflexivity].
      unfold compute_metrics in Hm. cbn in Hm. injection Hm as <-. reflexivity.
  - split; [| split].
    + intros [=].
    + intros e' _. exists k. auto.
    + intros Hn. lia.
Qed.

(** C3. A run over n personas that no exception cuts short yields exactly
    n progress events, with current = 1, 2, ..., n in this order and
    total = n, followed by one result event, which is the last, and for
    n = 0 the run always yields the result event alone, with all-zero
    Metrics and no Responses.  But not every run is of this shape: an
    exception of the Decision Engine ends the generator after the progress
    events of the personas before it, with no result event.  A scan reply
    that is the JSON text of a list does so: it parses, the list has no
    [get], line 103 raises AttributeError outside the [try], and the run
    over three personas yields one progress event and nothing else. *)
Theorem list_reply_ends_the_stream_without_result :
  (forall draft personas w events outcome w',
     run_simulation_stream es draft personas w = (events, outcome, w') ->
     let n := length personas in
     (outcome = None ->
      exists data,
        events = map (fun k => progress k n) (seq 1 n) ++ [result data]
        /\ length (responses data) = n)
     /\ (forall e, outcome = Some e ->
         exists k, k < n /\ events = map (fun k => progress k n) (seq 1 k))
     /\ (n = 0 ->
         outcome = None
         /\ exists data,
              events = [result data]
              /\ metrics data = no_metrics /\ responses data = []))
  /\ Demo.scan_reply "lister" = Ok (PStr "[]")
  /\ json_loads (Builtins := Demo.runtime) (strip_fences (H := Demo.runtime) "[]")
     = Ok (PList [])
  /\ run_simulation_stream (H := Demo.runtime) (H0 := Demo.llm)
       (H1 := Demo.clock) Demo.embedding (Demo.draft_for "b2b" 3)
       (map (Demo.someone "p1") ["opener"; "lister"; "spammer"]) 0
     = ([progress 1 3], Some AttributeError, 3).
Proof.
  split; [exact event_sequence |].
  repeat split; vm_compute; reflexivity.
Qed.

(** C8, as the code has it. When the loop of a run ends, the five action
    counters (open, click, reply, spam, ignore) add up to the total, which
    is the number of Responses and the number of personas supplied; the
    read and the forward counter are kept beside them. *)
Theorem five_counts_sum_to_total draft personas w events rs c w' :
  simulate_all es draft (length personas) 0 personas [] no_counts w
  = (events, Ok (rs, c), w') ->
  open_count c + click_count c + reply_count c + spam_count c + ignore_count c
  = length personas
  /\ length rs = length personas.
Proof.
  intros E.
  pose proof (simulate_all_spec _ _ _ _ _ _ _ _ _ _ E
                no_counts_invariant no_responses_enumerated) as (_ & Hlen & (Hsum & _) & _).
  cbn [length Nat.add] in Hlen. unfold counted_actions in Hsum. lia.
Qed.

(** C10. The forward counter moves only on a Response whose action is
    'clicked' (and whose persona identifier hashes to a multiple of 5), so
    at the end of the loop forward_count <= click_count, and in every
    result forwardRate <= clickRate. *)
Theorem forward_within_click draft personas w :
  (forall c p r,
     forward_count (update_counts c p r)
     = incr_if (String.eqb (action r) "clicked"
                && (py_hash (persona_id p) mod 5 =? 0)%Z) (forward_count c))
  /\ (forall events rs c w',
        simulate_all es draft (length personas) 0 personas [] no_counts w
        = (events, Ok (rs, c), w') ->
        forward_count c <= click_count c)
  /\ (forall events outcome w' data,
        run_simulation_stream es draft personas w = (events, outcome, w') ->
        result data ∈ events ->
        (forwardRate (metrics data) <= clickRate (metrics data))%Z).
Proof.
  split; [| split].
  - reflexivity.
  - intros events rs c w' E.
    pose proof (simulate_all_spec _ _ _ _ _ _ _ _ _ _ E
                  no_counts_invariant no_responses_enumerated) as (_ & _ & (_ & Hf & _) & _).
    exact Hf.
  - intros events outcome w' data E Hin. apply list_elem_of_In in Hin.
    destruct (run_inv _ _ _ _ _ _ E)
      as [(rs & c & m & ins & rid & ts & Hinv & _ & _ & Hm & _ & ->)
         | (e & k & _ & _ & ->)].
    + apply in_app_iff in Hin as [Hin | [Hin | []]].
      * destruct (result_not_progress _ _ _ Hin).
      * injection Hin as <-. cbn.
        destruct (compute_metrics_total _ _ Hinv) as (m' & Hm' & Hle & _).
        congruence.
    + destruct (result_not_progress _ _ _ Hin).
Qed.

(** The rates of a result are integers between 0 and 100. *)
Corollary run_metrics_bounds draft personas w events outcome w' data :
  run_simulation_stream es draft personas w = (events, outcome, w') ->
  result data ∈ events ->
  Forall (fun z => 0 <= z <= 100)%Z
    [openRate (metrics data); clickRate (metrics data);
     replyRate (metrics data); spamRate (metrics data);
     ignoreRate (metrics data); forwardRate (metrics data);
     readRate (metrics data)].
Proof.
  intros E Hin. apply list_elem_of_In in Hin.
  destruct (run_inv _ _ _ _ _ _ E)
    as [(rs & c & m & ins & rid & ts & Hinv & _ & _ & Hm & _ & ->)
       | (e & k & _ & _ & ->)].
  - apply in_app_iff in Hin as [Hin | [Hin | []]].
    + destruct (result_not_progress _ _ _ Hin).
    + injection Hin as <-. cbn.
      destruct (compute_metrics_total _ _ Hinv) as (m' & Hm' & _ & Hb).
      congruence.
  - destruct (result_not_progress _ _ _ Hin).
Qed.

(** When the oracle path of the Insight Generator fails before any item
    is appended (the call raises or returns no text, no JSON object is
    found, or both parsers raise), the insights are the heuristic ones. *)
Lemma generate_insights_clean_fallback draft m rs w reply w1 :
  predict (analyze_results draft m (take 5 rs)) w = (reply, w1) ->
  match reply with
  | Ok (PStr text) =>
      match re_search_object text with
      | Some cleaned => exists e, parse_insight_data cleaned = Raise e
      | None => True
      end
  | _ => True
  end ->
  _generate_insights draft m rs w = (fallback_heuristics m, w1).
Proof.
  intros Hp Hfail. unfold _generate_insights. rewrite Hp.
  assert (E : smart_insights reply = ([], false)).
  { unfold smart_insights. destruct reply as [[] |]; try reflexivity.
    destruct (re_search_object s) as [cleaned |]; [| reflexivity].
    destruct Hfail as [e ->]. reflexivity. }
  rewrite E. reflexivity.
Qed.

End OrchestratorFacts.

(** ** The insight generator *)

Section InsightFacts.
Context `{Builtins} {W : Type} `{BaseLLM W}.

Lemma normalize_type_range (t : pyval) :
  normalize_type t ∈ ["positive"; "negative"; "warning"].
Proof.
  unfold normalize_type. destruct (is_str t "issue").
  - list_mem.
  - pose proof (clamp_str_range t ["positive"; "negative"; "warning"] "warning").
    list_mem.
Qed.

Lemma new_Insight_inv t ti d i :
  new_Insight t ti d = Ok i ->
  insight_type i = t /\ coerce_str ti = Ok (title i)
  /\ coerce_str d = Ok (description i).
Proof.
  unfold new_Insight. intros E.
  destruct (coerce_str ti) as [ti' |]; [| discriminate].
  rewrite bind_Ok in E.
  destruct (coerce_str d) as [d' |]; [| discriminate].
  rewrite bind_Ok in E. injection E as <-. cbn. auto.
Qed.

Lemma insight_of_item_type item i :
  insight_of_item item = Ok i -> known_type i.
Proof.
  unfold insight_of_item, known_type. intros E.
  destruct (py_get item "type" (PStr "warning")) as [t |]; [| discriminate].
  rewrite bind_Ok in E. destruct (py_lower t) as [t' |]; [| discriminate].
  rewrite bind_Ok in E.
  destruct (py_get item "title" (PStr "Insight")) as [ti |]; [| discriminate].
  rewrite bind_Ok in E.
  destruct (py_get item "description" (PStr "")) as [d |]; [| discriminate].
  rewrite bind_Ok in E. apply new_Insight_inv in E as (-> & _).
  apply normalize_type_range.
Qed.

Lemma append_insights_types items :
  forall acc ins o,
    append_insights items acc = (ins, o) ->
    Forall known_type acc -> Forall known_type ins.
Proof.
  induction items as [| item rest IH]; intros acc ins o E Hacc.
  - cbn in E. injection E as <- _. exact Hacc.
  - cbn [append_insights] in E.
    destruct (insight_of_item item) as [i |] eqn:Hi.
    + apply (IH _ _ _ E). apply Forall_app. split; [exact Hacc |].
      constructor; [exact (insight_of_item_type _ _ Hi) | constructor].
    + injection E as <- _. exact Hacc.
Qed.

Lemma fallback_heuristics_types (m : Metrics) :
  Forall known_type (fallback_heuristics m).
Proof.
  assert (Hl : known_type low_open_rate) by (unfold known_type; cbn; list_mem).
  assert (Hh : known_type high_open_rate) by (unfold known_type; cbn; list_mem).
  assert (Hs : known_type spam_risk) by (unfold known_type; cbn; list_mem).
  unfold fallback_heuristics. apply Forall_app. split.
  - destruct (openRate m <? 20)%Z; [| destruct (40 <? openRate m)%Z];
      auto using Forall_nil_2, Forall_cons_2.
  - destruct (10 <? spamRate m)%Z; auto using Forall_nil_2, Forall_cons_2.
Qed.

Lemma smart_insights_types reply ins returned :
  smart_insights reply = (ins, returned) -> Forall known_type ins.
Proof.
  unfold smart_insights. intros E.
  assert (Hnil : forall b, ([], b) = (ins, returned) -> Forall known_type ins).
  { intros b [= <- _]. constructor. }
  destruct reply as [[] |]; try exact (Hnil _ E).
  destruct (re_search_object s); [| exact (Hnil _ E)].
  destruct (parse_insight_data s0); [| exact (Hnil _ E)].
  destruct (py_contains a "insights") as [[] |]; try exact (Hnil _ E).
  destruct (v ← py_getitem a "insights"; py_iter v) as [items |];
    [| exact (Hnil _ E)].
  destruct (append_insights items []) as [acc [e |]] eqn:Ha;
    injection E as <- _;
    exact (append_insights_types _ _ _ _ Ha (Forall_nil_2 _)).
Qed.

(** X1. Whatever the oracle answers, every Insight that
    [_generate_insights] returns has one of the three types positive,
    negative, warning. *)
Theorem insight_types_enumerated draft m rs w ins w' :
  _generate_insights draft m rs w = (ins, w') ->
  Forall (fun i => insight_type i ∈ ["positive"; "negative"; "warning"]) ins.
Proof.
  unfold _generate_insights. intros E.
  destruct (predict (analyze_results draft m (take 5 rs)) w) as [reply w1].
  destruct (smart_insights reply) as [acc returned] eqn:Hs.
  injection E as <- _.
  pose proof (smart_insights_types _ _ _ Hs) as Hacc.
  destruct returned; [exact Hacc |].
  apply Forall_app. split; [exact Hacc | apply fallback_heuristics_types].
Qed.

Lemma insight_of_item_reads item i :
  accepts_text -> reads_as item i -> insight_of_item item = Ok i.
Proof.
  intros Ht (fields & t & ti & d & -> & Hty & Hti & Hd & ->).
  unfold insight_of_item. cbn [py_get].
  rewrite (text_field_value _ _ _ _ Hty), (text_field_value _ _ _ _ Hti),
    (text_field_value _ _ _ _ Hd).
  rewrite !bind_Ok. cbn [py_lower]. rewrite !bind_Ok.
  unfold new_Insight. rewrite !Ht. reflexivity.
Qed.

Lemma append_insights_all items ins :
  accepts_text -> Forall2 reads_as items ins ->
  forall acc, append_insights items acc = (acc ++ ins, None).
Proof.
  intros Ht Hall. induction Hall as [| item i items ins Hi _ IH]; intros acc.
  - cbn. rewrite app_nil_r. reflexivity.
  - cbn [append_insights]. rewrite (insight_of_item_reads _ _ Ht Hi).
    rewrite IH, <- app_assoc. reflexivity.
Qed.

(** X2. When the oracle's reply holds a JSON object whose 'insights' is a
    list of objects with absent or str fields, [_generate_insights]
    returns one Insight per item, in the oracle's order, with the type
    normalised and the defaults "Insight" and "" for a missing title and
    description; no heuristic insight is added, not even to an empty
    list. *)
Theorem oracle_insights_in_order draft m rs w text w1 cleaned fields items ins :
  accepts_text ->
  predict (analyze_results draft m (take 5 rs)) w = (Ok (PStr text), w1) ->
  re_search_object text = Some cleaned ->
  parse_insight_data cleaned = Ok (PDict fields) ->
  lookup_key "insights" fields = Some (PList items) ->
  Forall2 reads_as items ins ->
  _generate_insights draft m rs w = (ins, w1).
Proof.
  intros Ht Hp Hre Hparse Hkey Hall.
  unfold _generate_insights. rewrite Hp.
  unfold smart_insights. rewrite Hre, Hparse. cbn [py_contains py_getitem].
  rewrite Hkey. rewrite bool_decide_eq_true_2 by eauto.
  rewrite bind_Ok. cbn [py_iter].
  rewrite (append_insights_all _ _ Ht Hall []). reflexivity.
Qed.

End InsightFacts.
(** ** More on the persona decision engine *)

Section MoreEngineFacts.
Context `{Builtins} {W : Type} `{BaseLLM W}.
Variable es : EmbeddingService.

(** X3. The engine asks the oracle once for a persona who ends at 'spam'
    or 'ignored': the world it leaves is the one after the scan call, the
    act prompt is never sent.  It asks twice, the scan and then the act
    prompt, for a persona who ends at 'opened', 'clicked' or 'replied'. *)
Theorem oracle_calls_by_action draft p w r w' :
  _simulate_single_persona es draft p w = (Ok r, w') ->
  (action r ∈ ["spam"; "ignored"] ->
   exists score reply,
     get_similarity es (subject draft) (persona_context p) = Ok score
     /\ predict (inbox_scan p draft score) w = (reply, w'))
  /\ (action r ∈ ["opened"; "clicked"; "replied"] ->
      exists score reply_a w1 reply_c,
        get_similarity es (subject draft) (persona_context p) = Ok score
        /\ predict (inbox_scan p draft score) w = (reply_a, w1)
        /\ predict (take_action p draft) w1 = (reply_c, w')).
Proof.
  intros E. destruct (simulate_inv _ _ _ _ _ _ E).
  - apply new_Response_inv in Hresp as (_ & -> & _).
    apply scan_decision_action in Hdec. split.
    + intros _. eauto.
    + intros Ha. exfalso. apply list_elem_of_In in Hdec, Ha. cbn in Hdec, Ha.
      intuition (subst; try discriminate; try congruence).
  - apply new_Response_inv in Hresp as (_ & -> & _).
    apply act_decision_action in Hfin as (f & _ & ->).
    pose proof (clamp_str_range f ["clicked"; "replied"] "opened") as Hr.
    split.
    + intros Ha. exfalso. apply list_elem_of_In in Hr, Ha. cbn in Hr, Ha.
      intuition congruence.
    + intros _. eauto 10.
Qed.

End MoreEngineFacts.
(** ** More on the orchestrator *)

Section MoreOrchestratorFacts.
Context `{Builtins} {W : Type} `{BaseLLM W} `{Clock W}.
Variable es : EmbeddingService.

(** A property of the personas gone through, the responses and the
    counters that every turn of the loop keeps holds when the loop ends. *)
Lemma simulate_all_fold draft total
    (P : list Persona -> list Response -> Counts -> Prop) :
  (forall ps rs c p r w w',
     _simulate_single_persona es draft p w = (Ok r, w') ->
     P ps rs c -> P (ps ++ [p]) (rs ++ [r]) (update_counts c p r)) ->
  forall personas seen i rs c w events rs' c' w',
    simulate_all es draft total i personas rs c w = (events, Ok (rs', c'), w') ->
    P seen rs c -> P (seen ++ personas) rs' c'.
Proof.
  intros Hstep. induction personas as [| p rest IH];
    intros seen i rs c w events rs' c' w' E HP.
  - cbn in E. injection E as _ <- <- _. rewrite app_nil_r. exact HP.
  - cbn [simulate_all] in E.
    destruct (_simulate_single_persona es draft p w) as [[r | e] w1] eqn:Hp;
      [| discriminate].
    destruct (simulate_all es draft total (S i) rest (rs ++ [r])
                (update_counts c p r) w1) as [[evs r2] w2] eqn:Hrest.
    injection E as _ -> _.
    rewrite (cons_middle p seen rest), app_assoc.
    exact (IH _ _ _ _ _ _ _ _ _ Hrest (Hstep _ _ _ _ _ _ _ Hp HP)).
Qed.

Lemma update_counts_read (c : Counts) (p : Persona) (r : Response) :
  read_is_opened_clicked_replied c ->
  read_is_opened_clicked_replied (update_counts c p r).
Proof.
  unfold read_is_opened_clicked_replied, update_counts.
  cbn [read_count open_count click_count reply_count existsb].
  intros ->.
  destruct (String.eqb (action r) "opened") eqn:E1;
    destruct (String.eqb (action r) "clicked") eqn:E2;
    destruct (String.eqb (action r) "replied") eqn:E3;
    cbn; try lia;
    repeat match goal with
           | E : String.eqb _ _ = true |- _ => apply String.eqb_eq in E
           end; congruence.
Qed.

Lemma compute_metrics_inv (c : Counts) (n : nat) (m : Metrics) :
  compute_metrics c n = Ok m ->
  percentage (open_count c) n = Ok (openRate m)
  /\ percentage (click_count c) n = Ok (clickRate m)
  /\ percentage (reply_count c) n = Ok (replyRate m)
  /\ percentage (spam_count c) n = Ok (spamRate m)
  /\ percentage (ignore_count c) n = Ok (ignoreRate m)
  /\ percentage (forward_count c) n = Ok (forwardRate m)
  /\ percentage (read_count c) n = Ok (readRate m).
Proof.
  unfold compute_metrics. intros E.
  destruct (percentage (open_count c) n); [| discriminate]. rewrite bind_Ok in E.
  destruct (percentage (click_count c) n); [| discriminate]. rewrite bind_Ok in E.
  destruct (percentage (reply_count c) n); [| discriminate]. rewrite bind_Ok in E.
  destruct (percentage (spam_count c) n); [| discriminate]. rewrite bind_Ok in E.
  destruct (percentage (ignore_count c) n); [| discriminate]. rewrite bind_Ok in E.
  destruct (percentage (forward_count c) n); [| discriminate]. rewrite bind_Ok in E.
  destruct (percentage (read_count c) n); [| discriminate]. rewrite bind_Ok in E.
  injection E as <-. cbn. auto 10.
Qed.

(** What the result of a run was computed from. *)
Lemma run_result_inv draft personas w events outcome w' data :
  run_simulation_stream es draft personas w = (events, outcome, w') ->
  result data ∈ events ->
  exists evs c w1 w2,
    simulate_all es draft (length personas) 0 personas [] no_counts w
    = (evs, Ok (responses data, c), w1)
    /\ compute_metrics c (length personas) = Ok (metrics data)
    /\ _generate_insights draft (metrics data) (responses data) w1
       = (insights data, w2).
Proof.
  unfold run_simulation_stream. intros E Hin. apply list_elem_of_In in Hin.
  destruct (simulate_all es draft (length personas) 0 personas [] no_counts w)
    as [[evs r] w1] eqn:Hloop.
  pose proof (simulate_all_spec _ _ _ _ _ _ _ _ _ _ _ Hloop
                no_counts_invariant no_responses_enumerated) as Hspec.
  destruct r as [[rs c] | e].
  - destruct Hspec as (-> & _).
    destruct (compute_metrics c (length personas)) as [m |] eqn:Hm.
    + destruct (_generate_insights draft m rs w1) as [ins w2] eqn:Hi.
      destruct (run_id w2) as [rid w3]. destruct (timestamp_ms w3) as [ts w4].
      injection E as <- _ _.
      apply in_app_iff in Hin as [Hin | [Hin | []]].
      * destruct (result_not_progress _ _ _ Hin).
      * injection Hin as <-. cbn. eexists _, c, w1, w2. auto.
    + injection E as <- _ _. destruct (result_not_progress _ _ _ Hin).
  - destruct Hspec as (k & _ & ->). injection E as <- _ _.
    destruct (result_not_progress _ _ _ Hin).
Qed.

(** X4. The read counter is the sum of the open, click and reply
    counters when the loop ends, so the spam, ignore and read counters add
    up to the number of personas; and in every result the read rate is at
    least the open rate, the click rate and the reply rate. *)
Theorem read_counts_the_openers draft personas w :
  (forall events rs c w',
     simulate_all es draft (length personas) 0 personas [] no_counts w
     = (events, Ok (rs, c), w') ->
     read_count c = open_count c + click_count c + reply_count c
     /\ spam_count c + ignore_count c + read_count c = length personas)
  /\ (forall events outcome w' data,
        run_simulation_stream es draft personas w = (events, outcome, w') ->
        result data ∈ events ->
        (openRate (metrics data) <= readRate (metrics data))%Z
        /\ (clickRate (metrics data) <= readRate (metrics data))%Z
        /\ (replyRate (metrics data) <= readRate (metrics data))%Z).
Proof.
  assert (Hread : forall events rs c w',
    simulate_all es draft (length personas) 0 personas [] no_counts w
    = (events, Ok (rs, c), w') ->
    read_is_opened_clicked_replied c /\ counts_invariant (length personas) c).
  { intros events rs c w' E. split.
    - refine (simulate_all_fold draft (length personas)
                (fun _ _ c => read_is_opened_clicked_replied c) _
                personas [] 0 [] no_counts w events rs c w' E _).
      + intros ps rs0 c0 p r w0 w0' _. apply update_counts_read.
      + reflexivity.
    - pose proof (simulate_all_spec _ _ _ _ _ _ _ _ _ _ _ E
                    no_counts_invariant no_responses_enumerated)
        as (_ & Hlen & Hinv & _).
      cbn [length Nat.add] in Hlen. rewrite Hlen in Hinv. exact Hinv. }
  split.
  - intros events rs c w' E. destruct (Hread _ _ _ _ E) as (Hr & Hsum & _).
    unfold read_is_opened_clicked_replied in Hr.
    unfold counted_actions in Hsum. lia.
  - intros events outcome w' data E Hin.
    destruct (run_result_inv _ _ _ _ _ _ _ E Hin) as (evs & c & w1 & w2 & Hloop & Hm & _).
    destruct (Hread _ _ _ _ Hloop) as (Hr & Hsum & _ & Hle).
    unfold read_is_opened_clicked_replied in Hr.
    apply compute_metrics_inv in Hm as (Ho & Hk & Hp & _ & _ & _ & Hd).
    assert (Hor : open_count c <= read_count c) by lia.
    assert (Hkr : click_count c <= read_count c) by lia.
    assert (Hpr : reply_count c <= read_count c) by lia.
    repeat split.
    + exact (percentage_mono _ _ _ _ _ Hor Hle Ho Hd).
    + exact (percentage_mono _ _ _ _ _ Hkr Hle Hk Hd).
    + exact (percentage_mono _ _ _ _ _ Hpr Hle Hp Hd).
Qed.

Lemma simulate_persona draft p w r w' :
  _simulate_single_persona es draft p w = (Ok r, w') ->
  persona r = p /\ sentiment r = "neutral".
Proof.
  intros E. destruct (simulate_inv _ _ _ _ _ _ E);
    apply new_Response_inv in Hresp as (Hp & _ & Hs & _); auto.
Qed.

(** X5. The Responses of a result are those of the personas supplied, one
    each and in their order, and the sentiment of every one of them is
    'neutral'. *)
Theorem responses_follow_personas draft personas w events outcome w' data :
  run_simulation_stream es draft personas w = (events, outcome, w') ->
  result data ∈ events ->
  map persona (responses data) = personas
  /\ Forall (fun r => sentiment r = "neutral") (responses data).
Proof.
  intros E Hin.
  destruct (run_result_inv _ _ _ _ _ _ _ E Hin) as (evs & c & w1 & w2 & Hloop & _).
  refine (simulate_all_fold draft (length personas)
            (fun ps rs _ => map persona rs = ps
                            /\ Forall (fun r => sentiment r = "neutral") rs) _
            personas [] 0 [] no_counts w evs _ c w1 Hloop _).
  - intros ps rs c0 p r w0 w0' Hp (Hmap & Hall).
    destruct (simulate_persona _ _ _ _ _ Hp) as (Hper & Hsen). split.
    + rewrite map_app, Hmap. cbn. rewrite Hper. reflexivity.
    + apply Forall_app. split; [exact Hall |].
      constructor; [exact Hsen | constructor].
  - split; [reflexivity | constructor].
Qed.

End MoreOrchestratorFacts.
(** ** More on the similarity oracle *)

Section MoreSimilarityFacts.
Context `{Builtins}.

(** X6. The lexical similarity looks at the keyword sets only: two texts
    with the same keywords, in whatever order, letter case or repetition
    and with whatever stop words between them, score exactly 1.0, and two
    texts with no keyword in common score exactly 0.0. *)
Theorem keyword_similarity_extremes (a b : string) :
  (keywords a = keywords b -> keywords a ≠ ∅ ->
   _keyword_similarity a b = Ok (Finite 1))
  /\ (keywords a ∩ keywords b = ∅ -> _keyword_similarity a b = Ok (Finite 0)).
Proof.
  split.
  - intros Hab Ha. rewrite keyword_similarity_nonempty by congruence.
    rewrite <- Hab, intersection_idemp_L, union_idemp_L.
    assert (Hs : size (keywords a) ≠ 0).
    { intros E. apply size_empty_inv in E. apply Ha, leibniz_equiv, E. }
    assert (Hp : 0 < size (keywords a)) by lia.
    destruct (fraction_bounds _ _ Hp (Nat.le_refl _)) as [F0 _].
    f_equal. f_equal. rewrite <- round64_one.
    apply round64_proper; [exact F0 |].
    apply Qmult_inv_r.
    change 0%Q with (inject_Z 0). rewrite inject_Z_injective. lia.
  - intros Hdis.
    destruct (decide (keywords a = ∅)) as [Ea | Na];
      [apply keyword_similarity_empty; left; exact Ea |].
    destruct (decide (keywords b = ∅)) as [Eb | Nb];
      [apply keyword_similarity_empty; right; exact Eb |].
    rewrite keyword_similarity_nonempty by assumption.
    rewrite Hdis, size_empty. reflexivity.
Qed.

(** X7. [get_similarity] never raises: when the service was built without
    the embedding model, or the model raises, it answers with the lexical
    similarity, a float in [0,1]. *)
Theorem similarity_falls_back (es : EmbeddingService) (a b : string) :
  (exists score, get_similarity es a b = Ok score)
  /\ (use_fallback es = true \/ (exists e, model_similarity es a b = Raise e) ->
      get_similarity es a b = _keyword_similarity a b
      /\ exists q, get_similarity es a b = Ok (Finite q) /\ (0 <= q <= 1)%Q).
Proof.
  split; [apply get_similarity_total |].
  intros Hfb.
  assert (E : get_similarity es a b = _keyword_similarity a b).
  { unfold get_similarity. destruct (use_fallback es); [reflexivity |].
    destruct Hfb as [[=] | [e ->]]. reflexivity. }
  split; [exact E |]. rewrite E. apply keyword_similarity_range.
Qed.

End MoreSimilarityFacts.

(** ** The search for the JSON object *)

Section RegexFacts.

Lemma append_cons (c : ascii) (s t : string) :
  String c s +:+ t = String c (s +:+ t).
Proof. reflexivity. Qed.

Lemma append_nil (t : string) : EmptyString +:+ t = t.
Proof. reflexivity. Qed.

Lemma from_first_open_app (pre rest : string) :
  "{"%char ∉ String.list_ascii_of_string pre ->
  from_first_open (pre +:+ String "{" rest) = Some (String "{" rest).
Proof.
  induction pre as [| c pre IH]; intros Hno.
  - reflexivity.
  - rewrite append_cons. cbn [from_first_open].
    cbn [String.list_ascii_of_string] in Hno.
    apply not_elem_of_cons in Hno as [Hc Hpre].
    destruct (Ascii.eqb_spec c "{") as [-> | _]; [contradiction |].
    apply IH, Hpre.
Qed.

Lemma from_first_open_inv (s u : string) :
  from_first_open s = Some u ->
  exists pre rest,
    s = pre +:+ String "{" rest /\ u = String "{" rest
    /\ "{"%char ∉ String.list_ascii_of_string pre.
Proof.
  induction s as [| c s IH]; intros E; [discriminate |].
  cbn [from_first_open] in E. destruct (Ascii.eqb_spec c "{") as [-> | Hc].
  - injection E as <-. exists EmptyString, s.
    split; [reflexivity |]. split; [reflexivity | apply not_elem_of_nil].
  - destruct (IH E) as (pre & rest & -> & -> & Hno).
    exists (String c pre), rest. split; [reflexivity |].
    split; [reflexivity |]. cbn [String.list_ascii_of_string].
    apply not_elem_of_cons. auto.
Qed.

Lemma through_last_close_none (post : string) :
  "}"%char ∉ String.list_ascii_of_string post <->
  through_last_close post = None.
Proof.
  induction post as [| c post IH]; cbn [through_last_close String.list_ascii_of_string].
  - split; [reflexivity | intros _; apply not_elem_of_nil].
  - rewrite not_elem_of_cons. split.
    + intros [Hc Hpost]. rewrite (proj1 IH Hpost).
      destruct (Ascii.eqb_spec c "}") as [-> | _]; [contradiction | reflexivity].
    + intros E. destruct (through_last_close post); [discriminate |].
      destruct (Ascii.eqb_spec c "}") as [-> | Hc]; [discriminate |].
      split; [congruence | apply IH; reflexivity].
Qed.

Lemma through_last_close_app (x post : string) :
  "}"%char ∉ String.list_ascii_of_string post ->
  through_last_close (x +:+ String "}" post) = Some (x +:+ String "}" EmptyString).
Proof.
  intros Hno. induction x as [| c x IH].
  - rewrite !append_nil. cbn [through_last_close].
    rewrite (proj1 (through_last_close_none _) Hno). reflexivity.
  - rewrite !append_cons. cbn [through_last_close]. rewrite IH. reflexivity.
Qed.

Lemma through_last_close_inv (u t : string) :
  through_last_close u = Some t ->
  exists x post,
    u = x +:+ String "}" post /\ t = x +:+ String "}" EmptyString
    /\ "}"%char ∉ String.list_ascii_of_string post.
Proof.
  revert t. induction u as [| c u IH]; intros t E; [discriminate |].
  cbn [through_last_close] in E.
  destruct (through_last_close u) as [t' |] eqn:Hu.
  - injection E as <-. destruct (IH _ eq_refl) as (x & post & -> & -> & Hno).
    exists (String c x), post. auto.
  - destruct (Ascii.eqb_spec c "}") as [-> | _]; [| discriminate].
    injection E as <-. exists EmptyString, u.
    split; [reflexivity |]. split; [reflexivity |].
    apply through_last_close_none, Hu.
Qed.

(** X8. The search for the JSON object in the oracle's reply finds
    exactly the text from the first opening brace to the last closing
    brace after it: whatever stands before the first opening brace and
    after the last closing brace is dropped, everything between them is
    kept, and there is no match when no closing brace follows an opening
    one. *)
Theorem re_search_object_spec (s t : string) :
  re_search_object s = Some t <->
  exists pre body post,
    s = (pre +:+ String "{" (body +:+ String "}" post))
    /\ t = String "{" (body +:+ String "}" EmptyString)
    /\ ("{"%char ∉ String.list_ascii_of_string pre)
    /\ ("}"%char ∉ String.list_ascii_of_string post).
Proof.
  unfold re_search_object. split.
  - intros E. destruct (from_first_open s) as [u |] eqn:Hu; [| discriminate].
    apply from_first_open_inv in Hu as (pre & rest & -> & -> & Hpre).
    apply through_last_close_inv in E as (x & post & Hx & -> & Hpost).
    destruct x as [| c x]; [discriminate |].
    rewrite append_cons in Hx. injection Hx as <- ->.
    exists pre, x, post. auto.
  - intros (pre & body & post & -> & -> & Hpre & Hpost).
    rewrite (from_first_open_app _ _ Hpre).
    exact (through_last_close_app (String "{" body) post Hpost).
Qed.

End RegexFacts.
(** ** A run on an oracle that is down *)

Section PercentageEnds.
Local Open Scope Q_scope.

Lemma percentage_of_none (total : nat) : percentage 0 total = Ok 0%Z.
Proof.
  destruct total as [| t]; [reflexivity |].
  rewrite percentage_eq by lia. f_equal.
Qed.

Lemma percentage_of_all (total : nat) :
  (0 < total)%nat -> percentage total total = Ok 100%Z.
Proof.
  intros Ht. rewrite percentage_eq by lia. f_equal.
  unfold percentage_value.
  destruct (fraction_bounds _ _ Ht (Nat.le_refl total)) as [F0 _].
  assert (E1 : round64 (inject_Z (Z.of_nat total) / inject_Z (Z.of_nat total)) = 1).
  { rewrite <- round64_one. apply round64_proper; [exact F0 |].
    apply Qmult_inv_r. change 0 with (inject_Z 0).
    rewrite inject_Z_injective. lia. }
  rewrite E1. vm_compute. reflexivity.
Qed.

End PercentageEnds.

Section EmptyObjectOracle.
Context `{Builtins} {W : Type} `{Clock W}.
Variable es : EmbeddingService.

Section AnyOracle.
Context `{BaseLLM W}.

Lemma simulate_empty_object draft p w :
  answers_empty_object -> parses_empty_object ->
  accepts_text -> lower_on_ascii ->
  exists w1, _simulate_single_persona es draft p w = (Ok (not_relevant p), w1).
Proof.
  intros Hans (Hj & _) Ht Hl.
  destruct (get_similarity_total es (subject draft) (persona_context p))
    as (score & Hs).
  destruct (Hans (inbox_scan p draft score) w) as (w1 & Hp).
  exists w1. rewrite (simulate_after_scan _ _ _ _ _ _ _ Hs Hp).
  unfold parse_reply. rewrite Hj.
  rewrite (scan_decision_unrecognised [] "Not relevant" "Not relevant" Hl
             (or_introl eq_refl) eq_refl eq_refl).
  cbn -[new_Response]. rewrite new_Response_text by exact Ht. reflexivity.
Qed.

Lemma generate_insights_empty_object draft m rs w :
  answers_empty_object -> parses_empty_object ->
  exists w1, _generate_insights draft m rs w = (fallback_heuristics m, w1).
Proof.
  intros Hans (_ & Hj).
  destruct (Hans (analyze_results draft m (take 5 rs)) w) as (w1 & Hp).
  exists w1. unfold _generate_insights. rewrite Hp.
  unfold smart_insights.
  change (re_search_object "{}") with (Some "{}").
  unfold parse_insight_data. rewrite Hj. reflexivity.
Qed.

(** On an oracle that answers the empty object to everything, the run
    ends, every persona is ignored with the comment "Not relevant", the
    ignore rate is 100 and the one insight is the low open rate. *)
Lemma run_on_empty_object draft personas w :
  answers_empty_object -> parses_empty_object ->
  accepts_text -> lower_on_ascii ->
  exists rid ts w',
    run_simulation_stream es draft personas w
    = (map (fun k => progress k (length personas)) (seq 1 (length personas))
       ++ [result {| result_id := rid; timestamp := ts;
                     metrics := all_ignored (length personas);
                     insights := [low_open_rate];
                     responses := map not_relevant personas |}],
       None, w').
Proof.
  intros Hans Hparse Ht Hl.
  assert (Hret : forall p w0, exists r w1,
             _simulate_single_persona es draft p w0 = (Ok r, w1)).
  { intros p w0. destruct (simulate_empty_object draft p w0 Hans Hparse Ht Hl)
      as (w1 & E). eauto. }
  destruct (simulate_all_returns es draft (length personas) personas Hret 0 []
              no_counts w) as (evs & rs & c & w1 & Hloop).
  pose proof (simulate_all_spec _ _ _ _ _ _ _ _ _ _ _ Hloop
                no_counts_invariant no_responses_enumerated) as (-> & _).
  assert (Honly : only_ignored ([] ++ personas) rs c).
  { refine (simulate_all_fold es draft (length personas) only_ignored _
              personas [] 0 [] no_counts w _ rs c w1 Hloop _).
    - intros ps rs0 c0 p r w0 w0' Hp (-> & ->).
      destruct (simulate_empty_object draft p w0 Hans Hparse Ht Hl) as (w2 & E).
      rewrite E in Hp. injection Hp as <- _. split.
      + rewrite map_app. reflexivity.
      + unfold update_counts. cbn. rewrite length_app. cbn.
        f_equal. lia.
    - split; reflexivity. }
  cbn [app] in Honly. destruct Honly as (-> & ->).
  assert (Hm : compute_metrics
                 {| open_count := 0; click_count := 0; reply_count := 0;
                    spam_count := 0; ignore_count := length personas;
                    read_count := 0; forward_count := 0 |} (length personas)
               = Ok (all_ignored (length personas))).
  { unfold compute_metrics. cbn [open_count click_count reply_count spam_count
      ignore_count read_count forward_count].
    rewrite !percentage_of_none, !bind_Ok. unfold all_ignored.
    destruct (Nat.ltb_spec 0 (length personas)) as [Hpos | Hz].
    - rewrite (percentage_of_all _ Hpos). reflexivity.
    - replace (length personas) with 0%nat by lia. reflexivity. }
  destruct (generate_insights_empty_object draft (all_ignored (length personas))
              (map not_relevant personas) w1 Hans Hparse) as (w2 & Hi).
  unfold run_simulation_stream. rewrite Hloop, Hm, Hi.
  destruct (run_id w2) as [rid w3]. destruct (timestamp_ms w3) as [ts w4].
  exists rid, ts, w4. reflexivity.
Qed.

End AnyOracle.

(** X9. When every request to the chat-completion backend raises,
    [OpenAILLM.predict] returns the text of an empty object, and a run on
    it still ends: it yields every progress event and the result, in which
    every persona is 'ignored' with the comment "Not relevant" (not "Failed
    to parse decision"), the ignore rate is 100 (0 for no persona), every
    other rate is 0, and the one insight is the heuristic on a low open
    rate. *)
Theorem run_with_backend_down `{ChatBackend W} draft personas w :
  (forall prompt w0, exists e w1, chat_completion prompt w0 = (Raise e, w1)) ->
  parses_empty_object -> accepts_text -> lower_on_ascii ->
  exists rid ts w',
    run_simulation_stream (H0 := OpenAILLM) es draft personas w
    = (map (fun k => progress k (length personas)) (seq 1 (length personas))
       ++ [result {| result_id := rid; timestamp := ts;
                     metrics := all_ignored (length personas);
                     insights := [low_open_rate];
                     responses := map not_relevant personas |}],
       None, w').
Proof.
  intros Hdown. apply run_on_empty_object.
  intros prompt w0. destruct (Hdown prompt w0) as (e & w1 & E).
  exists w1. unfold predict, OpenAILLM. rewrite E. reflexivity.
Qed.

End EmptyObjectOracle.
(** ** How far the percentage is from the exact one *)

Section PercentageError.
Local Open Scope Q_scope.

Lemma round_half_even_error (s : Q) :
  s - (1 # 2) <= inject_Z (round_half_even s) <= s + (1 # 2).
Proof.
  unfold round_half_even.
  pose proof (Qfloor_le s) as Hlo. pose proof (Qlt_floor s) as Hhi.
  rewrite inject_Z_plus in Hhi. change (inject_Z 1) with 1 in Hhi.
  destruct (Qcompare_spec (s - inject_Z (Qfloor s)) (1 # 2)) as [E | E | E].
  - destruct (Z.even (Qfloor s)).
    + lra.
    + rewrite inject_Z_plus. change (inject_Z 1) with 1. lra.
  - lra.
  - rewrite inject_Z_plus. change (inject_Z 1) with 1. lra.
Qed.

Lemma ilog2_lower (x : Q) (k : Z) : pow2 k <= x -> (k <= ilog2 x)%Z.
Proof.
  intros Hk. assert (Hx : 0 < x) by (pose proof (pow2_pos k); lra).
  destruct (ilog2_spec x Hx) as [_ Hup].
  destruct (Z_le_gt_dec k (ilog2 x)) as [C | C]; [exact C | exfalso].
  assert (pow2 (ilog2 x + 1) <= pow2 k) by (apply pow2_mono; lia). lra.
Qed.

(** In the normal range a rounding moves a number by at most [2^-53] of
    itself. *)
Lemma round64_error (x : Q) :
  pow2 (-1022) <= x ->
  x - x * (1 # 9007199254740992) <= round64 x
  /\ round64 x <= x + x * (1 # 9007199254740992).
Proof.
  intros Hn. assert (Hx : 0 < x) by (pose proof (pow2_pos (-1022)); lra).
  pose proof (ilog2_lower _ _ Hn) as He.
  destruct (ilog2_spec x Hx) as [Hlo _].
  rewrite (round64_pos x Hx).
  assert (Hg : ulp_exp x = (ilog2 x - 52)%Z).
  { unfold ulp_exp. rewrite (Qabs_of_pos x Hx). unfold prec, emin. lia. }
  rewrite Hg. set (g := (ilog2 x - 52)%Z).
  pose proof (pow2_pos g) as Pg.
  assert (Hpow : pow2 (ilog2 x) == pow2 g * 4503599627370496).
  { replace (ilog2 x) with (g + 52)%Z by (unfold g; lia).
    rewrite pow2_add. apply Qmult_comp; [reflexivity |].
    vm_compute. reflexivity. }
  pose proof (round_half_even_error (x / pow2 g)) as [Rlo Rhi].
  set (r := inject_Z (round_half_even (x / pow2 g))) in *.
  assert (Hs : x / pow2 g * pow2 g == x) by (field; lra).
  set (s := x / pow2 g) in *.
  set (G := pow2 g) in *. set (P := pow2 (ilog2 x)) in *.
  assert (H1 : (s - (1 # 2)) * G <= r * G) by (apply Qmult_le_compat_r; lra).
  assert (H2 : r * G <= (s + (1 # 2)) * G) by (apply Qmult_le_compat_r; lra).
  split; lra.
Qed.

Lemma exact_percentage_gap (count total : nat) :
  (0 < total)%nat ->
  let E := inject_Z (100 * Z.of_nat count) / inject_Z (Z.of_nat total) in
  let F := inject_Z (100 * Z.of_nat count / Z.of_nat total) in
  F <= E /\ E + / inject_Z (Z.of_nat total) <= F + 1.
Proof.
  intros Ht E F. subst E F.
  set (n := (100 * Z.of_nat count)%Z). set (t := Z.of_nat total).
  assert (Pt : (0 < t)%Z) by (unfold t; lia).
  assert (PD : 0 < inject_Z t) by (change 0 with (inject_Z 0); rewrite <- Zlt_Qlt; lia).
  pose proof (Z.div_mod n t ltac:(lia)) as Hdm.
  pose proof (Z.mod_pos_bound n t Pt) as [Hr0 Hr1].
  split.
  - apply Qle_shift_div_l; [exact PD |].
    rewrite <- inject_Z_mult, <- Zle_Qle. nia.
  - assert (Hsum : inject_Z n / inject_Z t + / inject_Z t
                   == (inject_Z n + 1) / inject_Z t) by (field; lra).
    rewrite Hsum.
    apply Qle_shift_div_r; [exact PD |].
    change 1 with (inject_Z 1).
    rewrite <- !inject_Z_plus, <- inject_Z_mult, <- Zle_Qle. nia.
Qed.

(** X10. For a total below [2^44] the rate computed in floats is the
    exact floor of 100 * count / total or one less: it never exceeds the
    exact percentage, and never falls short of it by more than one
    point. *)
Theorem percentage_within_one (count total : nat) :
  (0 < total)%nat -> (count <= total)%nat ->
  (Z.of_nat total < 2 ^ 44)%Z ->
  exists z, percentage count total = Ok z
    /\ (100 * Z.of_nat count / Z.of_nat total - 1 <= z
        <= 100 * Z.of_nat count / Z.of_nat total)%Z.
Proof.
  intros Ht Hc Hbound.
  destruct (Nat.eq_dec count 0%nat) as [-> | Hpos].
  { exists 0%Z. split; [apply percentage_of_none |].
    change (100 * Z.of_nat 0)%Z with 0%Z. rewrite Z.div_0_l by lia. lia. }
  exists (Qfloor (percentage_value count total)).
  split; [apply percentage_eq; assumption |].
  destruct (exact_percentage_gap count total Ht) as [HF HE].
  cbv zeta in HF, HE.
  set (F := (100 * Z.of_nat count / Z.of_nat total)%Z) in *.
  unfold percentage_value.
  set (x := inject_Z (Z.of_nat count) / inject_Z (Z.of_nat total)) in *.
  assert (Pt : 0 < inject_Z (Z.of_nat total)).
  { change 0 with (inject_Z 0). rewrite <- Zlt_Qlt. lia. }
  assert (HEx : inject_Z (100 * Z.of_nat count) / inject_Z (Z.of_nat total)
                == 100 * x).
  { unfold x. rewrite inject_Z_mult. change (inject_Z 100) with 100.
    field. lra. }
  rewrite HEx in HF, HE.
  destruct (fraction_bounds count total Ht Hc) as [_ Hx1]. fold x in Hx1.
  assert (Hinv : (1 # 17592186044416) <= / inject_Z (Z.of_nat total)).
  { apply Qle_shift_inv_l; [exact Pt |].
    assert (inject_Z (Z.of_nat total) <= 17592186044416).
    { change 17592186044416 with (inject_Z (2 ^ 44)). rewrite <- Zle_Qle. lia. }
    lra. }
  assert (Hxlow : / inject_Z (Z.of_nat total) <= x).
  { unfold x. unfold Qdiv.
    assert (1 <= inject_Z (Z.of_nat count)).
    { change 1 with (inject_Z 1). rewrite <- Zle_Qle. lia. }
    assert (0 < / inject_Z (Z.of_nat total)) by (apply Qinv_lt_0_compat, Pt).
    nra. }
  assert (Hsmall : pow2 (-1022) <= (1 # 17592186044416)).
  { change (1 # 17592186044416) with (pow2 (-44)). apply pow2_mono. lia. }
  set (tiny := pow2 (-1022)) in *.
  set (it := / inject_Z (Z.of_nat total)) in *.
  clear HEx Pt. clearbody it x.
  assert (Hn1 : tiny <= x) by lra.
  destruct (round64_error x Hn1) as [Q1lo Q1hi].
  set (q1 := round64 x) in *. clearbody q1.
  assert (Hn2 : tiny <= q1 * 100) by lra.
  destruct (round64_error (q1 * 100) Hn2) as [Q2lo Q2hi].
  set (q2 := round64 (q1 * 100)) in *. clearbody q2.
  pose proof (Qfloor_le q2) as Flo. pose proof (Qlt_floor q2) as Fhi.
  rewrite inject_Z_plus in Fhi. change (inject_Z 1) with 1 in Fhi.
  assert (Hup : inject_Z (Qfloor q2) < inject_Z (F + 1)).
  { rewrite inject_Z_plus. change (inject_Z 1) with 1. lra. }
  assert (Hdown : inject_Z (F - 1) < inject_Z (Qfloor q2 + 1)).
  { unfold Z.sub. rewrite !inject_Z_plus. change (inject_Z (- (1))) with (-1).
    change (inject_Z 1) with 1. lra. }
  rewrite <- Zlt_Qlt in Hup, Hdown. lia.
Qed.

End PercentageError.
(** ** The stream of the simulate endpoint *)

Section EndpointFacts.
Context `{Builtins} {W : Type} `{BaseLLM W} `{Clock W} `{Session W}.
Variable es : EmbeddingService.



End EndpointFacts.

(** ** The mock oracle and the prompts *)

Section SubstringFacts.

Lemma append_assoc (a b c : string) : (a +:+ b) +:+ c = a +:+ b +:+ c.
Proof.
  induction a as [| x a IH]; [reflexivity |].
  change (String x ((a +:+ b) +:+ c) = String x (a +:+ b +:+ c)).
  rewrite IH. reflexivity.
Qed.

Lemma prefix_append (a s : string) :
  String.prefix a s = true <-> exists post, s = a +:+ post.
Proof.
  revert s. induction a as [| x a IH]; intros s.
  - split; [intros _; exists s; reflexivity | intros _; destruct s; reflexivity].
  - destruct s as [| y s]; cbn [String.prefix].
    + split; [discriminate |]. intros [post E].
      change ("" = String x (a +:+ post)) in E. discriminate.
    + destruct (ascii_dec x y) as [-> | N].
      * rewrite IH. split; intros [post E]; exists post.
        -- rewrite E. reflexivity.
        -- change (String y s = String y (a +:+ post)) in E. congruence.
      * split; [discriminate |]. intros [post E].
        change (String y s = String x (a +:+ post)) in E. congruence.
Qed.

(** [needle in hay] says that the needle stands somewhere in the text. *)
Lemma is_substring_spec (needle hay : string) :
  needle <> "" ->
  is_substring needle hay = true <->
  exists pre post, hay = pre +:+ needle +:+ post.
Proof.
  intros Hne. unfold is_substring. induction hay as [| y hay IH].
  - cbn. destruct needle as [| x needle]; [contradiction |]. split; [discriminate |].
    intros (pre & post & E). destruct pre; discriminate.
  - cbn [String.index].
    destruct (String.prefix needle (String y hay)) eqn:Hp.
    + split; [| reflexivity]. intros _.
      apply prefix_append in Hp as [post E]. exists "", post. exact E.
    + destruct (String.index 0 needle hay) as [k |].
      * split; [| reflexivity]. intros _.
        destruct (proj1 IH eq_refl) as (pre & post & ->).
        exists (String y pre), post. reflexivity.
      * split; [discriminate |]. intros (pre & post & E).
        destruct pre as [| z pre].
        -- assert (String.prefix needle (String y hay) = true)
             by (apply prefix_append; exists post; exact E).
           congruence.
        -- injection E as _ ->.
           assert (true = true -> False); [| tauto].
           intros _. assert (Hex : exists pre0 post0,
             pre +:+ needle +:+ post = pre0 +:+ needle +:+ post0) by eauto.
           apply IH in Hex. discriminate.
Qed.

End SubstringFacts.

Section ReadingFacts.

Lemma phase_scan_app (a b : string) :
  forall q, phase_scan q (a +:+ b)
            = match phase_scan q a with
              | Some q' => phase_scan q' b
              | None => None
              end.
Proof.
  induction a as [| c a IH]; intros q; [reflexivity |].
  change (String c a +:+ b) with (String c (a +:+ b)). cbn [phase_scan].
  destruct (phase_step q c); [apply IH | reflexivity].
Qed.

(** A text in which a mark stands is read to the end of the mark. *)
Lemma phase_scan_complete (X : ascii) (pre post : string) :
  X ∈ ["A"; "B"; "C"]%char ->
  forall q, phase_scan q (pre +:+ "Phase " +:+ String X post) = None.
Proof.
  intros HX q. rewrite phase_scan_app.
  destruct (phase_scan q pre) as [q' |]; [| reflexivity].
  apply list_elem_of_In in HX. cbn in HX.
  destruct HX as [<- | [<- | [<- | []]]]; reflexivity.
Qed.

Lemma mark_in_later (c : ascii) (s : string) : mark_in s -> mark_in (String c s).
Proof.
  intros (X & pre & post & HX & ->). exists X, (String c pre), post. auto.
Qed.

(** The reading stops at a mark only. *)
Lemma phase_scan_sound (s : string) :
  forall q, phase_scan q s = None ->
    (exists X post, X ∈ ["A"; "B"; "C"]%char
                    /\ s = rest_of_mark q +:+ String X post)
    \/ mark_in s.
Proof.
  induction s as [| c s IH]; intros q E; [discriminate |].
  cbn [phase_scan] in E.
  assert (Hfresh : phase_scan 0 s = None -> mark_in (String c s)).
  { intros E0. apply mark_in_later.
    destruct (IH 0 E0) as [(X & post & HX & ->) | Hm]; [| exact Hm].
    exists X, "", post. auto. }
  assert (Hnext : forall x k,
    phase_scan k s = None -> rest_of_mark q = String x (rest_of_mark k) ->
    c = x ->
    (exists X post, X ∈ ["A"; "B"; "C"]%char
                    /\ String c s = rest_of_mark q +:+ String X post)
    \/ mark_in (String c s)).
  { intros x k Ek Hr ->. destruct (IH k Ek) as [(X & post & HX & ->) | Hm].
    - left. exists X, post. split; [exact HX |]. rewrite Hr. reflexivity.
    - right. apply mark_in_later, Hm. }
  unfold phase_step in E.
  destruct (Ascii.eqb_spec c "P") as [-> | NP].
  - right. destruct (IH 1 E) as [(X & post & HX & ->) | Hm].
    + exists X, "", post. auto.
    + apply mark_in_later, Hm.
  - destruct q as [| [| [| [| [| [| [| q]]]]]]]; try (right; exact (Hfresh E)).
    + destruct (Ascii.eqb_spec c "h") as [-> | _]; [| right; exact (Hfresh E)].
      exact (Hnext "h"%char 2 E eq_refl eq_refl).
    + destruct (Ascii.eqb_spec c "a") as [-> | _]; [| right; exact (Hfresh E)].
      exact (Hnext "a"%char 3 E eq_refl eq_refl).
    + destruct (Ascii.eqb_spec c "s") as [-> | _]; [| right; exact (Hfresh E)].
      exact (Hnext "s"%char 4 E eq_refl eq_refl).
    + destruct (Ascii.eqb_spec c "e") as [-> | _]; [| right; exact (Hfresh E)].
      exact (Hnext "e"%char 5 E eq_refl eq_refl).
    + destruct (Ascii.eqb_spec c " ") as [-> | _]; [| right; exact (Hfresh E)].
      exact (Hnext " "%char 6 E eq_refl eq_refl).
    + destruct (Ascii.eqb_spec c "A") as [-> | _];
        [left; exists "A"%char, s; split; [list_mem | reflexivity] |].
      destruct (Ascii.eqb_spec c "B") as [-> | _];
        [left; exists "B"%char, s; split; [list_mem | reflexivity] |].
      destruct (Ascii.eqb_spec c "C") as [-> | _];
        [left; exists "C"%char, s; split; [list_mem | reflexivity] |].
      right. exact (Hfresh E).
Qed.

End ReadingFacts.

Section MarkFacts.

(** A text without a mark is read to its end from the fresh state. *)
Lemma no_mark_scans (s : string) :
  mentions_phase s = false -> phase_scan 0 s <> None.
Proof.
  unfold mentions_phase. intros Hm E.
  apply orb_false_elim in Hm as [Hm HC]. apply orb_false_elim in Hm as [HA HB].
  assert (Hin : mark_in s).
  { destruct (phase_scan_sound s 0 E) as [(X & post & HX & ->) | Hm]; [| exact Hm].
    exists X, "", post. auto. }
  destruct Hin as (X & pre & post & HX & ->).
  apply list_elem_of_In in HX. cbn in HX.
  assert (Hsub : forall needle,
    "Phase " +:+ String X post = needle +:+ post -> needle <> "" ->
    is_substring needle (pre +:+ "Phase " +:+ String X post) = true).
  { intros needle Heq Hne. apply is_substring_spec; [exact Hne |].
    exists pre, post. rewrite Heq. reflexivity. }
  destruct HX as [<- | [<- | [<- | []]]].
  - rewrite (Hsub "Phase A") in HA by (reflexivity || discriminate). discriminate.
  - rewrite (Hsub "Phase B") in HB by (reflexivity || discriminate). discriminate.
  - rewrite (Hsub "Phase C") in HC by (reflexivity || discriminate). discriminate.
Qed.

(** A text that is read to its end holds no mark. *)
Lemma scans_no_mark (s : string) :
  phase_scan 0 s <> None -> mentions_phase s = false.
Proof.
  intros Hs. unfold mentions_phase.
  assert (Hno : forall X needle,
    X ∈ ["A"; "B"; "C"]%char -> needle <> "" ->
    (forall post, needle +:+ post = "Phase " +:+ String X post) ->
    is_substring needle s = false).
  { intros X needle HX Hne Heq.
    destruct (is_substring needle s) eqn:E; [| reflexivity].
    apply is_substring_spec in E as (pre & post & ->); [| exact Hne].
    exfalso. apply Hs. rewrite Heq. apply phase_scan_complete, HX. }
  rewrite (Hno "A"%char "Phase A"), (Hno "B"%char "Phase B"),
    (Hno "C"%char "Phase C");
    try reflexivity; try discriminate; try list_mem.
Qed.

Lemma fstring_resets (parts : list (string * string)) (tail : string) :
  Forall (fun part => resets part.1 /\ phase_scan 0 part.2 <> None) parts ->
  resets tail -> resets (fstring parts tail).
Proof.
  intros Hparts Htail. induction Hparts as [| [lit field] parts [Hl Hf] _ IH].
  - exact Htail.
  - intros q.
    change (fstring ((lit, field) :: parts) tail)
      with (lit +:+ field +:+ fstring parts tail).
    cbn [fst snd] in Hl, Hf. rewrite phase_scan_app, (Hl q), phase_scan_app.
    destruct (phase_scan 0 field) as [q' |]; [apply IH | contradiction].
Qed.

Lemma digits_scan (d : Decimal.uint) :
  phase_scan 0 (NilEmpty.string_of_uint d) = Some 0.
Proof. induction d; cbn; auto. Qed.

(** The decimal text of an int holds no mark. *)
Lemma str_of_int_fresh (z : Z) : phase_scan 0 (str_of_int z) = Some 0.
Proof.
  assert (Hu : forall d, phase_scan 0 (NilZero.string_of_uint d) = Some 0).
  { intros d. destruct d; try apply digits_scan. reflexivity. }
  unfold str_of_int. destruct (Z.to_int z) as [d | d]; exact (Hu d).
Qed.

Lemma str_of_int_scans (z : Z) : phase_scan 0 (str_of_int z) <> None.
Proof. rewrite str_of_int_fresh. discriminate. Qed.

(** The formatter of the runs below prints no mark. *)
Lemma two_places_no_mark (x : pyfloat) :
  mentions_phase (format_2f (Formatting := Offline.two_places) x) = false.
Proof.
  apply scans_no_mark. unfold format_2f, Offline.two_places.
  destruct x as [q | [] |]; try (vm_compute; discriminate).
  cbv zeta. set (n := round_half_even (Qabs q * 100)).
  assert (Hrest : phase_scan 0 (str_of_int (n / 100) +:+ "."
                                +:+ Offline.two_digits (n mod 100)) = Some 0).
  { rewrite phase_scan_app, str_of_int_fresh.
    change (phase_scan 0 ("." +:+ Offline.two_digits (n mod 100)))
      with (phase_scan 0 (Offline.two_digits (n mod 100))).
    unfold Offline.two_digits. destruct (n mod 100 <? 10)%Z.
    - change (phase_scan 0 ("0" +:+ str_of_int (n mod 100)))
        with (phase_scan 0 (str_of_int (n mod 100))).
      apply str_of_int_fresh.
    - apply str_of_int_fresh. }
  destruct (Qnegative q).
  - change (phase_scan 0 ("-" +:+ str_of_int (n / 100) +:+ "."
                          +:+ Offline.two_digits (n mod 100)))
      with (phase_scan 0 (str_of_int (n / 100) +:+ "."
                          +:+ Offline.two_digits (n mod 100))).
    rewrite Hrest. discriminate.
  - change ("" +:+ str_of_int (n / 100) +:+ "."
            +:+ Offline.two_digits (n mod 100))
      with (str_of_int (n / 100) +:+ "." +:+ Offline.two_digits (n mod 100)).
    rewrite Hrest. discriminate.
Qed.

End MarkFacts.

(** A literal segment resets the reading: by running it from each state. *)
Ltac literal_resets :=
  let q := fresh "q" in
  intros q; do 7 (destruct q as [| q]; [vm_compute; reflexivity |]);
  vm_compute; reflexivity.

Ltac field_scans :=
  cbn [snd];
  match goal with
  | |- phase_scan 0 (str_of_int _) <> None => apply str_of_int_scans
  | |- _ => apply no_mark_scans; assumption
  end.

Section PromptFacts.
Context `{Formatting}.

Lemma responses_summary_scans (rs : list Response) :
  Forall (fun s => mentions_phase s = false)
         (flat_map (fun r => [role (persona r); action r; comment r]) rs) ->
  forall summary, phase_scan 0 summary = Some 0 ->
    phase_scan 0
      (foldl (fun summary r =>
                summary +:+ fstring [("- ", role (persona r)); (": ", action r);
                                     (" (", comment r)] (")" +:+ lf))
             summary rs) = Some 0.
Proof.
  induction rs as [| r rs IH]; intros Hall summary Hs; [exact Hs |].
  cbn [flat_map] in Hall. apply Forall_app in Hall as [Hr Hrest].
  apply Forall_cons in Hr as [Hrole Hr]. apply Forall_cons in Hr as [Hact Hr].
  apply Forall_cons in Hr as [Hcom _].
  cbn [foldl]. apply (IH Hrest). rewrite phase_scan_app, Hs.
  apply fstring_resets; [| literal_resets].
  repeat (apply Forall_cons_2; [split; [literal_resets | field_scans] |]).
  apply Forall_nil_2.
Qed.

(** The text of a prompt whose fields hold no mark holds no mark: the
    templates hold none, and none comes about where a field ends and the
    template goes on. *)
Lemma render_no_mark (prompt : Prompt) :
  Forall (fun s => mentions_phase s = false) (fields_of prompt) ->
  mentions_phase (render prompt) = false.
Proof.
  intros Hall. apply scans_no_mark.
  assert (Hr : resets (render prompt)); [| rewrite (Hr 0); discriminate].
  destruct prompt as [p d score | p d | p d | d m sample];
    cbn [fields_of render] in *.
  - repeat (apply Forall_cons in Hall as [? Hall]).
    unfold inbox_scan_text. apply fstring_resets; [| literal_resets].
    repeat (apply Forall_cons_2; [split; [literal_resets | field_scans] |]).
    apply Forall_nil_2.
  - repeat (apply Forall_cons in Hall as [? Hall]).
    unfold read_email_text. apply fstring_resets; [| literal_resets].
    repeat (apply Forall_cons_2; [split; [literal_resets | field_scans] |]).
    apply Forall_nil_2.
  - repeat (apply Forall_cons in Hall as [? Hall]).
    unfold take_action_text. apply fstring_resets; [| literal_resets].
    repeat (apply Forall_cons_2; [split; [literal_resets | field_scans] |]).
    apply Forall_nil_2.
  - apply Forall_cons in Hall as [Hsub Hall].
    apply Forall_cons in Hall as [Haud Hall].
    pose proof (responses_summary_scans _ Hall "" eq_refl) as Hsum.
    unfold analyze_results_text. apply fstring_resets; [| literal_resets].
    repeat (apply Forall_cons_2;
            [split; [literal_resets
                    | first [field_scans
                            | cbn [snd]; unfold responses_summary;
                              rewrite Hsum; discriminate]] |]).
    apply Forall_nil_2.
Qed.

End PromptFacts.

Section MockFacts.
Context `{Formatting} {W : Type} `{Random W}.

Lemma mock_answers_empty_object (prompt : Prompt) (w : W) :
  Forall (fun s => mentions_phase s = false) (fields_of prompt) ->
  MockLLM_predict (render prompt) w = ("{}", w).
Proof.
  intros Hall. pose proof (render_no_mark prompt Hall) as Hm.
  unfold mentions_phase in Hm.
  apply orb_false_elim in Hm as [Hm HC]. apply orb_false_elim in Hm as [HA HB].
  unfold MockLLM_predict. rewrite HA, HB, HC. reflexivity.
Qed.

(** X12. [MockLLM.predict] looks for the marks "Phase A", "Phase B" and
    "Phase C", and no template of [prompts.py] holds one: the text of
    every prompt whose fields hold no mark holds none, so the mock oracle
    takes none of its three branches, draws nothing at random and answers
    the text of an empty JSON object. *)
Theorem mock_recognises_no_prompt (prompt : Prompt) (w : W) :
  Forall (fun s => mentions_phase s = false) (fields_of prompt) ->
  is_substring "Phase A" (render prompt) = false
  /\ is_substring "Phase B" (render prompt) = false
  /\ is_substring "Phase C" (render prompt) = false
  /\ MockLLM_predict (render prompt) w = ("{}", w)
  /\ predict (BaseLLM := MockLLM) prompt w = (Ok (PStr "{}"), w).
Proof.
  intros Hall. pose proof (render_no_mark prompt Hall) as Hm.
  unfold mentions_phase in Hm.
  apply orb_false_elim in Hm as [Hm HC]. apply orb_false_elim in Hm as [HA HB].
  pose proof (mock_answers_empty_object prompt w Hall) as Hp.
  repeat split; try assumption.
  unfold predict, MockLLM. rewrite Hp. reflexivity.
Qed.

End MockFacts.

Section QuietOracle.
Context `{Builtins} {W : Type} `{BaseLLM W} `{Clock W}.
Variable es : EmbeddingService.

Lemma simulate_on_empty_reply draft p w score w1 :
  get_similarity es (subject draft) (persona_context p) = Ok score ->
  predict (inbox_scan p draft score) w = (Ok (PStr "{}"), w1) ->
  parses_empty_object -> accepts_text -> lower_on_ascii ->
  _simulate_single_persona es draft p w = (Ok (not_relevant p), w1).
Proof.
  intros Hs Hp (Hj & _) Ht Hl.
  rewrite (simulate_after_scan _ _ _ _ _ _ _ Hs Hp).
  unfold parse_reply. rewrite Hj.
  rewrite (scan_decision_unrecognised [] "Not relevant" "Not relevant" Hl
             (or_introl eq_refl) eq_refl eq_refl).
  cbn -[new_Response]. rewrite new_Response_text by exact Ht. reflexivity.
Qed.

Lemma generate_insights_on_empty_reply draft m rs w w1 :
  predict (analyze_results draft m (take 5 rs)) w = (Ok (PStr "{}"), w1) ->
  parses_empty_object ->
  _generate_insights draft m rs w = (fallback_heuristics m, w1).
Proof.
  intros Hp (_ & Hj). unfold _generate_insights. rewrite Hp.
  unfold smart_insights.
  change (re_search_object "{}") with (Some "{}").
  unfold parse_insight_data. rewrite Hj. reflexivity.
Qed.

Lemma simulate_all_ignored draft total (personas : list Persona) :
  (forall p w0, p ∈ personas ->
     _simulate_single_persona es draft p w0 = (Ok (not_relevant p), w0)) ->
  forall i rs c w,
    simulate_all es draft total i personas rs c w
    = (map (fun k => progress k total) (seq (S i) (length personas)),
       Ok (rs ++ map not_relevant personas,
           ignored_more (length personas) c), w).
Proof.
  induction personas as [| p rest IH]; intros Hsim i rs c w.
  - cbn. rewrite app_nil_r. destruct c. reflexivity.
  - cbn [simulate_all]. rewrite (Hsim p w) by left.
    rewrite IH by (intros q w0 Hq; apply Hsim; right; exact Hq).
    cbn [length seq map]. rewrite Nat.add_1_r, <- app_assoc. cbn [app].
    f_equal. f_equal. f_equal. f_equal.
    unfold ignored_more, update_counts. cbn. f_equal. lia.
Qed.

Lemma compute_metrics_ignored (n : nat) :
  compute_metrics (ignored_more n no_counts) n = Ok (all_ignored n).
Proof.
  unfold compute_metrics, ignored_more, no_counts.
  cbn [open_count click_count reply_count spam_count ignore_count read_count
       forward_count].
  rewrite Nat.add_0_r, !percentage_of_none, !bind_Ok. unfold all_ignored.
  destruct (Nat.ltb_spec 0 n) as [Hpos | Hz].
  - rewrite (percentage_of_all _ Hpos). reflexivity.
  - replace n with 0%nat by lia. reflexivity.
Qed.

(** A run on an oracle that answers the text of an empty object, and
    leaves the world as it is, to the prompts of a run in which everyone
    ignores the mail. *)
Lemma run_on_quiet_oracle draft personas w :
  (forall prompt w0, asked_when_ignored draft personas prompt ->
     predict prompt w0 = (Ok (PStr "{}"), w0)) ->
  parses_empty_object -> accepts_text -> lower_on_ascii ->
  run_simulation_stream es draft personas w
  = (map (fun k => progress k (length personas)) (seq 1 (length personas))
     ++ [result {| result_id := (run_id w).1;
                   timestamp := (timestamp_ms (run_id w).2).1;
                   metrics := all_ignored (length personas);
                   insights := [low_open_rate];
                   responses := map not_relevant personas |}],
     None, (timestamp_ms (run_id w).2).2).
Proof.
  intros Hquiet Hparse Ht Hl.
  assert (Hsim : forall p w0, p ∈ personas ->
            _simulate_single_persona es draft p w0 = (Ok (not_relevant p), w0)).
  { intros p w0 Hp.
    destruct (get_similarity_total es (subject draft) (persona_context p))
      as (score & Hs).
    apply (simulate_on_empty_reply draft p w0 score w0 Hs); try assumption.
    apply Hquiet. left. eauto. }
  unfold run_simulation_stream.
  rewrite (simulate_all_ignored draft (length personas) personas Hsim).
  rewrite compute_metrics_ignored. cbn [app].
  rewrite (generate_insights_on_empty_reply draft _ _ w w)
    by (try assumption; apply Hquiet; right; reflexivity).
  destruct (run_id w) as [rid w3]. cbn [fst snd].
  destruct (timestamp_ms w3) as [ts w4]. reflexivity.
Qed.

End QuietOracle.

Section MockRun.
Context `{Builtins} `{Formatting} {W : Type} `{Random W} `{Clock W}.
Variable es : EmbeddingService.

Lemma Forall_flat_map_intro {A B : Type} (P : B -> Prop) (f : A -> list B) (l : list A) :
  Forall (fun a => Forall P (f a)) l -> Forall P (flat_map f l).
Proof.
  induction 1 as [| a l Ha _ IH]; [constructor |].
  cbn. apply Forall_app. auto.
Qed.

(** X13. A simulator built on the mock oracle ignores every mail.  When
    no field of the draft and of the personas holds one of the marks
    "Phase A", "Phase B", "Phase C" (and no formatted relevance score
    does), a run on [MockLLM] completes, every persona is 'ignored' with
    the comment "Not relevant", the ignore rate is 100 (0 for no persona),
    every other rate is 0, the one insight is the heuristic on a low open
    rate, and the oracle has drawn nothing at random: the world is only
    read by the clock. *)
Theorem run_on_mock_oracle draft personas w :
  parses_empty_object -> accepts_text -> lower_on_ascii ->
  (forall x, mentions_phase (format_2f x) = false) ->
  mentions_phase (subject draft) = false ->
  mentions_phase (audience draft) = false ->
  Forall (fun p => Forall (fun s => mentions_phase s = false)
                     [name p; role p; company p; psychographics p;
                      pastBehavior p]) personas ->
  run_simulation_stream (H0 := MockLLM) es draft personas w
  = (map (fun k => progress k (length personas)) (seq 1 (length personas))
     ++ [result {| result_id := (run_id w).1;
                   timestamp := (timestamp_ms (run_id w).2).1;
                   metrics := all_ignored (length personas);
                   insights := [low_open_rate];
                   responses := map not_relevant personas |}],
     None, (timestamp_ms (run_id w).2).2).
Proof.
  intros Hparse Ht Hl Hfmt Hsub Haud Hps.
  apply run_on_quiet_oracle; try assumption.
  intros prompt w0 Hasked. unfold predict, MockLLM.
  rewrite mock_answers_empty_object; [reflexivity |].
  destruct Hasked as [(p & score & Hp & ->) | ->]; cbn [fields_of].
  - rewrite Forall_forall in Hps. specialize (Hps p Hp).
    repeat (apply Forall_cons in Hps as [? Hps]).
    repeat (apply Forall_cons_2; [first [assumption | apply Hfmt] |]).
    apply Forall_nil_2.
  - apply Forall_cons_2; [exact Hsub |]. apply Forall_cons_2; [exact Haud |].
    apply Forall_flat_map_intro. do 2 apply Forall_take.
    apply Forall_map. eapply Forall_impl; [exact Hps |].
    intros p Hp. cbn. repeat (apply Forall_cons in Hp as [? Hp]).
    repeat (apply Forall_cons_2; [first [assumption | reflexivity] |]).
    apply Forall_nil_2.
Qed.

End MockRun.

(** ** The code on concrete inputs *)

#[local] Existing Instances Demo.runtime Demo.llm Demo.clock.

Lemma demo_accepts_text : @accepts_text Demo.runtime.
Proof. intros s. reflexivity. Qed.

Lemma demo_lower_on_ascii : @lower_on_ascii Demo.runtime.
Proof. intros s _. reflexivity. Qed.

Lemma demo_keeps_nonblank : @keeps_nonblank Demo.runtime.
Proof.
  intros v s Hv E. destruct v; try discriminate.
  injection E as <-. cbn in Hv. intros ->. discriminate.
Qed.

(** On the numerators and denominators up to 64, the quotient of two ints
    is the binary64 number the processor computes. *)
Lemma quotient_agrees_with_binary64 : quotients_agree_up_to 64 = true.
Proof. vm_compute. reflexivity. Qed.

(** On every count up to a total of 100, [percentage] is what the
    processor's binary64 arithmetic computes. *)
Lemma percentage_agrees_with_binary64 : agree_up_to 100 = true.
Proof. vm_compute. reflexivity. Qed.

(** The lexical similarity of two subjects: one shared keyword of three. *)
Example one_keyword_in_three :
  keywords "The cat sat" = {["cat"; "sat"]}
  /\ keywords "the CAT ran" = {["cat"; "ran"]}
  /\ _keyword_similarity "The cat sat" "the CAT ran"
     = Ok (Finite (round64 (1 # 3)))
  /\ _keyword_similarity "The cat sat" "the cat SAT" = Ok (Finite 1)
  /\ _keyword_similarity "the of and" "cat" = Ok (Finite 0).
Proof. repeat split; vm_compute; reflexivity. Qed.

(** The progress-ordering scenario: five personas, five progress events in
    order, then the result. *)
Example five_personas_five_progress_events :
  exists data,
    run_simulation_stream Demo.embedding (Demo.draft_for "b2b" 5)
      (map (Demo.someone "p1")
           ["opener"; "clicker"; "replier"; "spammer"; "garbled"]) 0
    = ([progress 1 5; progress 2 5; progress 3 5; progress 4 5; progress 5 5;
        result data], None, 9)
    /\ map action (responses data)
       = ["opened"; "clicked"; "replied"; "spam"; "ignored"].
Proof. eexists. split; vm_compute; reflexivity. Qed.

(** A scan reply that is valid JSON but no object ends the run: the
    generator raises after the events of the personas before it. *)
Example list_reply_cuts_the_run_short :
  run_simulation_stream Demo.embedding (Demo.draft_for "b2b" 3)
    (map (Demo.someone "p1") ["opener"; "lister"; "spammer"]) 0
  = ([progress 1 3], Some AttributeError, 3).
Proof. vm_compute. reflexivity. Qed.

(** C2. The rates are integers in [0,100] and are 0 when the total is 0,
    but they are not the floor of count/total*100 in exact arithmetic: the
    quotient and the product are rounded to binary64 before the
    truncation.  29 of 100 gives 28 and 29 of 50 gives 57, here and on the
    processor's floats, and a run over 100 personas of whom 29 open
    reports an open rate of 28. *)
Theorem percentage_rounds_below_floor :
  (forall count total, count <= total ->
     exists z, percentage count total = Ok z /\ (0 <= z <= 100)%Z)
  /\ (forall count, percentage count 0 = Ok 0%Z)
  /\ percentage 29 100 = Ok 28%Z /\ (29 * 100 / 100 = 29)%Z
  /\ percentage 29 50 = Ok 57%Z /\ (29 * 100 / 50 = 58)%Z
  /\ percentage_binary64 29 100 = 28%Z /\ percentage_binary64 29 50 = 57%Z
  /\ match run_simulation_stream Demo.embedding (Demo.draft_for "b2b" 100)
             Demo.hundred 0 with
     | (events, outcome, _) =>
         outcome = None
         /\ match last events with
            | Some (result data) =>
                length (responses data) = 100
                /\ length (filter (fun r => action r = "opened") (responses data)) = 29
                /\ openRate (metrics data) = 28%Z
            | _ => False
            end
     end.
Proof.
  split; [exact percentage_total |].
  split; [exact percentage_no_total |].
  vm_compute. repeat split; reflexivity.
Qed.

Lemma response_action_enumerated_witness :
  exists r,
    _simulate_single_persona Demo.embedding (Demo.draft_for "b2b" 1)
      (Demo.someone "p1" "clicker") 0 = (Ok r, 2)
    /\ action r ∈ ["opened"; "clicked"; "replied"; "spam"; "ignored"].
Proof.
  eexists. split.
  - vm_compute. reflexivity.
  - apply (proj1 (response_action_enumerated Demo.embedding
                    (Demo.draft_for "b2b" 1))
             (Demo.someone "p1" "clicker") 0 _ 2).
    vm_compute. reflexivity.
Defined.

Lemma event_sequence_witness :
  exists events outcome w',
    run_simulation_stream Demo.embedding (Demo.draft_for "b2b" 3)
      (map (Demo.someone "p1") ["opener"; "spammer"; "blank"]) 0
    = (events, outcome, w')
    /\ outcome = None
    /\ exists data,
         events = map (fun k => progress k 3) (seq 1 3) ++ [result data]
         /\ length (responses data) = 3.
Proof.
  eexists _, _, _. split; [vm_compute; reflexivity |].
  split; [reflexivity |].
  refine (proj1 (event_sequence Demo.embedding (Demo.draft_for "b2b" 3)
                   (map (Demo.someone "p1") ["opener"; "spammer"; "blank"]) 0
                   _ None _ _) eq_refl).
  vm_compute. reflexivity.
Defined.

(** C4 as stated fails on the reply "{}", the very text the network oracle
    returns on a transport error: it parses, its 'action' is absent, the
    action is clamped to 'ignored', and the comment is the default reason
    "Not relevant", not "Failed to parse decision". *)
Lemma scan_empty_object_counterexample :
  Demo.scan_reply "blank" = Ok (PStr "{}")
  /\ json_loads (strip_fences "{}") = Ok (PDict [])
  /\ unrecognised_action []
  /\ exists r,
       _simulate_single_persona Demo.embedding (Demo.draft_for "b2b" 1)
         (Demo.someone "p1" "blank") 0 = (Ok r, 1)
       /\ action r = "ignored"
       /\ comment r = "Not relevant"
       /\ comment r <> "Failed to parse decision".
Proof.
  split; [reflexivity |]. split; [vm_compute; reflexivity |].
  split; [left; reflexivity |].
  eexists. split; [vm_compute; reflexivity |].
  cbn. split; [reflexivity |]. split; [reflexivity | discriminate].
Qed.

Lemma scan_clamps_to_ignored_witness :
  exists score,
    accepts_text /\ lower_on_ascii
    /\ get_similarity Demo.embedding (subject (Demo.draft_for "b2b" 1))
         (persona_context (Demo.someone "p1" "shouter")) = Ok score
    /\ predict (inbox_scan (Demo.someone "p1" "shouter") (Demo.draft_for "b2b" 1) score) 0
       = (Ok (PStr (Demo.object_text Demo.scan_shouting)), 1)
    /\ _simulate_single_persona Demo.embedding (Demo.draft_for "b2b" 1)
         (Demo.someone "p1" "shouter") 0
       = (Ok {| persona := Demo.someone "p1" "shouter"; action := "ignored";
                sentiment := "neutral"; comment := "Too loud";
                detailedReasoning := "Too loud" |}, 1).
Proof.
  eexists. split; [exact demo_accepts_text |].
  split; [exact demo_lower_on_ascii |].
  split; [vm_compute; reflexivity |]. split; [reflexivity |].
  refine (proj2 (scan_clamps_to_ignored Demo.embedding (Demo.draft_for "b2b" 1)
                   (Demo.someone "p1" "shouter") 0 _
                   (Ok (PStr (Demo.object_text Demo.scan_shouting))) 1
                   demo_accepts_text demo_lower_on_ascii _ eq_refl)
                (map (fun kv => (PStr kv.1, PStr kv.2)) Demo.scan_shouting)
                "Too loud" "Too loud" _ _ eq_refl eq_refl).
  - vm_compute. reflexivity.
  - vm_compute. reflexivity.
  - right. exists "DELETE". split; [reflexivity |].
    vm_compute. intros Hin. apply list_elem_of_In in Hin. cbn in Hin.
    intuition discriminate.
Defined.

(** The override-guard scenario: 'forwarded' leaves the action at 'opened'. *)
Example forwarded_stays_opened :
  exists r,
    _simulate_single_persona Demo.embedding (Demo.draft_for "b2b" 1)
      (Demo.someone "p1" "forwarder") 0 = (Ok r, 2)
    /\ action r = "opened".
Proof. eexists. split; vm_compute; reflexivity. Qed.

(** C8 as stated fails whichever six of the seven counters are meant: for
    one persona who clicks and whose identifier hashes to 5, the counters
    are open 0, click 1, reply 0, spam 0, ignore 0, read 1, forward 1, and
    leaving any one of them out the other six add up to 2 or 3, not to the
    total 1. *)
Lemma six_counters_counterexample :
  exists events rs c w',
    simulate_all Demo.embedding (Demo.draft_for "b2b" 1)
      (length Demo.one_clicker) 0 Demo.one_clicker [] no_counts 0
    = (events, Ok (rs, c), w')
    /\ length rs = 1
    /\ let seven := [open_count c; click_count c; reply_count c; spam_count c;
                     ignore_count c; read_count c; forward_count c] in
       seven = [0; 1; 0; 0; 0; 1; 1]
       /\ Forall (fun left_out => list_sum seven - left_out <> 1) seven.
Proof.
  eexists _, _, _, _. split; [vm_compute; reflexivity |].
  split; [reflexivity |]. cbn. split; [reflexivity |].
  repeat constructor; discriminate.
Qed.

Lemma five_counts_sum_to_total_witness :
  exists events rs c w',
    simulate_all Demo.embedding (Demo.draft_for "b2b" 1)
      (length Demo.one_clicker) 0 Demo.one_clicker [] no_counts 0
    = (events, Ok (rs, c), w')
    /\ open_count c + click_count c + reply_count c + spam_count c
       + ignore_count c = length Demo.one_clicker
    /\ length rs = length Demo.one_clicker.
Proof.
  eexists _, _, _, _. split; [vm_compute; reflexivity |].
  eapply (five_counts_sum_to_total Demo.embedding (Demo.draft_for "b2b" 1)
            Demo.one_clicker 0).
  vm_compute. reflexivity.
Defined.

(** C9 as stated fails on a reply text that is absent: the act stage ends
    with 'replied', the internal monologue and the scan reason are there,
    and the comment is the placeholder. *)
Lemma replied_without_text_counterexample :
  Demo.act_reply "terse" = Ok (PStr (Demo.object_text Demo.act_replied_no_text))
  /\ json_loads (strip_fences (Demo.object_text Demo.act_replied_no_text))
     = Ok (PDict [(PStr "final_action", PStr "replied");
                  (PStr "internal_monologue", PStr "I will answer")])
  /\ exists r,
       _simulate_single_persona Demo.embedding (Demo.draft_for "b2b" 1)
         (Demo.someone "p1" "terse") 0 = (Ok r, 2)
       /\ action r = "replied"
       /\ comment r = "No comment"
       /\ comment r <> "I will answer"
       /\ comment r <> "Relevant to my role".
Proof.
  split; [reflexivity |]. split; [vm_compute; reflexivity |].
  eexists. split; [vm_compute; reflexivity |]. cbn.
  repeat split; try reflexivity; discriminate.
Qed.

Lemma awkward_accepts_text : @accepts_text Awkward.runtime.
Proof. intros s. reflexivity. Qed.

Lemma awkward_keeps_nonblank : @keeps_nonblank Awkward.runtime.
Proof.
  intros v s Hv E. destruct v; try discriminate.
  injection E as <-. cbn in Hv. intros ->. discriminate.
Qed.

Lemma response_comment_witness :
  (exists r,
     _simulate_single_persona (H := Awkward.runtime) (H0 := Awkward.llm)
       Demo.embedding (Demo.draft_for "b2b" 1) (Demo.someone "p1" "silent") 0
     = (Ok r, 1)
     /\ action r ∈ ["spam"; "ignored"] /\ comment r = "No comment")
  /\ (exists r,
        _simulate_single_persona (H := Awkward.runtime) (H0 := Awkward.llm)
          Demo.embedding (Demo.draft_for "b2b" 1) (Demo.someone "p1" "mute") 0
        = (Ok r, 2)
        /\ action r ∈ ["opened"; "clicked"] /\ comment r = "No comment")
  /\ (exists r,
        _simulate_single_persona (H := Awkward.runtime) (H0 := Awkward.llm)
          Demo.embedding (Demo.draft_for "b2b" 1) (Demo.someone "p1" "hollow") 0
        = (Ok r, 2)
        /\ action r = "replied" /\ comment r = "No comment")
  /\ (exists r,
        _simulate_single_persona (H := Awkward.runtime) (H0 := Awkward.llm)
          Demo.embedding (Demo.draft_for "b2b" 1) (Demo.someone "p1" "replier") 0
        = (Ok r, 2)
        /\ action r = "replied" /\ comment r = "Tell me more")
  /\ (forall r w',
        _simulate_single_persona (H := Awkward.runtime) (H0 := Awkward.llm)
          Demo.embedding (Demo.draft_for "b2b" 1) (Demo.someone "p1" "opener") 0
        = (Ok r, w') ->
        comment r <> "").
Proof.
  pose (about := fun who =>
    response_comment (H := Awkward.runtime) (H0 := Awkward.llm) Demo.embedding
      (Demo.draft_for "b2b" 1) (Demo.someone "p1" who) 0
      awkward_keeps_nonblank awkward_accepts_text).
  split; [| split; [| split; [| split]]].
  - refine (proj1 (proj2 (about "silent")) _
              (Ok (PStr (Demo.object_text Awkward.scan_no_reason))) 1
              (map (fun kv => (PStr kv.1, PStr kv.2)) Awkward.scan_no_reason)
              "ignored" "" "" _ _ _ _ _ _ _);
      try (vm_compute; reflexivity).
    vm_compute. discriminate.
  - refine (proj1 (proj2 (proj2 (about "mute")) _
                     (Demo.scan_reply "mute") 1 "Relevant to my role"
                     (PStr "Relevant to my role")
                     (Ok (PStr (Demo.object_text Awkward.act_clicked_silently))) 2
                     (map (fun kv => (PStr kv.1, PStr kv.2))
                          Awkward.act_clicked_silently)
                     "clicked" "" _ _ _ _ _ _ _) _);
      try (vm_compute; reflexivity).
    vm_compute. discriminate.
  - refine (proj2 (proj2 (proj2 (about "hollow")) _
                     (Demo.scan_reply "hollow") 1 "Relevant to my role"
                     (PStr "Relevant to my role")
                     (Ok (PStr (Demo.object_text Awkward.act_replied_nothing))) 2
                     (map (fun kv => (PStr kv.1, PStr kv.2))
                          Awkward.act_replied_nothing)
                     "replied" "I will answer" _ _ _ _ _ _ _) _ "" _);
      vm_compute; reflexivity.
  - refine (proj2 (proj2 (proj2 (about "replier")) _
                     (Demo.scan_reply "replier") 1 "Relevant to my role"
                     (PStr "Relevant to my role")
                     (Ok (PStr (Demo.object_text Demo.act_replied))) 2
                     (map (fun kv => (PStr kv.1, PStr kv.2)) Demo.act_replied)
                     "replied" "I will answer" _ _ _ _ _ _ _) _ "Tell me more" _);
      vm_compute; reflexivity.
  - exact (proj1 (about "opener")).
Defined.

(** C6. The oracle path of the Insight Generator fails on the second item
    of the list (the number 5 has no [get]) after the first item has been
    appended: the returned list is that item followed by the heuristic
    insights, not the heuristic insights alone. *)
Theorem partial_insights_survive_fallback :
  predict (analyze_results (Demo.draft_for "partial" 1) Demo.low_open_spammy []) 0
  = (Ok (PStr ("Here you go: " +:+ Demo.partial_insights_text)), 1)
  /\ json_loads Demo.partial_insights_text = Ok Demo.partial_insights_value
  /\ fallback_heuristics Demo.low_open_spammy = [low_open_rate; spam_risk]
  /\ _generate_insights (Demo.draft_for "partial" 1) Demo.low_open_spammy [] 0
     = ([{| insight_type := "positive"; title := "Clear subject";
            description := "It names the benefit." |};
         low_open_rate; spam_risk], 1).
Proof. repeat split; vm_compute; reflexivity. Qed.

(** The insight fallback scenario: the oracle call raises, and the insights
    are the two heuristic ones, in this order. *)
Example insight_fallback_scenario :
  _generate_insights (Demo.draft_for "b2b" 1) Demo.low_open_spammy [] 0
  = ([low_open_rate; spam_risk], 1).
Proof. vm_compute. reflexivity. Qed.

(** ** The further properties on concrete inputs *)

Lemma analyst_accepts_text : @accepts_text Analyst.runtime.
Proof. intros s. reflexivity. Qed.

Lemma insight_types_enumerated_witness :
  exists ins,
    _generate_insights (Demo.draft_for "partial" 1) Demo.low_open_spammy [] 0
    = (ins, 1)
    /\ length ins = 3
    /\ Forall (fun i => insight_type i ∈ ["positive"; "negative"; "warning"]) ins.
Proof.
  eexists. split; [vm_compute; reflexivity |]. split; [reflexivity |].
  apply (insight_types_enumerated (Demo.draft_for "partial" 1)
           Demo.low_open_spammy [] 0 _ 1).
  vm_compute. reflexivity.
Defined.

Lemma oracle_insights_in_order_witness :
  re_search_object Analyst.insights_text = Some Analyst.insights_object
  /\ _generate_insights (H := Analyst.runtime) (H0 := Analyst.llm)
       (Demo.draft_for "b2b" 1) Demo.low_open_spammy [] 0
     = ([{| insight_type := "positive"; title := "Clear subject";
            description := "It names the benefit." |};
         {| insight_type := "negative"; title := "Vague offer";
            description := "" |}], 1).
Proof.
  assert (Hre : re_search_object Analyst.insights_text
                = Some Analyst.insights_object) by (vm_compute; reflexivity).
  split; [exact Hre |].
  refine (oracle_insights_in_order (H := Analyst.runtime) (H0 := Analyst.llm)
            (Demo.draft_for "b2b" 1) Demo.low_open_spammy [] 0
            Analyst.insights_text 1 Analyst.insights_object
            [(PStr "insights",
              PList [Demo.object_value Demo.good_insight;
                     Demo.object_value Analyst.vague_offer])]
            [Demo.object_value Demo.good_insight;
             Demo.object_value Analyst.vague_offer]
            _ analyst_accepts_text _ Hre _ _ _).
  - vm_compute. reflexivity.
  - vm_compute. reflexivity.
  - vm_compute. reflexivity.
  - constructor; [| constructor; [| constructor]].
    + eexists _, "positive", "Clear subject", "It names the benefit.".
      split; [reflexivity |]. repeat split; vm_compute; reflexivity.
    + eexists _, "Issue", "Vague offer", "".
      split; [reflexivity |]. repeat split; vm_compute; reflexivity.
Defined.

Lemma oracle_calls_by_action_witness :
  exists r,
    _simulate_single_persona Demo.embedding (Demo.draft_for "b2b" 1)
      (Demo.someone "p1" "spammer") 0 = (Ok r, 1)
    /\ action r = "spam"
    /\ exists score reply,
         get_similarity Demo.embedding (subject (Demo.draft_for "b2b" 1))
           (persona_context (Demo.someone "p1" "spammer")) = Ok score
         /\ predict (inbox_scan (Demo.someone "p1" "spammer")
                       (Demo.draft_for "b2b" 1) score) 0 = (reply, 1).
Proof.
  eexists. split; [vm_compute; reflexivity |]. split; [reflexivity |].
  refine (proj1 (oracle_calls_by_action Demo.embedding (Demo.draft_for "b2b" 1)
                   (Demo.someone "p1" "spammer") 0 _ 1 _) _).
  - vm_compute. reflexivity.
  - cbn. list_mem.
Defined.

Lemma responses_follow_personas_witness :
  exists data,
    run_simulation_stream Demo.embedding (Demo.draft_for "b2b" 3)
      (map (Demo.someone "p1") ["opener"; "spammer"; "blank"]) 0
    = (map (fun k => progress k 3) (seq 1 3) ++ [result data], None, 5)
    /\ map persona (responses data)
       = map (Demo.someone "p1") ["opener"; "spammer"; "blank"]
    /\ Forall (fun r => sentiment r = "neutral") (responses data).
Proof.
  eexists. split; [vm_compute; reflexivity |].
  refine (responses_follow_personas Demo.embedding (Demo.draft_for "b2b" 3)
            (map (Demo.someone "p1") ["opener"; "spammer"; "blank"]) 0
            _ None 5 _ _ _).
  - vm_compute. reflexivity.
  - cbn. list_mem.
Defined.

Lemma run_with_backend_down_witness :
  (forall prompt w0, exists e w1,
      chat_completion (ChatBackend := Analyst.down) prompt w0 = (Raise e, w1))
  /\ parses_empty_object
  /\ exists rid ts w',
       run_simulation_stream (H0 := OpenAILLM (H := Analyst.down))
         Demo.embedding (Demo.draft_for "b2b" 2)
         (map (Demo.someone "p1") ["opener"; "clicker"]) 0
       = (map (fun k => progress k 2) (seq 1 2)
          ++ [result {| result_id := rid; timestamp := ts;
                        metrics := all_ignored 2; insights := [low_open_rate];
                        responses := map not_relevant
                                       (map (Demo.someone "p1")
                                            ["opener"; "clicker"]) |}],
          None, w').
Proof.
  assert (Hdown : forall prompt w0, exists e w1,
             chat_completion (ChatBackend := Analyst.down) prompt w0
             = (Raise e, w1)).
  { intros prompt w0. exists OracleError, (S w0). reflexivity. }
  assert (Hparse : parses_empty_object) by (split; vm_compute; reflexivity).
  split; [exact Hdown |]. split; [exact Hparse |].
  exact (run_with_backend_down (H1 := Analyst.down) Demo.embedding
           (Demo.draft_for "b2b" 2)
           (map (Demo.someone "p1") ["opener"; "clicker"]) 0
           Hdown Hparse demo_accepts_text demo_lower_on_ascii).
Defined.

Lemma percentage_within_one_witness :
  exists z, percentage 29 100 = Ok z /\ (28 <= z <= 29)%Z.
Proof.
  apply (percentage_within_one 29 100); [lia | lia | reflexivity].
Defined.


Lemma mock_recognises_no_prompt_witness :
  is_substring "Вы - Phase, A-team lead в компании Acme"
    (render (H := Offline.two_places)
       (inbox_scan Offline.phase_lead (Demo.draft_for "b2b" 1) (Finite (1 # 3))))
  = true
  /\ is_substring "Рассчитанная релевантность: 0.33 (0.00"
       (render (H := Offline.two_places)
          (inbox_scan Offline.phase_lead (Demo.draft_for "b2b" 1)
             (Finite (1 # 3))))
     = true
  /\ predict (BaseLLM := MockLLM (H := Offline.two_places) (H0 := Offline.dice))
       (inbox_scan Offline.phase_lead (Demo.draft_for "b2b" 1) (Finite (1 # 3)))
       0
     = (Ok (PStr "{}"), 0).
Proof.
  split; [vm_compute; reflexivity |]. split; [vm_compute; reflexivity |].
  refine (proj2 (proj2 (proj2 (proj2
            (mock_recognises_no_prompt (H := Offline.two_places)
               (H0 := Offline.dice)
               (inbox_scan Offline.phase_lead (Demo.draft_for "b2b" 1)
                  (Finite (1 # 3))) 0 _))))).
  repeat (apply Forall_cons_2; [vm_compute; reflexivity |]).
  apply Forall_nil_2.
Defined.

Lemma run_on_mock_oracle_witness :
  run_simulation_stream
    (H0 := MockLLM (H := Offline.two_places) (H0 := Offline.dice))
    Demo.embedding (Demo.draft_for "b2b" 2)
    [Offline.phase_lead; Demo.someone "p1" "clicker"] 0
  = ([progress 1 2; progress 2 2;
      result {| result_id := "1700000000"; timestamp := 1700000000000;
                metrics := all_ignored 2; insights := [low_open_rate];
                responses := [not_relevant Offline.phase_lead;
                              not_relevant (Demo.someone "p1" "clicker")] |}],
     None, 0).
Proof.
  assert (Hparse : parses_empty_object) by (split; vm_compute; reflexivity).
  assert (Hfields : Forall (fun p => Forall (fun s => mentions_phase s = false)
                              [name p; role p; company p; psychographics p;
                               pastBehavior p])
                      [Offline.phase_lead; Demo.someone "p1" "clicker"]).
  { repeat (apply Forall_cons_2;
            [repeat (apply Forall_cons_2; [vm_compute; reflexivity |]);
             apply Forall_nil_2 |]).
    apply Forall_nil_2. }
  exact (run_on_mock_oracle (H0 := Offline.two_places) (H1 := Offline.dice)
           Demo.embedding (Demo.draft_for "b2b" 2)
           [Offline.phase_lead; Demo.someone "p1" "clicker"] 0
           Hparse demo_accepts_text demo_lower_on_ascii two_places_no_mark
           eq_refl eq_refl Hfields).
Defined.
